(** * SpotifyStreamsML: a shallow embedding of the stream-prediction notebook

    The program is one straight-line script, [spotifystreamsmlmodels.py].
    Each stage of the script is embedded as a function over the data it
    handles, in the order of the script:

    - data cleaning (lines 72-75): [drop_duplicates], [fillna];
    - feature engineering (lines 85-97): [to_datetime], the [.str] accessor,
      [astype], [to_numeric], [dropna];
    - anomaly detection (lines 118-128): [IsolationForest_fit_predict];
    - model creation (lines 195-294): [train_test_split], [StandardScaler],
      the three regressors and their metrics;
    - model comparison (lines 321-326): [cross_val_score], [xgb_cv].

    The library routines the script calls (pandas, scikit-learn, xgboost) are
    embedded by what they compute.  Learners and random number generators are
    taken as parameters.  A float64 cell value is held as the exact rational
    it denotes, and text is read as the nearest double.  Feature matrices
    and metrics are exact reals: the rounding of float64 arithmetic is not
    part of the model, and the properties stated of them are those that do
    not depend on it. *)

From Stdlib Require Import ZArith QArith Reals Lra Lia.
From Stdlib Require Import Ascii String.
From stdpp Require Import base decidable option list sorting strings gmap.

Set Default Proof Using "Type".

(** ** Exceptions *)

(** The Python exceptions the embedded stages raise. *)
Inductive exn : Type :=
  | ValueError
  | AttributeError
  | OverflowError
  | NameError
  | TypeError.

Inductive result (A : Type) : Type :=
  | Ok (a : A)
  | Raise (e : exn).
Arguments Ok {A} a.
Arguments Raise {A} e.

Global Instance result_ret : MRet result := fun A a => Ok a.

Global Instance result_bind : MBind result := fun A B k m =>
  match m with
  | Ok a => k a
  | Raise e => Raise e
  end.

(** ** Data cleaning (lines 72-75) *)

Section cleaning.
(** Cell values, compared by the equality pandas uses to find duplicates;
    a missing cell (NaN) is [None], and two missing cells are equal. *)
Context {V : Type} `{EqDecision V}.

Definition cell : Type := option V.

(** A row: its index label and its cells. *)
Record row : Type := mkRow { label : nat; cells : list cell }.

(** [data.drop_duplicates(inplace=True)]: a row is dropped when an earlier
    row has the same cells (keep='first'); labels are not compared. *)
Fixpoint drop_duplicates_from (seen : list (list cell)) (data : list row)
  : list row :=
  match data with
  | [] => []
  | r :: rest =>
      if decide (cells r ∈ seen) then drop_duplicates_from seen rest
      else r :: drop_duplicates_from (cells r :: seen) rest
  end.

Definition drop_duplicates (data : list row) : list row :=
  drop_duplicates_from [] data.

(** [data.fillna(v, inplace=True)]: every missing cell becomes [v]. *)
Definition fill_cell (v : V) (c : cell) : cell :=
  match c with
  | Some x => Some x
  | None => Some v
  end.

Definition fillna (v : V) (data : list row) : list row :=
  map (fun r => mkRow (label r) (map (fill_cell v) (cells r))) data.

(** Lines 72 and 75, with the fill value [zero]. *)
Definition clean (zero : V) (data : list row) : list row :=
  fillna zero (drop_duplicates data).

Definition no_missing (data : list row) : Prop :=
  Forall (fun r => Forall is_Some (cells r)) data.
End cleaning.

Arguments row V : clear implicits.

(** ** Cell values and columns of a pandas frame *)

(** A float64 value.  A finite value is held as the exact rational it
    denotes. *)
Inductive pyfloat : Type :=
  | FNaN
  | FInf (negative : bool)
  | FFin (q : Q).

(** A Python object held in a column of dtype [object]: a string, an int or
    a float; a missing value is the float NaN. *)
Inductive scalar : Type :=
  | SStr (s : string)
  | SInt (z : Z)
  | SFloat (f : pyfloat).

(** A column (a pandas Series) with its dtype. *)
Inductive column : Type :=
  | Object (l : list scalar)
  | Int64 (l : list Z)
  | Float64 (l : list pyfloat).

Definition column_length (c : column) : nat :=
  match c with
  | Object l => length l
  | Int64 l => length l
  | Float64 l => length l
  end.

(** Boolean indexing: keep the positions where the mask is [true]. *)
Fixpoint select {A : Type} (mask : list bool) (l : list A) : list A :=
  match mask, l with
  | b :: mask', x :: l' => if b then x :: select mask' l' else select mask' l'
  | _, _ => []
  end.

Definition select_column (mask : list bool) (c : column) : column :=
  match c with
  | Object l => Object (select mask l)
  | Int64 l => Int64 (select mask l)
  | Float64 l => Float64 (select mask l)
  end.

(** int64 arithmetic wraps around. *)
Definition wrap64 (z : Z) : Z :=
  ((z + 2 ^ 63) mod 2 ^ 64 - 2 ^ 63)%Z.

(** ** The [.str] accessor (lines 92-93) *)

(** What [pandas.api.types.infer_dtype(values, skipna=True)] answers on the
    values a column can hold. *)
Inductive inferred : Type :=
  | inf_string
  | inf_empty
  | inf_integer
  | inf_floating
  | inf_mixed_integer_float
  | inf_mixed_integer
  | inf_mixed.

Definition is_str (x : scalar) : bool :=
  match x with SStr _ => true | _ => false end.
Definition is_int (x : scalar) : bool :=
  match x with SInt _ => true | _ => false end.
Definition is_float (x : scalar) : bool :=
  match x with SFloat _ => true | _ => false end.
Definition notna (x : scalar) : bool :=
  match x with SFloat FNaN => false | _ => true end.

Definition infer_object (l : list scalar) : inferred :=
  let vals := filter (fun x => Is_true (notna x)) l in
  match vals with
  | [] => inf_empty
  | first :: _ =>
      if forallb is_str vals then inf_string
      else if is_int first && forallb is_int vals then inf_integer
      else if is_float first && forallb is_float vals then inf_floating
      else if negb (is_str first)
              && forallb (fun x => is_int x || is_float x) vals
           then inf_mixed_integer_float
      else if existsb is_int vals then inf_mixed_integer
      else inf_mixed
  end.

Definition infer_dtype (c : column) : inferred :=
  match c with
  | Object l => infer_object l
  | Int64 _ => inf_integer
  | Float64 _ => inf_floating
  end.

(** [Series.str]: the accessor exists only for string-like values. *)
Definition str_accessor (c : column) : result (list scalar) :=
  match infer_dtype c with
  | inf_string | inf_empty | inf_mixed | inf_mixed_integer =>
      match c with
      | Object l => Ok l
      | Int64 _ | Float64 _ => Raise AttributeError
      end
  | inf_integer | inf_floating | inf_mixed_integer_float =>
      Raise AttributeError
  end.

(** [str.replace(old, new)] of Python, for a one-character [old]. *)
Fixpoint replace_char (old : ascii) (new : string) (s : string) : string :=
  match s with
  | EmptyString => EmptyString
  | String c s' =>
      if Ascii.eqb c old then append new (replace_char old new s')
      else String c (replace_char old new s')
  end.

(** [Series.str.replace(pat, repl)]: strings are rewritten, every other
    value becomes NaN. *)
Definition str_replace (old : ascii) (new : string) (l : list scalar)
  : list scalar :=
  (map (fun x => match x with
                        | SStr s => SStr (replace_char old new s)
                        | _ => SFloat FNaN
                        end) l).

(** ** Rounding to float64 *)

(** The power [2 ^ e] of two, for any integer exponent. *)
Definition two_power (e : Z) : Q :=
  if (0 <=? e)%Z then inject_Z (2 ^ e) else Qmake 1 (Z.to_pos (2 ^ (- e))).

(** The integer nearest to a rational, a tie going to the even one. *)
Definition round_half_even (q : Q) : Z :=
  let n := Qnum q in
  let d := Zpos (Qden q) in
  let f := (n / d)%Z in
  let r := (2 * (n mod d))%Z in
  if (r <? d)%Z then f
  else if (d <? r)%Z then (f + 1)%Z
  else if Z.even f then f else (f + 1)%Z.

(** The exponent [e] with [2 ^ e <= q < 2 ^ (e + 1)], for a positive [q]. *)
Definition binade (q : Q) : Z :=
  let e := (Z.log2 (Qnum q) - Z.log2 (Zpos (Qden q)))%Z in
  if Qle_bool (two_power e) q then e else (e - 1)%Z.

(** The double nearest to a rational that is not negative and lies below the
    overflow threshold, as the correctly rounded [float] of Python finds it:
    53 significant bits, a tie going to the even significand; below
    [2 ^ -1022] the spacing stays [2 ^ -1074] (subnormal numbers). *)
Definition round_double (q : Q) : Q :=
  if Qle_bool q 0 then 0%Q
  else
    let ulp := two_power (Z.max (binade q) (- 1022) - 52) in
    Qred (Qmult (inject_Z (round_half_even (Qdiv q ulp))) ulp).

(** ** [float(str)] of Python, which [astype(float)] applies to each string *)

Definition code (c : ascii) : N := N_of_ascii c.

(** The characters [float] strips: ASCII white space, and the two Latin-1
    characters Unicode counts as white space. *)
Definition is_space (c : ascii) : bool :=
  let n := code c in
  ((9 <=? n) && (n <=? 13) || (n =? 32) || (n =? 133) || (n =? 160))%N.

Definition digit_of (c : ascii) : option Z :=
  let n := code c in
  if ((48 <=? n) && (n <=? 57))%N then Some (Z.of_N n - 48)%Z else None.

Fixpoint lstrip (s : list ascii) : list ascii :=
  match s with
  | c :: s' => if is_space c then lstrip s' else s
  | [] => []
  end.

Definition strip (s : list ascii) : list ascii :=
  rev (lstrip (rev (lstrip s))).

Definition lower (c : ascii) : ascii :=
  let n := code c in
  if ((65 <=? n) && (n <=? 90))%N then ascii_of_N (n + 32) else c.

(** The digits that follow a first digit, single underscores allowed between
    two digits: the value so far, the number of digits read, the rest. *)
Fixpoint more_digits (acc : Z) (count : nat) (s : list ascii)
  : Z * nat * list ascii :=
  match s with
  | [] => (acc, count, [])
  | c :: s' =>
      match digit_of c with
      | Some d => more_digits (acc * 10 + d) (S count) s'
      | None =>
          if Ascii.eqb c "_" then
            match s' with
            | c' :: s'' =>
                match digit_of c' with
                | Some d => more_digits (acc * 10 + d) (S count) s''
                | None => (acc, count, s)
                end
            | [] => (acc, count, s)
            end
          else (acc, count, s)
      end
  end.

(** [digitpart ::= digit (["_"] digit)*] *)
Definition digitpart (s : list ascii) : option (Z * nat * list ascii) :=
  match s with
  | c :: s' =>
      match digit_of c with
      | Some d => Some (more_digits d 1 s')
      | None => None
      end
  | [] => None
  end.

(** [number ::= [digitpart] "." digitpart | digitpart ["."]]: the digits read
    as one integer, how many of them follow the point, the rest. *)
Definition number (s : list ascii) : option (Z * nat * list ascii) :=
  match digitpart s with
  | Some (ip, _, rest) =>
      match rest with
      | c :: rest' =>
          if Ascii.eqb c "." then
            match digitpart rest' with
            | Some (fp, fc, rest'') =>
                Some ((ip * 10 ^ Z.of_nat fc + fp)%Z, fc, rest'')
            | None => Some (ip, 0%nat, rest')
            end
          else Some (ip, 0%nat, rest)
      | [] => Some (ip, 0%nat, [])
      end
  | None =>
      match s with
      | c :: s' => if Ascii.eqb c "." then digitpart s' else None
      | [] => None
      end
  end.

(** [exponent ::= ("e" | "E") [sign] digitpart]; no exponent is exponent 0. *)
Definition exponent (s : list ascii) : option (Z * list ascii) :=
  match s with
  | [] => Some (0%Z, [])
  | c :: s' =>
      if Ascii.eqb (lower c) "e" then
        let '(negative, s'') :=
          match s' with
          | c' :: t =>
              if Ascii.eqb c' "-" then (true, t)
              else if Ascii.eqb c' "+" then (false, t)
              else (false, s')
          | [] => (false, s')
          end in
        match digitpart s'' with
        | Some (e, _, rest) => Some (if negative then (- e)%Z else e, rest)
        | None => None
        end
      else Some (0%Z, s)
  end.

(** The value [m * 10 ^ e] of a decimal literal. *)
Definition decimal_value (m e : Z) : Q :=
  if (0 <=? e)%Z then inject_Z (m * 10 ^ e)
  else Qmake m (Z.to_pos (10 ^ (- e))).

(** The double a decimal literal of magnitude [q] reads as: the nearest
    double, and infinity from [2^1024 - 2^970] on, where the nearest double
    would exceed the largest one. *)
Definition to_double (negative : bool) (q : Q) : pyfloat :=
  if Qle_bool (inject_Z (2 ^ 1024 - 2 ^ 970)) q then FInf negative
  else FFin (if negative then Qopp (round_double q) else round_double q).

Definition float_of_chars (s : list ascii) : option pyfloat :=
  let s := strip s in
  let '(negative, body) :=
    match s with
    | c :: t =>
        if Ascii.eqb c "-" then (true, t)
        else if Ascii.eqb c "+" then (false, t)
        else (false, s)
    | [] => (false, s)
    end in
  let word := string_of_list_ascii (map lower body) in
  if String.eqb word "inf" || String.eqb word "infinity" then
    Some (FInf negative)
  else if String.eqb word "nan" then Some FNaN
  else
    match number body with
    | Some (m, fc, rest) =>
        match exponent rest with
        | Some (e, []) =>
            Some (to_double negative (decimal_value m (e - Z.of_nat fc)))
        | _ => None
        end
    | None => None
    end.

(** [float(s)]: the value, or ValueError. *)
Definition float (s : string) : result pyfloat :=
  match float_of_chars (list_ascii_of_string s) with
  | Some f => Ok f
  | None => Raise ValueError
  end.

(** ** [astype] and [fillna] on the count columns (lines 92-93) *)

(** [Series.astype(float)] on a column of dtype object. *)
Definition astype_float (l : list scalar) : result (list pyfloat) :=
  mapM (fun x => match x with
                 | SStr s => float s
                 | SInt z => Ok (FFin (inject_Z z))
                 | SFloat f => Ok f
                 end) l.

(** [Series.fillna(0)] on a column of dtype float64. *)
Definition fillna_float (l : list pyfloat) : list pyfloat :=
  map (fun f => match f with FNaN => FFin 0 | _ => f end) l.

(** The cast of one double to int64: the fraction is dropped; a value that
    does not fit reads as the smallest int64, as the x86-64 conversion
    yields. *)
Definition int_of_float (q : Q) : Z :=
  let z := (Qnum q ÷ Zpos (Qden q))%Z in
  if ((- 2 ^ 63 <=? z) && (z <? 2 ^ 63))%Z then z else (- 2 ^ 63)%Z.

(** [Series.astype(int)] on a column of dtype float64: NaN and infinities
    cannot be cast. *)
Definition astype_int (l : list pyfloat) : result (list Z) :=
  mapM (fun f => match f with
                 | FFin q => Ok (int_of_float q)
                 | FNaN | FInf _ => Raise ValueError
                 end) l.

(** Line 92 and line 93, right-hand side:
    [col.str.replace(',', '').astype(float).fillna(0).astype(int)]. *)
Definition normalize_count (col : column) : result column :=
  strs ← str_accessor col;
  floats ← astype_float (str_replace "," "" strs);
  ints ← astype_int (fillna_float floats);
  Ok (Int64 ints).

(** ** Calendar dates: [pd.to_datetime] on year, month and day columns
    (lines 85-91) *)

Local Open Scope Z_scope.

Definition is_leap (y : Z) : bool :=
  ((y mod 4 =? 0) && negb (y mod 100 =? 0)) || (y mod 400 =? 0).

Definition days_in_month (y m : Z) : Z :=
  if m =? 2 then (if is_leap y then 29 else 28)
  else if (m =? 4) || (m =? 6) || (m =? 9) || (m =? 11) then 30
  else 31.

(** Days from 1970-01-01 to the civil date [y]-[m]-[d]. *)
Definition days_from_civil (y m d : Z) : Z :=
  let y' := if m <=? 2 then y - 1 else y in
  let era := y' / 400 in
  let yoe := y' - era * 400 in
  let doy := (153 * (if 2 <? m then m - 3 else m + 9) + 2) / 5 + d - 1 in
  let doe := yoe * 365 + yoe / 4 - yoe / 100 + doy in
  era * 146097 + doe - 719468.

Definition nanoseconds_per_day : Z := 86400 * 10 ^ 9.

(** The days a datetime64[ns] can hold, counted from 1970-01-01:
    1677-09-22 to 2262-04-11. *)
Definition max_day : Z := 106751.

(** pandas assembles the three parts into the number [yyyymmdd] and reads it
    back with the format [%Y%m%d]; the result is the timestamp of midnight, in
    nanoseconds.  Every failure surfaces as ValueError ("cannot assemble the
    datetimes"). *)
Definition assemble (y m d : Z) : Z := wrap64 (y * 10000 + m * 100 + d).

Definition parse_yyyymmdd (v : Z) : result Z :=
  if (10000000 <=? v) && (v <=? 99999999) then
    let y := v / 10000 in
    let m := (v / 100) mod 100 in
    let d := v mod 100 in
    if (1 <=? m) && (m <=? 12) && (1 <=? d) && (d <=? days_in_month y m) then
      let n := days_from_civil y m d in
      if (- max_day <=? n) && (n <=? max_day)
      then Ok (n * nanoseconds_per_day)
      else Raise ValueError
    else Raise ValueError
  else Raise ValueError.

Fixpoint zip3 {A B C : Type} (la : list A) (lb : list B) (lc : list C)
  : list (A * B * C) :=
  match la, lb, lc with
  | a :: la', b :: lb', c :: lc' => (a, b, c) :: zip3 la' lb' lc'
  | _, _, _ => []
  end.

(** [pd.to_datetime({'year': ..., 'month': ..., 'day': ...})] with the default
    [errors='raise']: one unreadable row raises for the whole column. *)
Definition to_datetime (year month day : list Z) : result (list Z) :=
  mapM (fun '(y, m, d) => parse_yyyymmdd (assemble y m d))
       (zip3 year month day).

(** [(pd.Timestamp.now() - date).days] for one date: the difference is an
    int64 count of nanoseconds, [.days] its whole days (rounded down). *)
Definition days_since (now date : Z) : result Z :=
  let delta := now - date in
  if (- 2 ^ 63 <? delta) && (delta <? 2 ^ 63)
  then Ok (delta / nanoseconds_per_day)
  else Raise OverflowError.

Local Close Scope Z_scope.

(** ** [pd.to_numeric(..., errors='coerce')] and [dropna] (lines 96-97) *)

Inductive numeric : Type :=
  | NInt (z : Z)
  | NFloat (f : pyfloat).

Definition number_to_float (n : option numeric) : pyfloat :=
  match n with
  | Some (NInt z) => FFin (inject_Z z)
  | Some (NFloat f) => f
  | None => FNaN
  end.

Definition number_to_int (n : option numeric) : option Z :=
  match n with
  | Some (NInt z) => Some z
  | _ => None
  end.

(** Which rows hold a value ([Series.notna]). *)
Definition notna_mask (c : column) : list bool :=
  match c with
  | Object l => map notna l
  | Int64 l => map (fun _ => true) l
  | Float64 l => map (fun f => match f with FNaN => false | _ => true end) l
  end.

(** The frame of the script, by its columns.  The three date parts are
    integer columns; [release_date] and [days_since_release] exist once line
    85 and line 91 have run. *)
Record DataFrame : Type := mkDataFrame {
  released_year : list Z;
  released_month : list Z;
  released_day : list Z;
  in_deezer_playlists : column;
  in_shazam_charts : column;
  streams : column;
  release_date : option (list Z);
  days_since_release : option (list Z);
  other_columns : list column
}.

(** [data[mask]]: the same rows of every column. *)
Definition select_rows (mask : list bool) (data : DataFrame) : DataFrame :=
  {| released_year := select mask (released_year data);
     released_month := select mask (released_month data);
     released_day := select mask (released_day data);
     in_deezer_playlists := select_column mask (in_deezer_playlists data);
     in_shazam_charts := select_column mask (in_shazam_charts data);
     streams := select_column mask (streams data);
     release_date := select mask <$> release_date data;
     days_since_release := select mask <$> days_since_release data;
     other_columns := select_column mask <$> other_columns data |}.

(** [data.dropna(subset=['streams'], inplace=True)]. *)
Definition dropna_streams (data : DataFrame) : DataFrame :=
  select_rows (notna_mask (streams data)) data.

Section feature_engineering.
(** The numeric literals [pd.to_numeric] reads: the number a string denotes,
    if it denotes one. *)
Variable numeric_literal : string -> option numeric.

Definition to_number (x : scalar) : option numeric :=
  match x with
  | SStr s => numeric_literal s
  | SInt z => Some (NInt z)
  | SFloat f => Some (NFloat f)
  end.

(** [pd.to_numeric(col, errors='coerce')]: what cannot be read becomes NaN;
    the result is an integer column when every value is an integer. *)
Definition to_numeric (c : column) : column :=
  match c with
  | Object l =>
      let nums := map to_number l in
      match mapM number_to_int nums with
      | Some zs => Int64 zs
      | None => Float64 (map number_to_float nums)
      end
  | Int64 l => Int64 l
  | Float64 l => Float64 l
  end.

(** Lines 85-97, run at the wall-clock time [now] (nanoseconds since
    1970-01-01). *)
Definition feature_engineering (now : Z) (data : DataFrame)
  : result DataFrame :=
  dates ← to_datetime (released_year data) (released_month data)
                      (released_day data);
  days ← mapM (days_since now) dates;
  deezer ← normalize_count (in_deezer_playlists data);
  shazam ← normalize_count (in_shazam_charts data);
  let data :=
    {| released_year := released_year data;
       released_month := released_month data;
       released_day := released_day data;
       in_deezer_playlists := deezer;
       in_shazam_charts := shazam;
       streams := to_numeric (streams data);
       release_date := Some dates;
       days_since_release := Some days;
       other_columns := other_columns data |} in
  Ok (dropna_streams data).
End feature_engineering.

(** ** Real vectors and matrices *)

Local Open Scope R_scope.

Definition vector : Type := list R.

(** A feature matrix, row by row. *)
Definition matrix : Type := list (list R).

Global Instance Rle_decision : RelDecision Rle := Rle_dec.
Global Instance Rlt_decision : RelDecision Rlt := Rlt_dec.
Global Instance Req_decision : EqDecision R := Req_dec_T.

(** The order of the reals is total and transitive, which sorting relies
    on. *)
Global Instance Rle_total : Total Rle := fun x y =>
  match Rle_dec x y with
  | left H => or_introl H
  | right H => or_intror (Rlt_le y x (Rnot_le_lt x y H))
  end.
Global Instance Rle_transitive : Transitive Rle := Rle_trans.

Definition Rsum (v : vector) : R := foldr Rplus 0 v.

(** [np.mean], on a vector that is not empty. *)
Definition mean (v : vector) : R := Rsum v / INR (length v).

(** Positional indexing ([X.iloc[idx]], [X[idx]]). *)
Definition take_rows {A : Type} (idx : list nat) (l : list A) : list A :=
  omap (fun i => l !! i) idx.

(** ** Anomaly detection (lines 118-128) *)

(** [np.percentile(a, q)] for an integer percentage [q], with numpy's default
    linear interpolation between the two nearest ranks. *)
Definition percentile (a : vector) (q : nat) : R :=
  let sorted := merge_sort Rle a in
  let rank := ((length a - 1) * q)%nat in
  let prev := (rank / 100)%nat in
  let next := Nat.min (prev + 1) (length a - 1) in
  let gamma := INR (rank mod 100) / 100 in
  nth prev sorted 0 + (nth next sorted 0 - nth prev sorted 0) * gamma.

Section anomaly_detection.
(** A row of the frame and its numeric features. *)
Context {Row : Type}.
Variable numeric_features : Row -> list R.

(** The isolation forest grown on a feature matrix with [random_state=42],
    and the anomaly score it gives a sample (low is abnormal). *)
Context {Forest : Type}.
Variable grow_forest : matrix -> Forest.
Variable score_samples : Forest -> list R -> R.

(** A fitted [IsolationForest]: the forest and the threshold [offset_]. *)
Record IsolationForest : Type := mkIsolationForest {
  estimators_ : Forest;
  offset_ : R
}.

(** [IsolationForest(contamination=0.05, random_state=42).fit(X)]: the
    threshold is the 5th percentile of the training scores.  An empty matrix
    is refused. *)
Definition IsolationForest_fit (X : matrix) : result IsolationForest :=
  match X with
  | [] => Raise ValueError
  | _ :: _ =>
      let forest := grow_forest X in
      Ok (mkIsolationForest forest
            (percentile (map (score_samples forest) X) 5))
  end.

Definition decision_function (f : IsolationForest) (x : list R) : R :=
  score_samples (estimators_ f) x - offset_ f.

(** [predict]: -1 for an outlier, 1 for an inlier. *)
Definition IsolationForest_predict (f : IsolationForest) (X : matrix)
  : list Z :=
  map (fun x => if decide (decision_function f x < 0) then (-1)%Z else 1%Z) X.

Definition IsolationForest_fit_predict (X : matrix) : result (list Z) :=
  f ← IsolationForest_fit X;
  Ok (IsolationForest_predict f X).

(** Lines 118-128: the labels become the column [anomaly], and the rows
    labelled 1 are kept. *)
Definition anomaly_detection (data : list Row) : result (list (Row * Z)) :=
  anomalies ← IsolationForest_fit_predict (map numeric_features data);
  let data := zip data anomalies in
  Ok (filter (fun r => r.2 = 1%Z) data).
End anomaly_detection.

(** ** Train/test split (lines 199 and 267) *)

Record Split : Type := mkSplit {
  split_X_train : matrix;
  split_X_test : matrix;
  split_y_train : vector;
  split_y_test : vector
}.

Section train_test_split.
(** [np.random.RandomState(seed).permutation(n)]. *)
Variable permutation : Z -> nat -> list nat.

(** [train_test_split(X, y, test_size=0.2, random_state=seed)]: the first
    [ceil(0.2 * n)] entries of the seeded permutation are the test rows, the
    others the training rows.  Inputs of different lengths and an empty
    training set are refused. *)
Definition train_test_split (X : matrix) (y : vector) (seed : Z)
  : result Split :=
  let n_samples := length X in
  let n_test := ((n_samples + 4) / 5)%nat in
  let n_train := (n_samples - n_test)%nat in
  if decide (length y <> n_samples) then Raise ValueError
  else if decide (n_train = 0%nat) then Raise ValueError
  else
    let perm := permutation seed n_samples in
    let test := take n_test perm in
    let train := take n_train (drop n_test perm) in
    Ok (mkSplit (take_rows train X) (take_rows test X)
                (take_rows train y) (take_rows test y)).
End train_test_split.

(** ** Standardizer (lines 202-204, 321) *)

(** A fitted [StandardScaler]: per-feature mean and scale. *)
Record StandardScaler : Type := mkStandardScaler {
  mean_ : list R;
  scale_ : list R
}.

Definition column_of (j : nat) (X : matrix) : vector :=
  map (fun row => nth j row 0) X.

(** Population variance and standard deviation ([np.var], [np.std]). *)
Definition variance (v : vector) : R :=
  mean (map (fun x => (x - mean v) ^ 2) v).

Definition std (v : vector) : R := sqrt (variance v).

(** A zero scale is replaced by 1 ([_handle_zeros_in_scale]). *)
Definition handle_zeros_in_scale (s : R) : R :=
  if decide (s = 0) then 1 else s.

(** [StandardScaler().fit(X)]; an empty matrix is refused. *)
Definition StandardScaler_fit (X : matrix) : result StandardScaler :=
  match X with
  | [] => Raise ValueError
  | row :: _ =>
      let features := seq 0 (length row) in
      Ok (mkStandardScaler
            (map (fun j => mean (column_of j X)) features)
            (map (fun j => handle_zeros_in_scale (std (column_of j X)))
                 features))
  end.

(** [scaler.transform(X)]: [(x - mean_) / scale_], feature by feature. *)
Definition transform (scaler : StandardScaler) (X : matrix) : matrix :=
  map (fun row =>
         zip_with (fun x ms => (x - ms.1) / ms.2) row
                  (zip (mean_ scaler) (scale_ scaler))) X.

(** ** Metrics (lines 215-221) *)

Definition mean_squared_error (y_true y_pred : vector) : R :=
  mean (zip_with (fun t p => (t - p) ^ 2) y_true y_pred).

(** [mean_squared_error(..., squared=False)]. *)
Definition root_mean_squared_error (y_true y_pred : vector) : R :=
  sqrt (mean_squared_error y_true y_pred).

Definition mean_absolute_error (y_true y_pred : vector) : R :=
  mean (zip_with (fun t p => Rabs (t - p)) y_true y_pred).

(** [r2_score]: NaN ([None]) for fewer than two samples; for a constant
    target, 1 when the predictions are exact and 0 otherwise. *)
Definition r2_score (y_true y_pred : vector) : option R :=
  if decide (length y_true < 2)%nat then None
  else
    let ss_res := Rsum (zip_with (fun t p => (t - p) ^ 2) y_true y_pred) in
    let ss_tot := Rsum (map (fun t => (t - mean y_true) ^ 2) y_true) in
    Some (if decide (ss_tot = 0)
          then (if decide (ss_res = 0) then 1 else 0)
          else 1 - ss_res / ss_tot).

(** ** k-fold splitting *)

(** [np.array_split(l, k)]: [k] consecutive sections, the first
    [length l mod k] one element longer. *)
Definition section_sizes (n k : nat) : list nat :=
  replicate (n mod k) (n / k + 1)%nat ++ replicate (k - n mod k) (n / k)%nat.

Fixpoint sections {A : Type} (sizes : list nat) (l : list A)
  : list (list A) :=
  match sizes with
  | [] => []
  | s :: sizes' => take s l :: sections sizes' (drop s l)
  end.

Definition array_split {A : Type} (l : list A) (k : nat) : list (list A) :=
  sections (section_sizes (length l) k) l.

(** The rows left for training when [test] is held out, in row order. *)
Definition complement (n : nat) (test : list nat) : list nat :=
  filter (fun i => i ∉ test) (seq 0 n).

(** [KFold(n_splits=k).split(X)] without shuffling: the (train, test) index
    lists; fewer samples than folds are refused. *)
Definition KFold (k n : nat) : result (list (list nat * list nat)) :=
  if decide (n < k)%nat then Raise ValueError
  else Ok (map (fun test => (complement n test, test))
               (array_split (seq 0 n) k)).

(** ** The learners *)

(** What the script uses of a scikit-learn regressor: [fit] returns the
    fitted estimator, [clone] an unfitted one with the same parameters. *)
Class Estimator (E : Type) : Type := {
  fit : E -> matrix -> vector -> E;
  predict : E -> matrix -> vector;
  clone : E -> E
}.

(** The learning routines and the random number generator the script calls;
    what they compute is left open. *)
Record Library : Type := mkLibrary {
  (** [np.random.RandomState(seed).permutation(n)] *)
  permutation : Z -> nat -> list nat;
  LinearRegression : Type;
  LinearRegression_estimator : Estimator LinearRegression;
  (** [LinearRegression()] *)
  new_LinearRegression : LinearRegression;
  MLPRegressor : Type;
  MLPRegressor_estimator : Estimator MLPRegressor;
  (** [MLPRegressor(random_state=42)] *)
  new_MLPRegressor : MLPRegressor;
  (** the [best_estimator_] that [GridSearchCV(estimator, param_grid, cv=5,
      scoring='neg_mean_squared_error')] finds for the grid of lines
      243-249 *)
  grid_search : MLPRegressor -> matrix -> vector -> MLPRegressor;
  Booster : Type;
  (** [xgb.train(params, DMatrix(X, label=y), num_boost_round)] for the
      parameters of lines 275-280 *)
  xgb_train : nat -> matrix -> vector -> Booster;
  (** [booster.predict(DMatrix(X))] *)
  xgb_predict : Booster -> matrix -> vector
}.

Global Existing Instance LinearRegression_estimator.
Global Existing Instance MLPRegressor_estimator.

(** ** Cross-validation (lines 252-253, 283, 324-326) *)

(** [GridSearchCV(..., cv=5).fit(X, y).best_estimator_]: the search splits the
    rows into five folds, so fewer than five rows are refused. *)
Definition GridSearchCV_fit (lib : Library) (estimator : MLPRegressor lib)
    (X : matrix) (y : vector) : result (MLPRegressor lib) :=
  _ ← KFold 5 (length X);
  Ok (grid_search lib estimator X y).

(** The RMSE of one fold: a clone of the estimator is fitted on the training
    rows and scored on the held-out rows. *)
Definition fold_rmse `{Estimator E} (estimator : E) (X : matrix) (y : vector)
    (fold : list nat * list nat) : R :=
  let fitted :=
    fit (clone estimator) (take_rows fold.1 X) (take_rows fold.1 y) in
  root_mean_squared_error (take_rows fold.2 y)
                          (predict fitted (take_rows fold.2 X)).

(** [cross_val_score(estimator, X, y, cv=5,
    scoring='neg_root_mean_squared_error')]: one score per fold of an
    unshuffled [KFold]; inputs of different lengths are refused. *)
Definition cross_val_score `{Estimator E} (estimator : E) (X : matrix)
    (y : vector) (cv : nat) : result (list R) :=
  if decide (length y <> length X) then Raise ValueError
  else
    folds ← KFold cv (length X);
    Ok (map (fun fold => - fold_rmse estimator X y fold) folds).

(** One row of the table [xgb.cv] returns: the mean and the standard
    deviation, over the folds, of the training and of the held-out RMSE after
    one boosting round. *)
Record cv_row : Type := mkCvRow {
  train_rmse_mean : R;
  train_rmse_std : R;
  test_rmse_mean : R;
  test_rmse_std : R
}.

Section xgb_cv.
Variable lib : Library.

(** The held-out folds of [xgb.cv]: the seeded permutation of the rows, cut
    into [nfold] sections. *)
Definition xgb_folds (n nfold : nat) (seed : Z) : list (list nat) :=
  array_split (permutation lib seed n) nfold.

(** The rows outside the held-out fold [k], fold after fold. *)
Definition xgb_train_rows (folds : list (list nat)) (k : nat) : list nat :=
  concat (omap (fun i => if decide (i = k) then None else folds !! i)
               (seq 0 (length folds))).

(** RMSE of a booster on labelled rows. *)
Definition xgb_rmse (b : Booster lib) (X : matrix) (label : vector) : R :=
  root_mean_squared_error label (xgb_predict lib b X).

(** The training and the held-out RMSE of fold [k] after [rounds] boosting
    rounds on the other folds. *)
Definition xgb_fold_eval (X : matrix) (y : vector) (rounds : nat)
    (folds : list (list nat)) (k : nat) (test : list nat) : R * R :=
  let train := xgb_train_rows folds k in
  let b := xgb_train lib rounds (take_rows train X) (take_rows train y) in
  (xgb_rmse b (take_rows train X) (take_rows train y),
   xgb_rmse b (take_rows test X) (take_rows test y)).

(** [xgb.cv(params, DMatrix(X, label=y), num_boost_round, nfold,
    metrics=['rmse'], as_pandas=True, seed)]: one row per boosting round;
    row [i] evaluates every fold after [i + 1] rounds. *)
Definition xgb_cv (X : matrix) (y : vector) (num_boost_round nfold : nat)
    (seed : Z) : list cv_row :=
  let folds := xgb_folds (length X) nfold seed in
  map (fun i =>
         let evals := imap (xgb_fold_eval X y (S i) folds) folds in
         mkCvRow (mean evals.*1) (std evals.*1)
                 (mean evals.*2) (std evals.*2))
      (seq 0 num_boost_round).
End xgb_cv.

(** ** The notebook's global namespace *)

Section notebook.
Variable lib : Library.

(** The objects bound to the global names of the model cells. *)
Inductive value : Type :=
  | VMatrix (X : matrix)
  | VVector (y : vector)
  | VFloat (x : option R)
  | VScaler (s : StandardScaler)
  | VLinear (m : LinearRegression lib)
  | VNeural (m : MLPRegressor lib)
  | VBooster (b : Booster lib)
  | VDMatrix (X : matrix) (label : vector)
  | VTable (rows : list cv_row).

(** A cell runs on the namespace and rebinds names in it, or raises. *)
Definition script (A : Type) : Type :=
  gmap string value -> result (A * gmap string value).

Global Instance script_ret : MRet script := fun A a ns => Ok (a, ns).

Global Instance script_bind : MBind script := fun A B k m ns =>
  match m ns with
  | Ok (a, ns') => k a ns'
  | Raise e => Raise e
  end.

(** [name = v] *)
Definition assign (name : string) (v : value) : script unit :=
  fun ns => Ok (tt, <[name := v]> ns).

Definition lookup_name (name : string) : script value :=
  fun ns => match ns !! name with
            | Some v => Ok (v, ns)
            | None => Raise NameError
            end.

Definition call {A : Type} (r : result A) : script A :=
  fun ns => match r with
            | Ok a => Ok (a, ns)
            | Raise e => Raise e
            end.

Definition get_matrix (name : string) : script matrix :=
  v ← lookup_name name;
  match v with VMatrix X => mret X | _ => call (Raise TypeError) end.

Definition get_vector (name : string) : script vector :=
  v ← lookup_name name;
  match v with VVector y => mret y | _ => call (Raise TypeError) end.

Definition get_scaler (name : string) : script StandardScaler :=
  v ← lookup_name name;
  match v with VScaler s => mret s | _ => call (Raise TypeError) end.

Definition get_linear (name : string) : script (LinearRegression lib) :=
  v ← lookup_name name;
  match v with VLinear m => mret m | _ => call (Raise TypeError) end.

Definition get_neural (name : string) : script (MLPRegressor lib) :=
  v ← lookup_name name;
  match v with VNeural m => mret m | _ => call (Raise TypeError) end.

Definition get_booster (name : string) : script (Booster lib) :=
  v ← lookup_name name;
  match v with VBooster b => mret b | _ => call (Raise TypeError) end.

Definition get_dmatrix (name : string) : script (matrix * vector) :=
  v ← lookup_name name;
  match v with VDMatrix X l => mret (X, l) | _ => call (Raise TypeError) end.

(** [X_train, X_test, y_train, y_test =
      train_test_split(X, y, test_size=0.2, random_state=42)] *)
Definition split_cell : script unit :=
  X ← get_matrix "X";
  y ← get_vector "y";
  s ← call (train_test_split (permutation lib) X y 42);
  assign "X_train" (VMatrix (split_X_train s));;
  assign "X_test" (VMatrix (split_X_test s));;
  assign "y_train" (VVector (split_y_train s));;
  assign "y_test" (VVector (split_y_test s)).

(** Lines 199-221: split, scale, fit the linear model and evaluate it. *)
Definition linear_regression_cell : script unit :=
  split_cell;;
  (* scaler = StandardScaler(); X_train_scaled = scaler.fit_transform(X_train) *)
  X_train ← get_matrix "X_train";
  scaler ← call (StandardScaler_fit X_train);
  assign "scaler" (VScaler scaler);;
  assign "X_train_scaled" (VMatrix (transform scaler X_train));;
  (* X_test_scaled = scaler.transform(X_test) *)
  scaler ← get_scaler "scaler";
  X_test ← get_matrix "X_test";
  assign "X_test_scaled" (VMatrix (transform scaler X_test));;
  (* model = LinearRegression(); model.fit(X_train_scaled, y_train) *)
  assign "model" (VLinear (new_LinearRegression lib));;
  model ← get_linear "model";
  X_train_scaled ← get_matrix "X_train_scaled";
  y_train ← get_vector "y_train";
  assign "model" (VLinear (fit model X_train_scaled y_train));;
  (* y_pred = model.predict(X_test_scaled) *)
  model ← get_linear "model";
  X_test_scaled ← get_matrix "X_test_scaled";
  assign "y_pred" (VVector (predict model X_test_scaled));;
  (* mse, rmse, mae, r2 *)
  y_test ← get_vector "y_test";
  y_pred ← get_vector "y_pred";
  assign "mse" (VFloat (Some (mean_squared_error y_test y_pred)));;
  assign "rmse" (VFloat (Some (root_mean_squared_error y_test y_pred)));;
  assign "mae" (VFloat (Some (mean_absolute_error y_test y_pred)));;
  assign "r2" (VFloat (r2_score y_test y_pred)).

(** Lines 240-262: search the grid, refit the best network, evaluate it. *)
Definition neural_network_cell : script unit :=
  (* neural_net = MLPRegressor(random_state=42) *)
  assign "neural_net" (VNeural (new_MLPRegressor lib));;
  (* grid_search.fit(X_train_scaled, y_train);
     best_neural_net = grid_search.best_estimator_ *)
  neural_net ← get_neural "neural_net";
  X_train_scaled ← get_matrix "X_train_scaled";
  y_train ← get_vector "y_train";
  best ← call (GridSearchCV_fit lib neural_net X_train_scaled y_train);
  assign "best_neural_net" (VNeural best);;
  (* best_neural_net.fit(X_train_scaled, y_train) *)
  best ← get_neural "best_neural_net";
  assign "best_neural_net" (VNeural (fit best X_train_scaled y_train));;
  (* y_pred = best_neural_net.predict(X_test_scaled) *)
  best ← get_neural "best_neural_net";
  X_test_scaled ← get_matrix "X_test_scaled";
  assign "y_pred" (VVector (predict best X_test_scaled));;
  (* mse, r2 *)
  y_test ← get_vector "y_test";
  y_pred ← get_vector "y_pred";
  assign "mse" (VFloat (Some (mean_squared_error y_test y_pred)));;
  assign "r2" (VFloat (r2_score y_test y_pred)).

(** Lines 267-294: split again, train the boosted trees, evaluate them. *)
Definition xgboost_cell : script unit :=
  split_cell;;
  (* dtrain, dtest, dall *)
  X_train ← get_matrix "X_train";
  y_train ← get_vector "y_train";
  assign "dtrain" (VDMatrix X_train y_train);;
  X_test ← get_matrix "X_test";
  y_test ← get_vector "y_test";
  assign "dtest" (VDMatrix X_test y_test);;
  X ← get_matrix "X";
  y ← get_vector "y";
  assign "dall" (VDMatrix X y);;
  (* cv_results = xgb.cv(params, dtrain, num_boost_round=100, nfold=5, ...) *)
  dtrain ← get_dmatrix "dtrain";
  assign "cv_results" (VTable (xgb_cv lib dtrain.1 dtrain.2 100 5 42));;
  (* xgb_model = xgb.train(params, dtrain, num_boost_round=100) *)
  assign "xgb_model" (VBooster (xgb_train lib 100 dtrain.1 dtrain.2));;
  (* y_pred = xgb_model.predict(dtest) *)
  xgb_model ← get_booster "xgb_model";
  dtest ← get_dmatrix "dtest";
  assign "y_pred" (VVector (xgb_predict lib xgb_model dtest.1));;
  (* r2 = r2_score(y_test, y_pred) *)
  y_test ← get_vector "y_test";
  y_pred ← get_vector "y_pred";
  assign "r2" (VFloat (r2_score y_test y_pred)).

(** [(-scores).mean()] *)
Definition mean_of_negated (scores : list R) : R := mean (map Ropp scores).

(** Lines 321-326: the cross-validated value of each model. *)
Definition comparison_cell : script unit :=
  (* X_scaled = scaler.transform(X) *)
  scaler ← get_scaler "scaler";
  X ← get_matrix "X";
  assign "X_scaled" (VMatrix (transform scaler X));;
  X_scaled ← get_matrix "X_scaled";
  y ← get_vector "y";
  model ← get_linear "model";
  scores ← call (cross_val_score model X_scaled y 5);
  assign "cross_val_score_lin_reg" (VFloat (Some (mean_of_negated scores)));;
  best ← get_neural "best_neural_net";
  scores ← call (cross_val_score best X_scaled y 5);
  assign "cross_val_score_nn" (VFloat (Some (mean_of_negated scores)));;
  (* xgb.cv(params, dall, ...).mean()[2] *)
  dall ← get_dmatrix "dall";
  let table := xgb_cv lib dall.1 dall.2 100 5 42 in
  assign "cross_val_score_xgboost"
         (VFloat (Some (mean (map test_rmse_mean table)))).

(** The namespace once lines 195-196 have bound [X] and [y]. *)
Definition features_and_target (X : matrix) (y : vector)
  : gmap string value :=
  <["y" := VVector y]> (<["X" := VMatrix X]> ∅).

(** The model cells in the order of the notebook. *)
Definition model_cells : script unit :=
  linear_regression_cell;; neural_network_cell;; xgboost_cell;;
  comparison_cell.
End notebook.

(** ** What the model cells bind *)

Section bindings.
Variable lib : Library.
Variable s : Split.
Variable scaler : StandardScaler.

Definition X_train_scaled : matrix := transform scaler (split_X_train s).
Definition X_test_scaled : matrix := transform scaler (split_X_test s).

(** [model] after line 208, and its [y_pred] (line 211). *)
Definition linear_model : LinearRegression lib :=
  fit (new_LinearRegression lib) X_train_scaled (split_y_train s).
Definition linear_y_pred : vector := predict linear_model X_test_scaled.

(** [best_neural_net] after line 257, and its [y_pred] (line 259). *)
Definition best_neural_net : MLPRegressor lib :=
  fit (grid_search lib (new_MLPRegressor lib) X_train_scaled
                   (split_y_train s))
      X_train_scaled (split_y_train s).
Definition neural_y_pred : vector := predict best_neural_net X_test_scaled.

(** [xgb_model] after line 287, and its [y_pred] (line 290). *)
Definition xgb_model : Booster lib :=
  xgb_train lib 100 (split_X_train s) (split_y_train s).
Definition xgb_y_pred : vector := xgb_predict lib xgb_model (split_X_test s).

(** The namespace after lines 199-221. *)
Definition after_linear (ns : gmap string (value lib))
  : gmap string (value lib) :=
  <["r2" := VFloat lib (r2_score (split_y_test s) linear_y_pred)]>
  (<["mae" := VFloat lib (Some (mean_absolute_error (split_y_test s)
                                                    linear_y_pred))]>
  (<["rmse" := VFloat lib (Some (root_mean_squared_error (split_y_test s)
                                                         linear_y_pred))]>
  (<["mse" := VFloat lib (Some (mean_squared_error (split_y_test s)
                                                   linear_y_pred))]>
  (<["y_pred" := VVector lib linear_y_pred]>
  (<["model" := VLinear lib linear_model]>
  (<["model" := VLinear lib (new_LinearRegression lib)]>
  (<["X_test_scaled" := VMatrix lib X_test_scaled]>
  (<["X_train_scaled" := VMatrix lib X_train_scaled]>
  (<["scaler" := VScaler lib scaler]>
  (<["y_test" := VVector lib (split_y_test s)]>
  (<["y_train" := VVector lib (split_y_train s)]>
  (<["X_test" := VMatrix lib (split_X_test s)]>
  (<["X_train" := VMatrix lib (split_X_train s)]> ns))))))))))))).

(** The namespace after lines 240-262. *)
Definition after_neural (ns : gmap string (value lib))
  : gmap string (value lib) :=
  <["r2" := VFloat lib (r2_score (split_y_test s) neural_y_pred)]>
  (<["mse" := VFloat lib (Some (mean_squared_error (split_y_test s)
                                                   neural_y_pred))]>
  (<["y_pred" := VVector lib neural_y_pred]>
  (<["best_neural_net" := VNeural lib best_neural_net]>
  (<["best_neural_net" :=
       VNeural lib (grid_search lib (new_MLPRegressor lib) X_train_scaled
                                (split_y_train s))]>
  (<["neural_net" := VNeural lib (new_MLPRegressor lib)]> ns))))).

(** The namespace after lines 267-294, for the features [X] and target
    [y]. *)
Definition after_xgboost (X : matrix) (y : vector)
    (ns : gmap string (value lib)) : gmap string (value lib) :=
  <["r2" := VFloat lib (r2_score (split_y_test s) xgb_y_pred)]>
  (<["y_pred" := VVector lib xgb_y_pred]>
  (<["xgb_model" := VBooster lib xgb_model]>
  (<["cv_results" :=
       VTable lib (xgb_cv lib (split_X_train s) (split_y_train s) 100 5 42)]>
  (<["dall" := VDMatrix lib X y]>
  (<["dtest" := VDMatrix lib (split_X_test s) (split_y_test s)]>
  (<["dtrain" := VDMatrix lib (split_X_train s) (split_y_train s)]>
  (<["y_test" := VVector lib (split_y_test s)]>
  (<["y_train" := VVector lib (split_y_train s)]>
  (<["X_test" := VMatrix lib (split_X_test s)]>
  (<["X_train" := VMatrix lib (split_X_train s)]> ns)))))))))).
End bindings.

(** The namespace after lines 321-326, given the fold scores of the linear
    model and of the network. *)
Definition after_comparison (lib : Library) (scaler : StandardScaler)
    (X : matrix) (y : vector) (linear_scores neural_scores : list R)
    (ns : gmap string (value lib)) : gmap string (value lib) :=
  <["cross_val_score_xgboost" :=
      VFloat lib (Some (mean (map test_rmse_mean
                                  (xgb_cv lib X y 100 5 42))))]>
  (<["cross_val_score_nn" :=
       VFloat lib (Some (mean_of_negated neural_scores))]>
  (<["cross_val_score_lin_reg" :=
       VFloat lib (Some (mean_of_negated linear_scores))]>
  (<["X_scaled" := VMatrix lib (transform scaler X)]> ns))).

(** ** Plain count text *)

(** The count a plain decimal text denotes: one or more of the digits 0-9
    and nothing else. *)
Fixpoint digits_from (acc : Z) (s : list ascii) : option Z :=
  match s with
  | [] => Some acc
  | c :: s' =>
      match digit_of c with
      | Some d => digits_from (acc * 10 + d) s'
      | None => None
      end
  end.

Definition count_of_text (s : string) : option Z :=
  match list_ascii_of_string s with
  | [] => None
  | c :: s' =>
      match digit_of c with
      | Some d => digits_from d s'
      | None => None
      end
  end.

(** An entry of a count column and the count it stands for: text with
    thousands separators stands for its digits (a count a double holds
    exactly), anything that is not text for 0. *)
Definition count_entry (x : scalar) (z : Z) : Prop :=
  match x with
  | SStr s => count_of_text (replace_char "," "" s) = Some z /\ (z < 2 ^ 53)%Z
  | _ => z = 0%Z
  end.

(** Text that, separators removed, is not a float literal. *)
Definition not_a_number (x : scalar) : Prop :=
  match x with
  | SStr s =>
      float_of_chars (list_ascii_of_string (replace_char "," "" s)) = None
  | _ => False
  end.

(** ** Calendar dates, as the specification speaks of them *)

(** The year, month and day of every row. *)
Definition date_parts (data : DataFrame) : list (Z * Z * Z) :=
  zip3 (released_year data) (released_month data) (released_day data).

(** Each part fills its own digits of [yyyymmdd]: a four-digit year, month
    and day of at most two digits. *)
Definition in_own_digits (t : Z * Z * Z) : Prop :=
  let '(y, m, d) := t in
  (1000 <= y <= 9999)%Z /\ (0 <= m <= 99)%Z /\ (0 <= d <= 99)%Z.

(** A date of the calendar that a datetime64[ns] can hold. *)
Definition calendar_date (t : Z * Z * Z) : Prop :=
  let '(y, m, d) := t in
  (1 <= m <= 12)%Z /\ (1 <= d <= days_in_month y m)%Z /\
  (- max_day <= days_from_civil y m d <= max_day)%Z.

(** Midnight of a date, in nanoseconds since 1970-01-01. *)
Definition timestamp (t : Z * Z * Z) : Z :=
  let '(y, m, d) := t in (days_from_civil y m d * nanoseconds_per_day)%Z.

(** ** Concrete datasets *)

(** Two rows that differ only by a missing value against a zero: the first
    pass of the cleaner keeps both and fills the first. *)
Definition missing_and_zero : list (row Z) :=
  [mkRow 0 [Some 1%Z; None]; mkRow 1 [Some 1%Z; Some 0%Z]].

(** Two equal rows without a missing value. *)
Definition complete_rows : list (row Z) :=
  [mkRow 0 [Some 1%Z; Some 2%Z]; mkRow 1 [Some 1%Z; Some 2%Z]].

(** A count column as the CSV holds it: text with a thousands separator, a
    filled-in missing value, plain text. *)
Definition counts_with_separators : list scalar :=
  [SStr "1,021"; SInt 0; SStr "95"].

(** A count column with one entry that is not a number. *)
Definition counts_with_a_word : list scalar :=
  [SStr "1,021"; SStr "abc"].

(** 2024-01-01 00:00, in nanoseconds since 1970-01-01. *)
Definition new_year_2024 : Z := (19723 * nanoseconds_per_day)%Z.

(** A reader of numeric literals that knows plain counts only. *)
Definition plain_counts (s : string) : option numeric :=
  NInt <$> count_of_text s.

(** Two songs with valid release dates; the second has no readable stream
    count. *)
Definition two_songs : DataFrame :=
  {| released_year := [2023; 2019]%Z;
     released_month := [7; 11]%Z;
     released_day := [14; 29]%Z;
     in_deezer_playlists := Object [SStr "45"; SStr "3,394"];
     in_shazam_charts := Object [SStr "826"; SInt 0];
     streams := Object [SStr "141381703"; SStr "BPM110KeyAModeMajor"];
     release_date := None;
     days_since_release := None;
     other_columns := [Object [SStr "Seven"; SStr "Love Grows"]] |}.

(** The same songs, the first one released on a 30th of February. *)
Definition february_30 : DataFrame :=
  {| released_year := [2023; 2019]%Z;
     released_month := [2; 11]%Z;
     released_day := [30; 29]%Z;
     in_deezer_playlists := Object [SStr "45"; SStr "3,394"];
     in_shazam_charts := Object [SStr "826"; SInt 0];
     streams := Object [SStr "141381703"; SStr "BPM110KeyAModeMajor"];
     release_date := None;
     days_since_release := None;
     other_columns := [Object [SStr "Seven"; SStr "Love Grows"]] |}.

(** A toy forest: the score of a sample is its first feature. *)
Definition first_feature (forest : unit) (x : list R) : R := nth 0 x 0.

(** A regressor that remembers the matrix it was fitted on and predicts the
    constant [c]. *)
Definition constant_regressor (c : R) : Estimator matrix :=
  {| fit := fun _ X _ => X;
     predict := fun _ X => map (fun _ => c) X;
     clone := fun _ => [] |}.

(** Toy learners.  The random permutation is the identity.  The linear model
    predicts 0 and the network predicts 1.  A booster remembers its number of
    rounds and its training matrix; it predicts 1 once it has 100 rounds and
    0 before. *)
Definition toy_library : Library :=
  {| permutation := fun _ n => seq 0 n;
     LinearRegression := matrix;
     LinearRegression_estimator := constant_regressor 0;
     new_LinearRegression := [];
     MLPRegressor := matrix;
     MLPRegressor_estimator := constant_regressor 1;
     new_MLPRegressor := [];
     grid_search := fun e _ _ => e;
     Booster := nat * matrix;
     xgb_train := fun rounds X _ => (rounds, X);
     xgb_predict := fun b X =>
       map (fun _ => if (b.1 =? 100)%nat then 1 else 0) X |}.

(** Ten songs with one feature, and their targets, all 1. *)
Definition ten_features : matrix :=
  [[3]; [3]; [0]; [2]; [0]; [2]; [0]; [2]; [0]; [2]].
Definition ten_targets : vector := [1; 1; 1; 1; 1; 1; 1; 1; 1; 1].

(** The split of the ten songs under the identity permutation. *)
Definition ten_split : Split :=
  {| split_X_train := [[0]; [2]; [0]; [2]; [0]; [2]; [0]; [2]];
     split_X_test := [[3]; [3]];
     split_y_train := [1; 1; 1; 1; 1; 1; 1; 1];
     split_y_test := [1; 1] |}.

(** The scaler fitted on the training rows of the ten songs. *)
Definition ten_scaler : StandardScaler :=
  {| mean_ := [mean (column_of 0 (split_X_train ten_split))];
     scale_ := [handle_zeros_in_scale
                  (std (column_of 0 (split_X_train ten_split)))] |}.

(** A matrix with one constant feature, and the scaler fitted on it. *)
Definition constant_feature : matrix := [[5]; [5]].
Definition constant_scaler : StandardScaler :=
  {| mean_ := [mean (column_of 0 constant_feature)];
     scale_ := [handle_zeros_in_scale (std (column_of 0 constant_feature))] |}.

(** ** What a count entry reads as *)

(** The float that [astype(float)] finds in an entry of a count column once
    [str.replace] has removed the separators: the value of the text, NaN for
    an entry that is not text. *)
Definition reads_as (x : scalar) (f : pyfloat) : Prop :=
  match x with
  | SStr s =>
      float_of_chars (list_ascii_of_string (replace_char "," "" s)) = Some f
  | _ => f = FNaN
  end.

(** The integer [fillna(0).astype(int)] makes of a float that is not
    infinite. *)
Definition count_of_float (f : pyfloat) : Z :=
  match f with
  | FFin q => int_of_float q
  | _ => 0%Z
  end.

(** A count column without text: two filled-in missing values. *)
Definition counts_without_text : list scalar := [SInt 0; SInt 0].

(** A count column with an entry that reads as infinity. *)
Definition counts_with_infinity : list scalar := [SStr "7"; SStr "1e999"].

(** A count column with a fraction, with the text [nan], and with a decimal
    that is no double: it lies nearest to the double 1. *)
Definition counts_with_fraction : list scalar :=
  [SStr "12.5"; SStr " NaN "; SStr "-0.5"; SStr "0.99999999999999999999"].

(** ** Frames with aligned columns *)

(** A frame of [n] rows: every column holds [n] entries. *)
Definition has_rows (n : nat) (data : DataFrame) : Prop :=
  length (released_year data) = n /\
  length (released_month data) = n /\
  length (released_day data) = n /\
  column_length (in_deezer_playlists data) = n /\
  column_length (in_shazam_charts data) = n /\
  column_length (streams data) = n /\
  (forall l, release_date data = Some l -> length l = n) /\
  (forall l, days_since_release data = Some l -> length l = n) /\
  Forall (fun c => column_length c = n) (other_columns data).

(** The rows a mask keeps. *)
Definition count_true (mask : list bool) : nat :=
  length (filter (fun b => Is_true b) mask).

(** A numeric column without a missing value. *)
Definition numeric_without_nan (c : column) : Prop :=
  match c with
  | Object _ => False
  | Int64 _ => True
  | Float64 l => Forall (fun f => f <> FNaN) l
  end.

(** ** The order of the calendar *)

(** The days in the years 1 to [y] of the proleptic Gregorian calendar. *)
Definition years_to_days (y : Z) : Z :=
  (365 * y + y / 4 - y / 100 + y / 400)%Z.

(** [t1] is a date before [t2]. *)
Definition earlier (t1 t2 : Z * Z * Z) : Prop :=
  let '(y1, m1, d1) := t1 in
  let '(y2, m2, d2) := t2 in
  (y1 < y2 \/ (y1 = y2 /\ (m1 < m2 \/ (m1 = m2 /\ d1 < d2))))%Z.

(** The anomaly score of a row of [data], from the forest grown on
    [data]. *)
Definition anomaly_score {Row Forest : Type}
    (numeric_features : Row -> list R) (grow_forest : matrix -> Forest)
    (score_samples : Forest -> list R -> R) (data : list Row) (r : Row) : R :=
  score_samples (grow_forest (map numeric_features data)) (numeric_features r).

(** [len(data[data['anomaly'] == -1])], the number line 127 prints. *)
Definition number_of_anomalies {Row : Type} (data : list (Row * Z)) : nat :=
  length (filter (fun r => r.2 = (-1)%Z) data).

(** Five songs with one feature, and their targets. *)
Definition five_features : matrix := [[1]; [2]; [3]; [4]; [5]].
Definition five_targets : vector := [10; 20; 30; 40; 50].

(** * Properties *)

(** ** Data cleaning *)

Section cleaning_facts.
Context {V : Type} `{EqDecision V}.
Implicit Types (data : list (row V)) (seen : list (list (option V))).

Lemma drop_duplicates_from_sublist seen data :
  sublist (drop_duplicates_from seen data) data.
Proof.
  revert seen. induction data as [|r rest IH]; intros seen; simpl.
  - constructor.
  - case_decide.
    + apply sublist_cons, IH.
    + apply sublist_skip, IH.
Qed.

Lemma drop_duplicates_from_fresh seen data r :
  r ∈ drop_duplicates_from seen data -> cells r ∉ seen.
Proof.
  revert seen. induction data as [|r' rest IH]; intros seen; simpl.
  - intros Hin. inversion Hin.
  - case_decide as Hseen.
    + apply IH.
    + intros Hin. apply elem_of_cons in Hin as [->|Hin]; [done|].
      apply IH in Hin. intros Hr. apply Hin. by right.
Qed.

Lemma drop_duplicates_from_NoDup seen data :
  NoDup (cells <$> drop_duplicates_from seen data).
Proof.
  revert seen. induction data as [|r rest IH]; intros seen; simpl.
  - constructor.
  - case_decide as Hseen; [apply IH|].
    rewrite fmap_cons. constructor; [|apply IH].
    intros Hin. apply list_elem_of_fmap in Hin as (r' & Heq & Hin).
    apply drop_duplicates_from_fresh in Hin. apply Hin. rewrite <- Heq. by left.
Qed.

(** A pass removes nothing exactly when no two rows agree and none was seen
    before. *)
Lemma drop_duplicates_from_id seen data :
  drop_duplicates_from seen data = data <->
  NoDup (cells <$> data) /\ Forall (fun r => cells r ∉ seen) data.
Proof.
  split.
  - intros Heq. split.
    + rewrite <- Heq. apply drop_duplicates_from_NoDup.
    + apply Forall_forall. intros r Hin. rewrite <- Heq in Hin.
      by apply drop_duplicates_from_fresh in Hin.
  - revert seen. induction data as [|r rest IH]; intros seen [Hnd Hall]; simpl.
    + done.
    + rewrite fmap_cons in Hnd. apply NoDup_cons in Hnd as [Hr Hnd].
      apply Forall_cons in Hall as [Hfresh Hall].
      case_decide; [done|].
      f_equal. apply IH. split; [done|].
      apply Forall_forall. intros r' Hin Hseen.
      apply elem_of_cons in Hseen as [Heq|Hseen].
      * apply Hr. rewrite <- Heq. by apply list_elem_of_fmap_2.
      * rewrite Forall_forall in Hall. by apply (Hall r').
Qed.

Lemma drop_duplicates_id data :
  drop_duplicates data = data <-> NoDup (cells <$> data).
Proof.
  unfold drop_duplicates. rewrite drop_duplicates_from_id. split.
  - by intros [? _].
  - intros Hnd. split; [done|]. apply Forall_forall. intros r _ Hin.
    inversion Hin.
Qed.

Lemma drop_duplicates_idempotent data :
  drop_duplicates (drop_duplicates data) = drop_duplicates data.
Proof. apply drop_duplicates_id, drop_duplicates_from_NoDup. Qed.

Lemma fill_cell_is_Some (v : V) (c : option V) : is_Some (fill_cell v c).
Proof. destruct c; simpl; eauto. Qed.

Lemma fillna_no_missing (v : V) data : no_missing (fillna v data).
Proof.
  apply Forall_forall. intros r Hin.
  apply list_elem_of_fmap in Hin as (r' & -> & _). simpl.
  apply Forall_forall. intros c Hc.
  apply list_elem_of_fmap in Hc as (c' & -> & _). apply fill_cell_is_Some.
Qed.

Lemma fillna_id (v : V) data : no_missing data -> fillna v data = data.
Proof.
  induction 1 as [|r rest Hr _ IH]; simpl; [done|]. rewrite IH. f_equal.
  destruct r as [i cs]. simpl in *. f_equal.
  induction Hr as [|c cs' [x ->] _ IHc]; simpl; [done|]. by rewrite IHc.
Qed.

Lemma no_missing_sublist data data' :
  sublist data' data -> no_missing data -> no_missing data'.
Proof.
  unfold no_missing. rewrite !Forall_forall. intros Hsub Hall r Hin.
  apply Hall. by eapply elem_of_sublist.
Qed.

Lemma drop_duplicates_no_missing data :
  no_missing data -> no_missing (drop_duplicates data).
Proof. apply no_missing_sublist, drop_duplicates_from_sublist. Qed.

Lemma clean_twice_drop (zero : V) data :
  clean zero (clean zero data) = drop_duplicates (clean zero data).
Proof.
  unfold clean at 1. apply fillna_id, drop_duplicates_no_missing.
  apply fillna_no_missing.
Qed.

(** C8, amended.  A second pass of the cleaner fills nothing and changes no
    value; it removes exactly the rows that the first pass's fill turned into
    duplicates of an earlier row.  It is a no-op if and only if the cleaned
    rows are pairwise different, which holds in particular when the raw
    dataset has no missing value. *)
Theorem clean_second_pass (zero : V) data :
  fillna zero (clean zero data) = clean zero data /\
  clean zero (clean zero data) = drop_duplicates (clean zero data) /\
  sublist (clean zero (clean zero data)) (clean zero data) /\
  (clean zero (clean zero data) = clean zero data <->
     NoDup (cells <$> clean zero data)) /\
  (no_missing data -> clean zero (clean zero data) = clean zero data).
Proof.
  split; [|split; [|split; [|split]]].
  - apply fillna_id, fillna_no_missing.
  - apply clean_twice_drop.
  - rewrite clean_twice_drop. apply drop_duplicates_from_sublist.
  - rewrite clean_twice_drop. apply drop_duplicates_id.
  - intros Hfull. rewrite clean_twice_drop. unfold clean.
    rewrite (fillna_id zero (drop_duplicates data))
      by by apply drop_duplicates_no_missing.
    apply drop_duplicates_idempotent.
Qed.
End cleaning_facts.

(** C8, as stated, fails: the cleaner is not idempotent on
    [missing_and_zero]. *)
Lemma clean_not_idempotent :
  clean 0%Z (clean 0%Z missing_and_zero) <> clean 0%Z missing_and_zero.
Proof. vm_compute. discriminate. Qed.

Lemma clean_second_pass_witness :
  no_missing complete_rows /\
  clean 0%Z (clean 0%Z complete_rows) = clean 0%Z complete_rows.
Proof.
  assert (Hfull : no_missing complete_rows).
  { repeat constructor; simpl; eauto. }
  split; [exact Hfull|].
  exact (proj2 (proj2 (proj2 (proj2 (clean_second_pass 0%Z _)))) Hfull).
Defined.

(** ** The exception monad *)

Section result_facts.
Context {A B : Type}.
Implicit Types (f : A -> result B) (l : list A).

Lemma bind_Ok {C D : Type} (m : result C) (k : C -> result D) (d : D) :
  m ≫= k = Ok d <-> exists c, m = Ok c /\ k c = Ok d.
Proof.
  destruct m as [c|e]; simpl; split.
  - eauto.
  - by intros (c' & [= <-] & Hk).
  - done.
  - by intros (c' & [=] & _).
Qed.

Lemma ret_bind {C D : Type} (c : C) (k : C -> result D) : Ok c ≫= k = k c.
Proof. done. Qed.

Lemma mapM_nil f : mapM f [] = Ok [].
Proof. done. Qed.

Lemma mapM_cons f a l :
  mapM f (a :: l) = b ← f a; bs ← mapM f l; Ok (b :: bs).
Proof. done. Qed.

Lemma mapM_Ok f l bs :
  mapM f l = Ok bs <-> Forall2 (fun a b => f a = Ok b) l bs.
Proof.
  revert bs. induction l as [|a l IH]; intros bs.
  - rewrite mapM_nil. split.
    + intros [= <-]. constructor.
    + by inversion 1.
  - rewrite mapM_cons. split.
    + intros (b & Hb & (bs' & Hbs & [= <-])%bind_Ok)%bind_Ok.
      constructor; [done|]. by apply IH.
    + inversion 1 as [|? b ? bs' Hb Hbs]; subst.
      apply IH in Hbs. by rewrite Hb, Hbs.
Qed.

Lemma mapM_Ok_length f l bs : mapM f l = Ok bs -> length bs = length l.
Proof. intros Hm%mapM_Ok. symmetry. by eapply Forall2_length. Qed.

(** A traversal that raises has met an element that raises. *)
Lemma mapM_Raise f l e :
  mapM f l = Raise e -> Exists (fun a => f a = Raise e) l.
Proof.
  induction l as [|a l IH]; [done|]. rewrite mapM_cons.
  destruct (f a) as [b|e'] eqn:Ha; simpl.
  - destruct (mapM f l) as [bs|e'] eqn:Hl; simpl; [done|].
    intros [= ->]. right. by apply IH.
  - intros [= ->]. by left.
Qed.

(** One element that raises aborts the traversal. *)
Lemma mapM_Exists_Raise f l :
  Exists (fun a => exists e, f a = Raise e) l -> exists e, mapM f l = Raise e.
Proof.
  induction 1 as [a l [e Ha]|a l _ [e IH]]; rewrite mapM_cons.
  - rewrite Ha. eauto.
  - destruct (f a) as [b|e']; simpl; [|eauto]. rewrite IH. eauto.
Qed.

Lemma mapM_select f (mask : list bool) l bs :
  mapM f l = Ok bs -> mapM f (select mask l) = Ok (select mask bs).
Proof.
  rewrite !mapM_Ok. intros Hall. revert mask.
  induction Hall as [|a b l bs Hab _ IH]; intros [|[] mask]; simpl;
    try constructor; auto.
Qed.
End result_facts.

(** ** Rounding to float64 *)

Lemma two_power_nonpos (k : Z) :
  (k <= 0)%Z -> (two_power k * inject_Z (2 ^ (- k)) == 1)%Q.
Proof.
  intros Hk. unfold two_power.
  destruct (Z.leb_spec 0 k) as [H0|Hneg].
  - assert (k = 0%Z) as -> by lia. reflexivity.
  - assert (Hpos : (0 < 2 ^ (- k))%Z) by (apply Z.pow_pos_nonneg; lia).
    unfold Qeq, Qmult, inject_Z. cbn [Qnum Qden].
    rewrite Pos.mul_1_r, Z2Pos.id by done. lia.
Qed.

Lemma round_half_even_integer (q : Q) (m : Z) :
  (q == inject_Z m)%Q -> round_half_even q = m.
Proof.
  destruct q as [n d]. unfold Qeq, round_half_even. simpl.
  rewrite Z.mul_1_r. intros ->.
  rewrite Z.div_mul, Z.mod_mul by done. simpl.
  destruct (Z.ltb_spec 0 (Z.pos d)); [done|lia].
Qed.

Lemma Qred_inject_Z (z : Z) : Qred (inject_Z z) = inject_Z z.
Proof.
  unfold Qred, inject_Z.
  pose proof (Z.ggcd_correct_divisors z 1) as Hdiv.
  pose proof (Z.ggcd_gcd z 1) as Hgcd.
  destruct (Z.ggcd z 1) as [g [a b]]. simpl in *.
  rewrite Z.gcd_1_r in Hgcd. subst g. destruct Hdiv as [Ha Hb].
  assert (a = z) as -> by lia. assert (b = 1%Z) as -> by lia. done.
Qed.

(** An integer below [2 ^ 53] is a double. *)
Lemma round_double_integer (z : Z) :
  (0 <= z < 2 ^ 53)%Z -> round_double (inject_Z z) = inject_Z z.
Proof.
  intros [H0 H53]. unfold round_double.
  destruct (Z.eq_dec z 0%Z) as [->|Hz]; [done|].
  assert (Hpos : (0 < z)%Z) by lia.
  assert (Hle : Qle_bool (inject_Z z) 0 = false).
  { unfold Qle_bool. simpl. apply Z.leb_gt. lia. }
  rewrite Hle.
  pose proof (Z.log2_spec z Hpos) as [Hlo Hhi].
  pose proof (Z.log2_nonneg z) as Hnn.
  assert (He : (Z.log2 z < 53)%Z).
  { apply Z.log2_lt_pow2; lia. }
  assert (Hb : binade (inject_Z z) = Z.log2 z).
  { unfold binade. simpl. rewrite Z.sub_0_r.
    unfold two_power. rewrite (proj2 (Z.leb_le 0 _) Hnn).
    unfold Qle_bool. simpl. rewrite !Z.mul_1_r.
    by rewrite (proj2 (Z.leb_le _ _) Hlo). }
  rewrite Hb, Z.max_l by lia.
  set (k := (Z.log2 z - 52)%Z).
  assert (Hk : (k <= 0)%Z) by (unfold k; lia).
  pose proof (two_power_nonpos k Hk) as Hulp.
  assert (Hnz : ~ (two_power k == 0)%Q).
  { intros H. rewrite H in Hulp. by vm_compute in Hulp. }
  assert (Hm : (inject_Z z / two_power k == inject_Z (z * 2 ^ (- k)))%Q).
  { rewrite inject_Z_mult.
    assert (Hinv : (inject_Z (2 ^ (- k)) == / two_power k)%Q).
    { apply (Qmult_inj_l _ _ (two_power k)); [done|].
      rewrite Qmult_inv_r by done. exact Hulp. }
    rewrite Hinv. reflexivity. }
  rewrite (round_half_even_integer _ _ Hm).
  rewrite <- (Qred_inject_Z z). apply Qred_complete.
  rewrite inject_Z_mult, <- Qmult_assoc,
    (Qmult_comm (inject_Z (2 ^ (- k)))).
  rewrite Hulp. apply Qmult_1_r.
Qed.

(** ** Reading count text *)

Lemma digit_of_facts c d :
  digit_of c = Some d ->
  is_space c = false /\ Ascii.eqb c "-" = false /\ Ascii.eqb c "+" = false /\
  lower c = c /\ Ascii.eqb c "i" = false /\ Ascii.eqb c "n" = false /\
  (0 <= d <= 9)%Z.
Proof.
  destruct c as [[] [] [] [] [] [] [] []]; vm_compute; intros [= <-];
    repeat split; congruence.
Qed.

Lemma digits_from_bounds acc s z :
  digits_from acc s = Some z -> (0 <= acc)%Z -> (acc <= z)%Z.
Proof.
  revert acc. induction s as [|c s IH]; intros acc; simpl.
  - intros [= ->]. lia.
  - destruct (digit_of c) as [d|] eqn:Hd; [|done].
    intros Hz Hacc. apply digit_of_facts in Hd as (_ & _ & _ & _ & _ & _ & Hd).
    apply IH in Hz; lia.
Qed.

Lemma digits_from_all_digits acc s z :
  digits_from acc s = Some z -> Forall (fun c => is_Some (digit_of c)) s.
Proof.
  revert acc. induction s as [|c s IH]; intros acc; simpl; [constructor|].
  destruct (digit_of c) as [d|] eqn:Hd; [|done].
  intros Hz. constructor; eauto.
Qed.

Lemma more_digits_digits acc n s z :
  digits_from acc s = Some z ->
  more_digits acc n s = (z, (n + length s)%nat, []).
Proof.
  revert acc n. induction s as [|c s IH]; intros acc n; simpl.
  - intros [= ->]. by rewrite Nat.add_0_r.
  - destruct (digit_of c) as [d|]; [|done].
    intros Hz. rewrite (IH _ _ Hz). do 2 f_equal. lia.
Qed.

Lemma lstrip_digit c s :
  is_Some (digit_of c) -> lstrip (c :: s) = c :: s.
Proof.
  intros [d Hd]. apply digit_of_facts in Hd as (Hsp & _). simpl.
  by rewrite Hsp.
Qed.

Lemma strip_digits s :
  Forall (fun c => is_Some (digit_of c)) s -> strip s = s.
Proof.
  intros Hall. unfold strip. destruct Hall as [|c s Hc Hs]; [done|].
  rewrite lstrip_digit by done.
  assert (Hrev : Forall (fun c => is_Some (digit_of c)) (rev (c :: s)))
    by (apply Forall_rev; by constructor).
  destruct (rev (c :: s)) as [|c' s'] eqn:Heq.
  - apply (f_equal (@length _)) in Heq. by rewrite length_rev in Heq.
  - inversion Hrev; subst. rewrite lstrip_digit by done.
    rewrite <- Heq. apply rev_involutive.
Qed.

Lemma count_text_is_float s z :
  count_of_text s = Some z -> (z < 2 ^ 53)%Z ->
  float s = Ok (FFin (inject_Z z)) /\ (0 <= z)%Z.
Proof.
  unfold count_of_text, float, float_of_chars.
  destruct (list_ascii_of_string s) as [|c s'] eqn:Hs; [done|].
  destruct (digit_of c) as [d|] eqn:Hd; [|done]. intros Hz Hlt.
  pose proof Hd as (_ & Hminus & Hplus & Hlow & Hi & Hn & Hd09)%digit_of_facts.
  pose proof (digits_from_bounds _ _ _ Hz ltac:(lia)) as Hdz.
  rewrite strip_digits
    by (constructor; [eauto|by eapply digits_from_all_digits]).
  rewrite Hminus, Hplus. simpl map. rewrite Hlow. simpl string_of_list_ascii.
  simpl String.eqb. rewrite Hi, Hn. simpl.
  unfold number, digitpart.
  rewrite Hd, (more_digits_digits _ _ _ _ Hz). simpl.
  unfold decimal_value. simpl. rewrite Z.mul_1_r.
  unfold to_double. fold (inject_Z z).
  rewrite round_double_integer by lia.
  unfold Qle_bool. simpl. rewrite ?Z.mul_1_r.
  destruct (Z.leb_spec (2 ^ 1024 - 2 ^ 970) z) as [Hbig|_].
  - exfalso. assert (2 ^ 53 < 2 ^ 1024 - 2 ^ 970)%Z by (by vm_compute). lia.
  - split; [done|lia].
Qed.

(** ** The count columns *)

Lemma forallb_false_elem {A : Type} (f : A -> bool) (l : list A) (x : A) :
  x ∈ l -> f x = false -> forallb f l = false.
Proof.
  intros Hin Hx. destruct (forallb f l) eqn:Hall; [|done].
  rewrite forallb_forall in Hall. rewrite <- Hx. symmetry.
  by apply Hall, list_elem_of_In.
Qed.

(** A column of dtype object that holds text has the [.str] accessor. *)
Lemma str_accessor_text l : Exists is_str l -> str_accessor (Object l) = Ok l.
Proof.
  intros (x & Hin & Hx)%Exists_exists.
  unfold str_accessor, infer_dtype, infer_object.
  assert (Hvals : x ∈ filter (fun x => Is_true (notna x)) l).
  { apply list_elem_of_filter. split; [|done]. by destruct x. }
  destruct (filter _ l) as [|first vals] eqn:Hf; [by inversion Hvals|].
  assert (Hint : forallb is_int (first :: vals) = false).
  { apply (forallb_false_elem _ _ x); [done|]. by destruct x. }
  assert (Hfloat : forallb is_float (first :: vals) = false).
  { apply (forallb_false_elem _ _ x); [done|]. by destruct x. }
  assert (Hnum : forallb (fun x => is_int x || is_float x) (first :: vals)
                 = false).
  { apply (forallb_false_elem _ _ x); [done|]. by destruct x. }
  rewrite Hint, Hfloat, Hnum, !andb_false_r.
  destruct (forallb is_str (first :: vals)); [done|].
  by destruct (existsb is_int (first :: vals)).
Qed.

(** A numeric column has no [.str] accessor. *)
Lemma str_accessor_numeric c :
  (exists l, c = Int64 l) \/ (exists l, c = Float64 l) ->
  str_accessor c = Raise AttributeError.
Proof. by intros [[l ->]|[l ->]]. Qed.

Lemma normalize_count_numeric zs :
  normalize_count (Int64 zs) = Raise AttributeError.
Proof. done. Qed.

Lemma count_cells l zs :
  Forall2 count_entry l zs ->
  exists fs, astype_float (str_replace "," "" l) = Ok fs /\
             astype_int (fillna_float fs) = Ok zs.
Proof.
  unfold astype_float, astype_int, fillna_float, str_replace.
  induction 1 as [|x z l zs Hxz _ (fs & Hfs & Hzs)].
  - by exists [].
  - destruct x as [s|z'|f']; simpl in Hxz.
    + destruct Hxz as [Hs Hlt].
      apply count_text_is_float in Hs as [Hs Hpos]; [|done].
      exists (FFin (inject_Z z) :: fs). split.
      * rewrite map_cons, mapM_cons, Hs, ret_bind, Hfs. done.
      * rewrite map_cons, mapM_cons.
        assert (Hz : int_of_float (inject_Z z) = z).
        { unfold int_of_float. simpl. rewrite Z.quot_1_r.
          assert (Hrange : (- 2 ^ 63 <=? z)%Z && (z <? 2 ^ 63)%Z = true).
          { apply andb_true_iff.
            split; [apply Z.leb_le|apply Z.ltb_lt]; lia. }
          by rewrite Hrange. }
        rewrite Hz, ret_bind, Hzs. done.
    + subst z. exists (FNaN :: fs). split.
      * rewrite map_cons, mapM_cons, ret_bind, Hfs. done.
      * rewrite map_cons, mapM_cons, ret_bind, Hzs. done.
    + subst z. exists (FNaN :: fs). split.
      * rewrite map_cons, mapM_cons, ret_bind, Hfs. done.
      * rewrite map_cons, mapM_cons, ret_bind, Hzs. done.
Qed.

Lemma not_a_number_is_str x : not_a_number x -> is_str x.
Proof. by destruct x. Qed.

(** C4, amended.  On a count column that holds text, the normalization removes
    the thousands separators and yields the counts as integers, with 0 for
    every entry that is not text (the filled-in missing values).  Text that
    is not a number is not coerced: it raises ValueError and the run stops. *)
Theorem normalize_count_text (l : list scalar) :
  (forall zs, Exists is_str l -> Forall2 count_entry l zs ->
              normalize_count (Object l) = Ok (Int64 zs)) /\
  (Exists not_a_number l -> normalize_count (Object l) = Raise ValueError).
Proof.
  split.
  - intros zs Htext (fs & Hfs & Hzs)%count_cells. unfold normalize_count.
    rewrite (str_accessor_text _ Htext). simpl. rewrite Hfs. simpl.
    by rewrite Hzs.
  - intros Hbad. unfold normalize_count.
    rewrite str_accessor_text
      by (eapply Exists_impl; [exact Hbad|apply not_a_number_is_str]).
    simpl. unfold astype_float, str_replace.
    destruct (mapM _ _) as [fs|e] eqn:Hm.
    + exfalso. apply mapM_Ok in Hm.
      apply Exists_exists in Hbad as (x & Hin & Hx).
      apply list_elem_of_lookup in Hin as [i Hi].
      assert (Hi' : ((fun x => match x with
                               | SStr s => SStr (replace_char "," "" s)
                               | _ => SFloat FNaN
                               end) <$> l) !! i
                    = Some (match x with
                            | SStr s => SStr (replace_char "," "" s)
                            | _ => SFloat FNaN
                            end)) by by rewrite list_lookup_fmap, Hi.
      destruct (Forall2_lookup_l _ _ _ _ _ Hm Hi') as (f & _ & Hf).
      destruct x as [s| |]; simpl in Hx, Hf; [|done..].
      unfold float in Hf. by rewrite Hx in Hf.
    + simpl. f_equal. apply mapM_Raise, Exists_exists in Hm as (x & _ & Hx).
      destruct x as [s| |]; try discriminate. unfold float in Hx.
      destruct (float_of_chars _); congruence.
Qed.

(** ** Release dates *)

Lemma wrap64_small z : (- 2 ^ 63 <= z < 2 ^ 63)%Z -> wrap64 z = z.
Proof.
  intros Hz. unfold wrap64.
  rewrite Z.mod_small by lia. lia.
Qed.

(** Parts that fill their own digits are read back as they were written. *)
Lemma parse_assembled y m d :
  in_own_digits (y, m, d) ->
  (calendar_date (y, m, d) ->
   parse_yyyymmdd (assemble y m d) = Ok (timestamp (y, m, d))) /\
  (~ calendar_date (y, m, d) ->
   parse_yyyymmdd (assemble y m d) = Raise ValueError).
Proof.
  intros (Hy & Hm & Hd). unfold assemble.
  rewrite wrap64_small by lia.
  unfold parse_yyyymmdd, calendar_date, timestamp.
  replace ((y * 10000 + m * 100 + d) / 10000)%Z with y
    by (apply Z.div_unique with (m * 100 + d)%Z; lia).
  replace (((y * 10000 + m * 100 + d) / 100) mod 100)%Z with m.
  2:{ replace ((y * 10000 + m * 100 + d) / 100)%Z with (y * 100 + m)%Z
        by (apply Z.div_unique with d; lia).
      apply Z.mod_unique with y; lia. }
  replace ((y * 10000 + m * 100 + d) mod 100)%Z with d
    by (apply Z.mod_unique with (y * 100 + m)%Z; lia).
  assert (H8 : (10000000 <=? y * 10000 + m * 100 + d)%Z
               && (y * 10000 + m * 100 + d <=? 99999999)%Z = true).
  { apply andb_true_iff. split; apply Z.leb_le; lia. }
  rewrite H8. split.
  - intros (Hm' & Hd' & Hn).
    assert (Hcal : (1 <=? m)%Z && (m <=? 12)%Z && (1 <=? d)%Z
                   && (d <=? days_in_month y m)%Z = true).
    { rewrite !andb_true_iff, !Z.leb_le. lia. }
    assert (Hrep : (- max_day <=? days_from_civil y m d)%Z
                   && (days_from_civil y m d <=? max_day)%Z = true).
    { rewrite !andb_true_iff, !Z.leb_le. lia. }
    by rewrite Hcal, Hrep.
  - intros Hnot.
    destruct ((1 <=? m)%Z && (m <=? 12)%Z && (1 <=? d)%Z
              && (d <=? days_in_month y m)%Z) eqn:Hcal; [|done].
    destruct ((- max_day <=? days_from_civil y m d)%Z
              && (days_from_civil y m d <=? max_day)%Z) eqn:Hrep; [|done].
    exfalso. apply Hnot.
    rewrite !andb_true_iff, !Z.leb_le in Hcal, Hrep. lia.
Qed.

Lemma parse_yyyymmdd_Raise v e : parse_yyyymmdd v = Raise e -> e = ValueError.
Proof.
  unfold parse_yyyymmdd.
  repeat match goal with |- context [if ?b then _ else _] => destruct b end;
    congruence.
Qed.

Lemma to_datetime_Raise year month day e :
  to_datetime year month day = Raise e -> e = ValueError.
Proof.
  intros (t & _ & Ht)%mapM_Raise%Exists_exists. destruct t as [[y m] d].
  by apply parse_yyyymmdd_Raise in Ht.
Qed.

(** One date that cannot be read raises for the whole step. *)
Lemma feature_engineering_date_Raise numeric_literal now data e :
  to_datetime (released_year data) (released_month data) (released_day data)
  = Raise e ->
  feature_engineering numeric_literal now data = Raise ValueError.
Proof.
  intros Hd. unfold feature_engineering. rewrite Hd. simpl.
  by rewrite (to_datetime_Raise _ _ _ _ Hd).
Qed.

(** C1, amended.  When the year, month and day of every record form a
    calendar date, [pd.to_datetime] builds one timestamp per record.  When
    some record's parts do not, it raises ValueError and feature engineering
    stops with that exception: the record is neither excluded nor flagged,
    and no frame is produced. *)
Theorem invalid_date_aborts numeric_literal now (data : DataFrame) :
  Forall in_own_digits (date_parts data) ->
  (Forall calendar_date (date_parts data) ->
   to_datetime (released_year data) (released_month data) (released_day data)
   = Ok (timestamp <$> date_parts data)) /\
  (Exists (fun t => ~ calendar_date t) (date_parts data) ->
   feature_engineering numeric_literal now data = Raise ValueError).
Proof.
  intros Hdigits. split.
  - intros Hcal. unfold to_datetime. fold (date_parts data).
    apply mapM_Ok. apply Forall2_fmap_r, Forall_Forall2_diag.
    rewrite Forall_forall in Hdigits, Hcal. apply Forall_forall.
    intros [[y m] d] Hin.
    by apply (proj1 (parse_assembled y m d (Hdigits _ Hin))), Hcal.
  - intros Hbad.
    destruct (mapM_Exists_Raise
                (fun '(y, m, d) => parse_yyyymmdd (assemble y m d))
                (date_parts data)) as [e He].
    { rewrite Forall_forall in Hdigits.
      apply Exists_exists in Hbad as ([[y m] d] & Hin & Hnot).
      apply Exists_exists. exists (y, m, d). split; [done|].
      exists ValueError.
      by apply (proj2 (parse_assembled y m d (Hdigits _ Hin))). }
    by eapply feature_engineering_date_Raise.
Qed.

(** C1, as stated, fails: a 30th of February stops the run. *)
Lemma february_30_aborts :
  feature_engineering plain_counts new_year_2024 february_30
  = Raise ValueError.
Proof. by vm_compute. Qed.

Lemma invalid_date_aborts_witness :
  to_datetime (released_year two_songs) (released_month two_songs)
              (released_day two_songs)
  = Ok (timestamp <$> date_parts two_songs) /\
  feature_engineering plain_counts new_year_2024 february_30
  = Raise ValueError.
Proof.
  split.
  - apply (invalid_date_aborts plain_counts new_year_2024 two_songs).
    + repeat constructor; vm_compute; congruence.
    + repeat constructor; vm_compute; congruence.
  - apply (invalid_date_aborts plain_counts new_year_2024 february_30).
    + repeat constructor; vm_compute; congruence.
    + left. vm_compute. intros (_ & [_ H] & _). by apply H.
Defined.

(** C4, as stated, fails: text that is not a number is not coerced to 0, it
    stops the run. *)
Lemma word_in_count_column_aborts :
  normalize_count (Object counts_with_a_word) = Raise ValueError /\
  ~ (exists col, normalize_count (Object counts_with_a_word) = Ok col).
Proof.
  assert (H : normalize_count (Object counts_with_a_word) = Raise ValueError)
    by by vm_compute.
  split; [done|]. intros [col Hcol]. congruence.
Qed.

Lemma normalize_count_text_witness :
  normalize_count (Object counts_with_separators)
  = Ok (Int64 [1021; 0; 95]%Z) /\
  normalize_count (Object counts_with_a_word) = Raise ValueError.
Proof.
  split.
  - apply (proj1 (normalize_count_text counts_with_separators)).
    + left. exact I.
    + repeat constructor; vm_compute; congruence.
  - apply (proj2 (normalize_count_text counts_with_a_word)).
    right. left. by vm_compute.
Defined.

(** ** Feature engineering run twice *)

Lemma zip3_nil_2 {A B C : Type} (la : list A) (lc : list C) :
  zip3 la (@nil B) lc = [].
Proof. by destruct la. Qed.

Lemma zip3_nil_3 {A B C : Type} (la : list A) (lb : list B) :
  zip3 la lb (@nil C) = [].
Proof. by destruct la, lb. Qed.

Lemma zip3_select {A B C : Type} (mask : list bool)
    (la : list A) (lb : list B) (lc : list C) :
  zip3 (select mask la) (select mask lb) (select mask lc)
  = select mask (zip3 la lb lc).
Proof.
  revert la lb lc. induction mask as [|b mask IH]; intros la lb lc.
  - by destruct la, lb, lc.
  - destruct la as [|a la]; [done|].
    destruct lb as [|b' lb]; [simpl; by rewrite zip3_nil_2|].
    destruct lc as [|c lc]; [simpl; by rewrite zip3_nil_3|].
    simpl. destruct b; simpl; by rewrite IH.
Qed.

Lemma to_datetime_select mask year month day dates :
  to_datetime year month day = Ok dates ->
  to_datetime (select mask year) (select mask month) (select mask day)
  = Ok (select mask dates).
Proof.
  unfold to_datetime. rewrite zip3_select. apply mapM_select.
Qed.

(** The normalized count column is an integer column. *)
Lemma normalize_count_Int64 col col' :
  normalize_count col = Ok col' -> exists zs, col' = Int64 zs.
Proof.
  unfold normalize_count.
  intros (strs & _ & (fs & _ & (zs & _ & [= <-])%bind_Ok)%bind_Ok)%bind_Ok.
  by exists zs.
Qed.

(** C9.  Once feature engineering has run, running it again raises: the
    dates are read again, and then the [.str] accessor is asked of the count
    column, which is an integer column by now.  Run at the same clock time,
    the exception is AttributeError. *)
Theorem feature_engineering_twice numeric_literal now data data' :
  feature_engineering numeric_literal now data = Ok data' ->
  (forall numeric_literal' now',
     exists e, feature_engineering numeric_literal' now' data' = Raise e) /\
  (forall numeric_literal',
     feature_engineering numeric_literal' now data' = Raise AttributeError).
Proof.
  unfold feature_engineering at 1.
  intros (dates & Hdates & (days & Hdays & (deezer & Hdeezer &
          (shazam & Hshazam & [= <-])%bind_Ok)%bind_Ok)%bind_Ok)%bind_Ok.
  apply normalize_count_Int64 in Hdeezer as [zs ->].
  set (mask := notna_mask (to_numeric numeric_literal (streams data))).
  assert (Hstep : forall numeric_literal' now',
    feature_engineering numeric_literal' now'
      (dropna_streams
         {| released_year := released_year data;
            released_month := released_month data;
            released_day := released_day data;
            in_deezer_playlists := Int64 zs;
            in_shazam_charts := shazam;
            streams := to_numeric numeric_literal (streams data);
            release_date := Some dates;
            days_since_release := Some days;
            other_columns := other_columns data |})
    = (_ ← mapM (days_since now') (select mask dates);
       Raise AttributeError)).
  { intros nl' now'. unfold feature_engineering, dropna_streams. simpl.
    fold mask. rewrite (to_datetime_select mask _ _ _ _ Hdates).
    by rewrite ret_bind. }
  split.
  - intros nl' now'. rewrite Hstep.
    destruct (mapM (days_since now') (select mask dates)); simpl; by eexists.
  - intros nl'. rewrite Hstep.
    by rewrite (mapM_select _ mask _ _ Hdays).
Qed.

Lemma feature_engineering_twice_witness :
  exists data',
    feature_engineering plain_counts new_year_2024 two_songs = Ok data' /\
    feature_engineering plain_counts new_year_2024 data'
    = Raise AttributeError.
Proof.
  eexists. split.
  - by vm_compute.
  - eapply (proj2 (feature_engineering_twice
                     plain_counts new_year_2024 two_songs _ _)).
    Unshelve. by vm_compute.
Defined.

(** ** Percentiles and the anomaly filter *)

Lemma length_filter_impl {A : Type} (P Q : A -> Prop)
    `{!forall x, Decision (P x), !forall x, Decision (Q x)} (l : list A) :
  (forall x, P x -> Q x) ->
  (length (filter P l) <= length (filter Q l))%nat.
Proof.
  intros HPQ. induction l as [|x l IH]; [done|].
  rewrite !filter_cons. destruct (decide (P x)) as [HP|HP].
  - rewrite decide_True by auto. simpl. lia.
  - destruct (decide (Q x)); simpl; lia.
Qed.

Lemma length_filter_complement {A : Type} (P : A -> Prop)
    `{!forall x, Decision (P x)} (l : list A) :
  (length (filter P l) + length (filter (fun x => ~ P x) l))%nat = length l.
Proof.
  rewrite <- length_app. apply Permutation_length, filter_app_complement.
Qed.

Lemma filter_none {A : Type} (P : A -> Prop) `{!forall x, Decision (P x)}
    (l : list A) :
  Forall (fun x => ~ P x) l -> filter P l = [].
Proof.
  induction 1 as [|x l Hx _ IH]; [done|]. by rewrite filter_cons_False.
Qed.

(** In a sorted list the entries grow with the rank. *)
Lemma sorted_nth_le (l : list R) (i j : nat) :
  StronglySorted Rle l -> (i <= j < length l)%nat ->
  nth i l 0 <= nth j l 0.
Proof.
  intros Hs. revert i j. induction Hs as [|x l _ IH Hx]; intros i j Hij.
  - simpl in Hij. lia.
  - destruct i as [|i], j as [|j]; simpl in *; try lia.
    + lra.
    + rewrite Forall_forall in Hx. apply Hx, list_elem_of_In, nth_In. lia.
    + apply IH. lia.
Qed.

(** Fewer than [j] entries of a sorted list are below its entry of rank
    [j]. *)
Lemma sorted_count_below (l : list R) (j : nat) :
  StronglySorted Rle l -> (j < length l)%nat ->
  (length (filter (fun x => (x < nth j l 0)%R) l) <= j)%nat.
Proof.
  intros Hs. revert j. induction Hs as [|x l Hs IH Hx]; intros j Hj.
  - simpl in Hj. lia.
  - destruct j as [|j]; simpl in *.
    + rewrite filter_cons, decide_False by lra.
      rewrite filter_none; [done|].
      eapply Forall_impl; [exact Hx|]. intros y Hy. simpl. lra.
    + rewrite filter_cons. specialize (IH j ltac:(lia)).
      destruct (decide _); simpl; lia.
Qed.

(** The percentile is at most the entry of the rank above it. *)
Lemma percentile_le_next (a : vector) (q : nat) :
  a <> [] -> (q <= 100)%nat ->
  let rank := ((length a - 1) * q)%nat in
  let next := Nat.min (rank / 100 + 1) (length a - 1) in
  percentile a q <= nth next (merge_sort Rle a) 0 /\ (next < length a)%nat.
Proof.
  intros Ha Hq rank next. unfold percentile. fold rank. fold next.
  assert (Hlen : (0 < length a)%nat) by (destruct a; simpl; [done|lia]).
  assert (Hprev : (rank / 100 <= length a - 1)%nat).
  { apply Nat.Div0.div_le_upper_bound. unfold rank. nia. }
  assert (Hnext : (rank / 100 <= next < length a)%nat) by (unfold next; lia).
  split; [|lia].
  assert (Hsorted : nth (rank / 100) (merge_sort Rle a) 0
                    <= nth next (merge_sort Rle a) 0).
  { apply sorted_nth_le; [apply (StronglySorted_merge_sort _)|].
    rewrite (Permutation_length (merge_sort_Permutation Rle a)). lia. }
  assert (Hgamma : 0 <= INR (rank mod 100) / 100 <= 1).
  { pose proof (pos_INR (rank mod 100)) as H0.
    assert (H1 : INR (rank mod 100) <= 100).
    { rewrite INR_IZR_INZ. apply IZR_le.
      pose proof (Nat.mod_upper_bound rank 100). lia. }
    split.
    - apply Rmult_le_pos; lra.
    - apply Rmult_le_reg_r with 100; [lra|]. field_simplify; lra. }
  nra.
Qed.

(** At most one row more than the [q] percent below the median rank lie
    strictly below the [q]-th percentile. *)
Lemma count_below_percentile (a : vector) (q : nat) :
  a <> [] -> (q <= 100)%nat ->
  (length (filter (fun x => (x < percentile a q)%R) a)
   <= (length a - 1) * q / 100 + 1)%nat.
Proof.
  intros Ha Hq.
  destruct (percentile_le_next a q Ha Hq) as [Hp Hnext].
  cbv zeta in Hp, Hnext.
  set (next := Nat.min ((length a - 1) * q / 100 + 1) (length a - 1)) in *.
  rewrite <- (Permutation_length
                (filter_Permutation _ _ _ (merge_sort_Permutation Rle a))).
  etrans.
  { apply (length_filter_impl _
             (fun x => x < nth next (merge_sort Rle a) 0)).
    intros x Hx. lra. }
  etrans.
  { apply sorted_count_below; [apply (StronglySorted_merge_sort _)|].
    by rewrite (Permutation_length (merge_sort_Permutation Rle a)). }
  unfold next. lia.
Qed.

Lemma length_filter_map {A B : Type} (f : A -> B) (P : B -> Prop)
    `{!forall y, Decision (P y)} (l : list A) :
  length (filter P (map f l)) = length (filter (fun x => P (f x)) l).
Proof.
  induction l as [|x l IH]; [done|]. simpl map. rewrite !filter_cons.
  destruct (decide (P (f x))); simpl; by rewrite IH.
Qed.

(** Keeping the rows labelled 1 is filtering the rows by their label. *)
Lemma filter_labelled {A : Type} (label : A -> Z) (l : list A) :
  filter (fun r => r.2 = 1%Z) (zip l (map label l))
  = map (fun x => (x, 1%Z)) (filter (fun x => label x = 1%Z) l).
Proof.
  induction l as [|x l IH]; [done|]. simpl zip. rewrite !filter_cons. simpl.
  destruct (decide (label x = 1%Z)) as [Hx|Hx]; rewrite IH; [|done].
  simpl. by rewrite Hx.
Qed.

Lemma fst_map_pair {A B : Type} (b : B) (l : list A) :
  (map (fun x => (x, b)) l).*1 = l.
Proof. induction l as [|x l IH]; [done|]. simpl. f_equal. exact IH. Qed.

Section anomaly_detection_facts.
Context {Row Forest : Type}.
Variable numeric_features : Row -> list R.
Variable grow_forest : matrix -> Forest.
Variable score_samples : Forest -> list R -> R.

(** The filter refuses an empty dataset. *)
Lemma anomaly_detection_empty :
  anomaly_detection numeric_features grow_forest score_samples []
  = Raise ValueError.
Proof. done. Qed.
End anomaly_detection_facts.

(** ** Running the cells *)

Section script_facts.
Variable lib : Library.
Implicit Types (ns : gmap string (value lib)).

Lemma run_bind {A B : Type} (m : script lib A) (k : A -> script lib B) ns :
  (m ≫= k) ns = m ns ≫= fun r => k r.1 r.2.
Proof. unfold mbind at 1, script_bind. by destruct (m ns) as [[a ns']|e]. Qed.

Lemma run_assign name v ns : assign lib name v ns = Ok (tt, <[name := v]> ns).
Proof. done. Qed.

Lemma run_call_Ok {A : Type} (r : result A) (a : A) ns :
  r = Ok a -> call lib r ns = Ok (a, ns).
Proof. by intros ->. Qed.

Lemma run_call_Raise {A : Type} (r : result A) e ns :
  r = Raise e -> call lib r ns = Raise e.
Proof. by intros ->. Qed.

Lemma run_get_matrix name ns X :
  ns !! name = Some (VMatrix lib X) -> get_matrix lib name ns = Ok (X, ns).
Proof. intros H. unfold get_matrix, lookup_name. by rewrite run_bind, H. Qed.

Lemma run_get_vector name ns y :
  ns !! name = Some (VVector lib y) -> get_vector lib name ns = Ok (y, ns).
Proof. intros H. unfold get_vector, lookup_name. by rewrite run_bind, H. Qed.

Lemma run_get_scaler name ns s :
  ns !! name = Some (VScaler lib s) -> get_scaler lib name ns = Ok (s, ns).
Proof. intros H. unfold get_scaler, lookup_name. by rewrite run_bind, H. Qed.

Lemma run_get_linear name ns m :
  ns !! name = Some (VLinear lib m) -> get_linear lib name ns = Ok (m, ns).
Proof. intros H. unfold get_linear, lookup_name. by rewrite run_bind, H. Qed.

Lemma run_get_neural name ns m :
  ns !! name = Some (VNeural lib m) -> get_neural lib name ns = Ok (m, ns).
Proof. intros H. unfold get_neural, lookup_name. by rewrite run_bind, H. Qed.

Lemma run_get_booster name ns b :
  ns !! name = Some (VBooster lib b) -> get_booster lib name ns = Ok (b, ns).
Proof. intros H. unfold get_booster, lookup_name. by rewrite run_bind, H. Qed.

Lemma run_get_dmatrix name ns X label :
  ns !! name = Some (VDMatrix lib X label) ->
  get_dmatrix lib name ns = Ok ((X, label), ns).
Proof. intros H. unfold get_dmatrix, lookup_name. by rewrite run_bind, H. Qed.
End script_facts.

(** Look a literal name up in a namespace built by assignments. *)
Ltac lookup_name :=
  repeat first
    [ rewrite lookup_insert_eq
    | rewrite lookup_insert_ne by (by intros [=]) ];
  first [reflexivity | eassumption].

(** Run the first statement of a script. *)
Ltac run_statement :=
  rewrite run_bind;
  first
    [ rewrite run_assign
    | erewrite run_get_matrix by lookup_name
    | erewrite run_get_vector by lookup_name
    | erewrite run_get_scaler by lookup_name
    | erewrite run_get_linear by lookup_name
    | erewrite run_get_neural by lookup_name
    | erewrite run_get_booster by lookup_name
    | erewrite run_get_dmatrix by lookup_name
    | erewrite run_call_Ok by (first [eassumption | reflexivity]) ];
  rewrite ret_bind; cbn [fst snd].

Section cell_facts.
Variable lib : Library.
Implicit Types (ns : gmap string (value lib)).

Lemma split_cell_run ns X y s :
  ns !! "X" = Some (VMatrix lib X) ->
  ns !! "y" = Some (VVector lib y) ->
  train_test_split (permutation lib) X y 42 = Ok s ->
  split_cell lib ns
  = Ok (tt, <["y_test" := VVector lib (split_y_test s)]>
            (<["y_train" := VVector lib (split_y_train s)]>
            (<["X_test" := VMatrix lib (split_X_test s)]>
            (<["X_train" := VMatrix lib (split_X_train s)]> ns)))).
Proof.
  intros HX Hy Hs. unfold split_cell.
  do 6 run_statement. by rewrite run_assign.
Qed.
End cell_facts.

Section cell_runs.
Variable lib : Library.
Implicit Types (ns : gmap string (value lib)).

Lemma split_cell_Raise ns X y e :
  ns !! "X" = Some (VMatrix lib X) ->
  ns !! "y" = Some (VVector lib y) ->
  train_test_split (permutation lib) X y 42 = Raise e ->
  split_cell lib ns = Raise e.
Proof.
  intros HX Hy Hs. unfold split_cell. do 2 run_statement.
  rewrite run_bind. by erewrite run_call_Raise by eassumption.
Qed.

(** Lines 199-221 run as one step. *)
Lemma linear_regression_cell_run ns X y :
  ns !! "X" = Some (VMatrix lib X) ->
  ns !! "y" = Some (VVector lib y) ->
  linear_regression_cell lib ns
  = s ← train_test_split (permutation lib) X y 42;
    scaler ← StandardScaler_fit (split_X_train s);
    Ok (tt, after_linear lib s scaler ns).
Proof.
  intros HX Hy. unfold linear_regression_cell. rewrite run_bind.
  destruct (train_test_split (permutation lib) X y 42) as [s|e] eqn:Hs.
  - rewrite (split_cell_run lib ns X y s HX Hy Hs), !ret_bind. cbn [fst snd].
    run_statement.
    destruct (StandardScaler_fit (split_X_train s)) as [scaler|e] eqn:Hfit.
    + repeat run_statement. by rewrite run_assign.
    + by rewrite run_bind.
  - by rewrite (split_cell_Raise ns X y e HX Hy Hs).
Qed.

(** Lines 240-262 run as one step, on the namespace the linear cell left. *)
Lemma neural_network_cell_run ns s scaler :
  neural_network_cell lib (after_linear lib s scaler ns)
  = _ ← KFold 5 (length (X_train_scaled s scaler));
    Ok (tt, after_neural lib s scaler (after_linear lib s scaler ns)).
Proof.
  unfold neural_network_cell, after_linear.
  do 4 run_statement. unfold GridSearchCV_fit.
  destruct (KFold 5 (length (X_train_scaled s scaler))) as [folds|e];
    [|by rewrite run_bind].
  repeat run_statement. by rewrite run_assign.
Qed.

(** Lines 267-294 run as one step. *)
Lemma xgboost_cell_run ns X y :
  ns !! "X" = Some (VMatrix lib X) ->
  ns !! "y" = Some (VVector lib y) ->
  xgboost_cell lib ns
  = s ← train_test_split (permutation lib) X y 42;
    Ok (tt, after_xgboost lib s X y ns).
Proof.
  intros HX Hy. unfold xgboost_cell. rewrite run_bind.
  destruct (train_test_split (permutation lib) X y 42) as [s|e] eqn:Hs.
  - rewrite (split_cell_run lib ns X y s HX Hy Hs), !ret_bind. cbn [fst snd].
    repeat run_statement. by rewrite run_assign.
  - by rewrite (split_cell_Raise ns X y e HX Hy Hs).
Qed.

(** Lines 321-326 run as one step. *)
Lemma comparison_cell_run ns scaler X y model best :
  ns !! "scaler" = Some (VScaler lib scaler) ->
  ns !! "X" = Some (VMatrix lib X) ->
  ns !! "y" = Some (VVector lib y) ->
  ns !! "model" = Some (VLinear lib model) ->
  ns !! "best_neural_net" = Some (VNeural lib best) ->
  ns !! "dall" = Some (VDMatrix lib X y) ->
  comparison_cell lib ns
  = linear_scores ← cross_val_score model (transform scaler X) y 5;
    neural_scores ← cross_val_score best (transform scaler X) y 5;
    Ok (tt, after_comparison lib scaler X y linear_scores neural_scores ns).
Proof.
  intros Hscaler HX Hy Hmodel Hbest Hdall. unfold comparison_cell.
  do 6 run_statement.
  destruct (cross_val_score model (transform scaler X) y 5)
    as [linear_scores|e] eqn:Hlin; [|by rewrite run_bind].
  do 3 run_statement.
  destruct (cross_val_score best (transform scaler X) y 5)
    as [neural_scores|e] eqn:Hnn; [|by rewrite run_bind].
  repeat run_statement. by rewrite run_assign.
Qed.
End cell_runs.

(** ** The model cells *)

Section model_facts.
Variable lib : Library.
Implicit Types (ns : gmap string (value lib)).

(** The three model cells, run from the features and the target. *)
Lemma three_cells_run X y ns1 ns2 ns3 :
  linear_regression_cell lib (features_and_target lib X y) = Ok (tt, ns1) ->
  neural_network_cell lib ns1 = Ok (tt, ns2) ->
  xgboost_cell lib ns2 = Ok (tt, ns3) ->
  exists s scaler,
    train_test_split (permutation lib) X y 42 = Ok s /\
    StandardScaler_fit (split_X_train s) = Ok scaler /\
    ns1 = after_linear lib s scaler (features_and_target lib X y) /\
    ns2 = after_neural lib s scaler ns1 /\
    ns3 = after_xgboost lib s X y ns2.
Proof.
  intros H1 H2 H3.
  rewrite (linear_regression_cell_run lib _ X y) in H1 by done.
  apply bind_Ok in H1 as (s & Hs & (scaler & Hfit & [= <-])%bind_Ok).
  rewrite neural_network_cell_run in H2.
  apply bind_Ok in H2 as (folds & _ & [= <-]).
  rewrite (xgboost_cell_run lib _ X y) in H3
    by (unfold after_neural, after_linear, features_and_target; lookup_name).
  rewrite Hs, ret_bind in H3. injection H3 as <-.
  by exists s, scaler.
Qed.
End model_facts.

(** Unfold the namespaces the cells leave and look a name up. *)
Ltac lookup_after :=
  unfold after_xgboost, after_neural, after_linear, features_and_target;
  lookup_name.

Section model_theorems.
Variable lib : Library.
Implicit Types (ns : gmap string (value lib)).

(** C10.  The split before the linear and the neural model (line 199) and the
    split before the boosted trees (line 267) are taken of the same [X] and
    [y], which no cell in between rebinds, with the same test fraction and
    seed: both bind the same training and test rows and targets, and the
    R-squared of each of the three models is computed against that one
    [y_test], from predictions on that one set of test rows. *)
Theorem same_split_for_all_models X y ns1 ns2 ns3 :
  linear_regression_cell lib (features_and_target lib X y) = Ok (tt, ns1) ->
  neural_network_cell lib ns1 = Ok (tt, ns2) ->
  xgboost_cell lib ns2 = Ok (tt, ns3) ->
  exists s scaler,
    train_test_split (permutation lib) X y 42 = Ok s /\
    StandardScaler_fit (split_X_train s) = Ok scaler /\
    ns2 !! "X" = Some (VMatrix lib X) /\
    ns2 !! "y" = Some (VVector lib y) /\
    ns1 !! "X_train" = Some (VMatrix lib (split_X_train s)) /\
    ns3 !! "X_train" = Some (VMatrix lib (split_X_train s)) /\
    ns1 !! "X_test" = Some (VMatrix lib (split_X_test s)) /\
    ns3 !! "X_test" = Some (VMatrix lib (split_X_test s)) /\
    ns1 !! "y_train" = Some (VVector lib (split_y_train s)) /\
    ns3 !! "y_train" = Some (VVector lib (split_y_train s)) /\
    ns1 !! "y_test" = Some (VVector lib (split_y_test s)) /\
    ns3 !! "y_test" = Some (VVector lib (split_y_test s)) /\
    ns1 !! "r2"
    = Some (VFloat lib
              (r2_score (split_y_test s)
                 (predict (linear_model lib s scaler)
                          (transform scaler (split_X_test s))))) /\
    ns2 !! "r2"
    = Some (VFloat lib
              (r2_score (split_y_test s)
                 (predict (best_neural_net lib s scaler)
                          (transform scaler (split_X_test s))))) /\
    ns3 !! "r2"
    = Some (VFloat lib
              (r2_score (split_y_test s)
                 (xgb_predict lib (xgb_model lib s) (split_X_test s)))).
Proof.
  intros H1 H2 H3.
  destruct (three_cells_run lib X y ns1 ns2 ns3 H1 H2 H3)
    as (s & scaler & Hs & Hfit & -> & -> & ->).
  exists s, scaler. repeat split; try done; lookup_after.
Qed.

(** C2, amended.  The linear model and the network are fitted and evaluated
    on features transformed by the scaler that was fitted on the training
    rows.  The boosted trees are trained on the raw training rows and
    evaluated on the raw test rows. *)
Theorem models_and_their_features X y ns1 ns2 ns3 :
  linear_regression_cell lib (features_and_target lib X y) = Ok (tt, ns1) ->
  neural_network_cell lib ns1 = Ok (tt, ns2) ->
  xgboost_cell lib ns2 = Ok (tt, ns3) ->
  exists s scaler,
    train_test_split (permutation lib) X y 42 = Ok s /\
    StandardScaler_fit (split_X_train s) = Ok scaler /\
    let scaled_train := transform scaler (split_X_train s) in
    let scaled_test := transform scaler (split_X_test s) in
    let model :=
      fit (new_LinearRegression lib) scaled_train (split_y_train s) in
    let best :=
      fit (grid_search lib (new_MLPRegressor lib) scaled_train
                       (split_y_train s))
          scaled_train (split_y_train s) in
    let booster := xgb_train lib 100 (split_X_train s) (split_y_train s) in
    ns1 !! "model" = Some (VLinear lib model) /\
    ns1 !! "y_pred" = Some (VVector lib (predict model scaled_test)) /\
    ns2 !! "best_neural_net" = Some (VNeural lib best) /\
    ns2 !! "y_pred" = Some (VVector lib (predict best scaled_test)) /\
    ns3 !! "xgb_model" = Some (VBooster lib booster) /\
    ns3 !! "y_pred"
    = Some (VVector lib (xgb_predict lib booster (split_X_test s))).
Proof.
  intros H1 H2 H3.
  destruct (three_cells_run lib X y ns1 ns2 ns3 H1 H2 H3)
    as (s & scaler & Hs & Hfit & -> & -> & ->).
  exists s, scaler. repeat split; try done; lookup_after.
Qed.

(** C3.  What the four metric names hold after each model's cell.  After the
    linear cell all four are the linear model's.  The network's cell rebinds
    [mse] and [r2] only, and the boosted trees' cell [r2] only: [rmse] and
    [mae] stay the linear model's to the end, and [mse] stays the
    network's. *)
Theorem metrics_after_each_model X y ns1 ns2 ns3 :
  linear_regression_cell lib (features_and_target lib X y) = Ok (tt, ns1) ->
  neural_network_cell lib ns1 = Ok (tt, ns2) ->
  xgboost_cell lib ns2 = Ok (tt, ns3) ->
  exists s scaler,
    train_test_split (permutation lib) X y 42 = Ok s /\
    StandardScaler_fit (split_X_train s) = Ok scaler /\
    let y_test := split_y_test s in
    let linear := linear_y_pred lib s scaler in
    let neural := neural_y_pred lib s scaler in
    let boosted := xgb_y_pred lib s in
    (ns1 !! "mse" = Some (VFloat lib (Some (mean_squared_error y_test linear)))
     /\ ns1 !! "rmse"
        = Some (VFloat lib (Some (root_mean_squared_error y_test linear)))
     /\ ns1 !! "mae"
        = Some (VFloat lib (Some (mean_absolute_error y_test linear)))
     /\ ns1 !! "r2" = Some (VFloat lib (r2_score y_test linear))) /\
    (ns2 !! "mse" = Some (VFloat lib (Some (mean_squared_error y_test neural)))
     /\ ns2 !! "rmse"
        = Some (VFloat lib (Some (root_mean_squared_error y_test linear)))
     /\ ns2 !! "mae"
        = Some (VFloat lib (Some (mean_absolute_error y_test linear)))
     /\ ns2 !! "r2" = Some (VFloat lib (r2_score y_test neural))) /\
    (ns3 !! "mse" = Some (VFloat lib (Some (mean_squared_error y_test neural)))
     /\ ns3 !! "rmse"
        = Some (VFloat lib (Some (root_mean_squared_error y_test linear)))
     /\ ns3 !! "mae"
        = Some (VFloat lib (Some (mean_absolute_error y_test linear)))
     /\ ns3 !! "r2" = Some (VFloat lib (r2_score y_test boosted))).
Proof.
  intros H1 H2 H3.
  destruct (three_cells_run lib X y ns1 ns2 ns3 H1 H2 H3)
    as (s & scaler & Hs & Hfit & -> & -> & ->).
  exists s, scaler. repeat split; try done; lookup_after.
Qed.
End model_theorems.

(** ** The toy learners on the ten songs *)

Lemma ten_songs_split :
  train_test_split (permutation toy_library) ten_features ten_targets 42
  = Ok ten_split.
Proof. reflexivity. Qed.

Lemma ten_songs_scaler :
  StandardScaler_fit (split_X_train ten_split) = Ok ten_scaler.
Proof. reflexivity. Qed.

Lemma ten_songs_linear :
  linear_regression_cell toy_library
    (features_and_target toy_library ten_features ten_targets)
  = Ok (tt, after_linear toy_library ten_split ten_scaler
              (features_and_target toy_library ten_features ten_targets)).
Proof.
  rewrite (linear_regression_cell_run _ _ ten_features ten_targets) by done.
  by rewrite ten_songs_split, ret_bind, ten_songs_scaler.
Qed.

Lemma ten_songs_neural :
  neural_network_cell toy_library
    (after_linear toy_library ten_split ten_scaler
       (features_and_target toy_library ten_features ten_targets))
  = Ok (tt, after_neural toy_library ten_split ten_scaler
              (after_linear toy_library ten_split ten_scaler
                 (features_and_target toy_library ten_features ten_targets))).
Proof. apply neural_network_cell_run. Qed.

Lemma ten_songs_xgboost :
  xgboost_cell toy_library
    (after_neural toy_library ten_split ten_scaler
       (after_linear toy_library ten_split ten_scaler
          (features_and_target toy_library ten_features ten_targets)))
  = Ok (tt, after_xgboost toy_library ten_split ten_features ten_targets
              (after_neural toy_library ten_split ten_scaler
                 (after_linear toy_library ten_split ten_scaler
                    (features_and_target toy_library ten_features
                                         ten_targets)))).
Proof.
  rewrite (xgboost_cell_run _ _ ten_features ten_targets) by lookup_after.
  by rewrite ten_songs_split.
Qed.

Lemma same_split_for_all_models_witness :
  exists ns1 ns3 : gmap string (value toy_library),
    ns1 !! "y_test" = Some (VVector toy_library [1; 1]) /\
    ns3 !! "y_test" = Some (VVector toy_library [1; 1]) /\
    ns1 !! "X_test" = Some (VMatrix toy_library [[3]; [3]]) /\
    ns3 !! "X_test" = Some (VMatrix toy_library [[3]; [3]]).
Proof.
  destruct (same_split_for_all_models toy_library ten_features ten_targets
              _ _ _ ten_songs_linear ten_songs_neural ten_songs_xgboost)
    as (s & scaler & Hs & _ & _ & _ & _ & _ & HX1 & HX3 & _ & _ & Hy1 & Hy3
        & _).
  rewrite ten_songs_split in Hs. injection Hs as <-.
  by eexists _, _.
Defined.

Lemma handle_zeros_in_scale_nonzero s : handle_zeros_in_scale s <> 0.
Proof. unfold handle_zeros_in_scale. case_decide; lra. Qed.

Lemma ten_songs_train_mean : mean [0; 2; 0; 2; 0; 2; 0; 2] = 1.
Proof. unfold mean. simpl. lra. Qed.

(** Scaling changes the training rows of the ten songs. *)
Lemma ten_songs_scaled_differ :
  split_X_train ten_split <> transform ten_scaler (split_X_train ten_split).
Proof.
  unfold transform, ten_scaler.
  cbn -[mean std handle_zeros_in_scale].
  intros [= H _]. rewrite ten_songs_train_mean in H.
  pose proof (handle_zeros_in_scale_nonzero
                (std [0; 2; 0; 2; 0; 2; 0; 2])) as Hs.
  set (sc := handle_zeros_in_scale _) in *.
  assert (Hinv : (0 - 1) / sc * sc = 0 * sc) by by rewrite <- H.
  unfold Rdiv in Hinv. rewrite Rmult_assoc, Rinv_l in Hinv by done. lra.
Qed.

(** C2, as stated, fails: the booster the notebook trains on the ten songs
    remembers a training matrix that is not the standardized one. *)
Lemma boosted_trees_take_raw_features :
  exists ns1 ns2 ns3 : gmap string (value toy_library),
    linear_regression_cell toy_library
      (features_and_target toy_library ten_features ten_targets)
    = Ok (tt, ns1) /\
    neural_network_cell toy_library ns1 = Ok (tt, ns2) /\
    xgboost_cell toy_library ns2 = Ok (tt, ns3) /\
    ns1 !! "scaler" = Some (VScaler toy_library ten_scaler) /\
    ns3 !! "xgb_model"
    = Some (VBooster toy_library (100%nat, split_X_train ten_split)) /\
    split_X_train ten_split
    <> transform ten_scaler (split_X_train ten_split).
Proof.
  eexists _, _, _.
  split; [apply ten_songs_linear|].
  split; [apply ten_songs_neural|].
  split; [apply ten_songs_xgboost|].
  split; [lookup_after|]. split; [lookup_after|].
  apply ten_songs_scaled_differ.
Qed.

Lemma models_and_their_features_witness :
  exists (ns1 ns3 : gmap string (value toy_library)) scaler,
    ns1 !! "model"
    = Some (VLinear toy_library
              (transform scaler (split_X_train ten_split))) /\
    ns3 !! "xgb_model"
    = Some (VBooster toy_library (100%nat, split_X_train ten_split)).
Proof.
  destruct (models_and_their_features toy_library ten_features ten_targets
              _ _ _ ten_songs_linear ten_songs_neural ten_songs_xgboost)
    as (s & scaler & Hs & _ & Hmodel & _ & _ & _ & Hxgb & _).
  rewrite ten_songs_split in Hs. injection Hs as <-.
  by eexists _, _, scaler.
Defined.

Lemma ten_songs_linear_rmse :
  root_mean_squared_error (split_y_test ten_split)
    (linear_y_pred toy_library ten_split ten_scaler) = 1.
Proof.
  unfold root_mean_squared_error, mean_squared_error, mean. simpl.
  replace ((1 - 0) * ((1 - 0) * 1) + ((1 - 0) * ((1 - 0) * 1) + 0))
    with (1 + 1) by lra.
  replace ((1 + 1) / (1 + 1)) with 1 by lra. apply sqrt_1.
Qed.

Lemma ten_songs_neural_rmse :
  root_mean_squared_error (split_y_test ten_split)
    (neural_y_pred toy_library ten_split ten_scaler) = 0.
Proof.
  unfold root_mean_squared_error, mean_squared_error, mean. simpl.
  replace (((1 - 1) * ((1 - 1) * 1) + ((1 - 1) * ((1 - 1) * 1) + 0))
           / (1 + 1)) with 0 by lra.
  apply sqrt_0.
Qed.

(** On the ten songs the name [rmse] holds 1 after the network's cell, the
    linear model's error; the network's own error is 0. *)
Lemma stale_rmse_after_neural_cell :
  exists ns1 ns2 : gmap string (value toy_library),
    linear_regression_cell toy_library
      (features_and_target toy_library ten_features ten_targets)
    = Ok (tt, ns1) /\
    neural_network_cell toy_library ns1 = Ok (tt, ns2) /\
    ns2 !! "rmse" = Some (VFloat toy_library (Some 1)) /\
    ns2 !! "y_test" = Some (VVector toy_library [1; 1]) /\
    ns2 !! "y_pred" = Some (VVector toy_library [1; 1]) /\
    root_mean_squared_error [1; 1] [1; 1] = 0.
Proof.
  eexists _, _.
  split; [apply ten_songs_linear|]. split; [apply ten_songs_neural|].
  split; [|split; [lookup_after|split; [lookup_after|]]].
  - rewrite <- ten_songs_linear_rmse. lookup_after.
  - apply ten_songs_neural_rmse.
Qed.

Lemma metrics_after_each_model_witness :
  exists ns2 ns3 : gmap string (value toy_library),
    ns2 !! "rmse" = Some (VFloat toy_library (Some 1)) /\
    ns3 !! "rmse" = Some (VFloat toy_library (Some 1)).
Proof.
  destruct (metrics_after_each_model toy_library ten_features ten_targets
              _ _ _ ten_songs_linear ten_songs_neural ten_songs_xgboost)
    as (s & scaler & Hs & Hfit & _ & (_ & H2 & _) & (_ & H3 & _)).
  rewrite ten_songs_split in Hs. injection Hs as <-.
  rewrite ten_songs_scaler in Hfit. injection Hfit as <-.
  rewrite ten_songs_linear_rmse in H2, H3.
  by eexists _, _.
Defined.

(** ** Standardizer *)

Lemma Rsum_cons x v : Rsum (x :: v) = x + Rsum v.
Proof. done. Qed.



Lemma Rsum_squares_nonneg (g : R -> R) (v : vector) :
  0 <= Rsum (map (fun x => g x ^ 2) v).
Proof.
  induction v as [|x v IH]; [simpl; lra|].
  rewrite map_cons, Rsum_cons. pose proof (pow2_ge_0 (g x)) as Hx. lra.
Qed.

Lemma INR_length_pos {A : Type} (l : list A) : l <> [] -> 0 < INR (length l).
Proof. destruct l; [done|]. intros _. apply lt_0_INR. simpl. lia. Qed.










(** ** All four model cells *)

Section all_cells.
Variable lib : Library.
Implicit Types (ns : gmap string (value lib)).

Lemma model_cells_run X y ns :
  model_cells lib (features_and_target lib X y) = Ok (tt, ns) ->
  exists s scaler linear_scores neural_scores,
    train_test_split (permutation lib) X y 42 = Ok s /\
    StandardScaler_fit (split_X_train s) = Ok scaler /\
    cross_val_score (linear_model lib s scaler) (transform scaler X) y 5
    = Ok linear_scores /\
    cross_val_score (best_neural_net lib s scaler) (transform scaler X) y 5
    = Ok neural_scores /\
    ns = after_comparison lib scaler X y linear_scores neural_scores
           (after_xgboost lib s X y
              (after_neural lib s scaler
                 (after_linear lib s scaler (features_and_target lib X y)))).
Proof.
  unfold model_cells. rewrite run_bind.
  rewrite (linear_regression_cell_run lib _ X y) by done.
  intros (r1 & (s & Hs & (scaler & Hfit & [= <-])%bind_Ok)%bind_Ok
          & H)%bind_Ok.
  cbn [fst snd] in H. rewrite run_bind, neural_network_cell_run in H.
  destruct (KFold 5 (length (X_train_scaled s scaler))) as [folds|e]; [|done].
  rewrite !ret_bind in H. cbn [fst snd] in H. rewrite run_bind in H.
  rewrite (xgboost_cell_run lib _ X y) in H by lookup_after.
  rewrite Hs, !ret_bind in H. cbn [fst snd] in H.
  rewrite (comparison_cell_run lib _ scaler X y
             (linear_model lib s scaler) (best_neural_net lib s scaler))
    in H by lookup_after.
  apply bind_Ok in H as (lin & Hlin & (nn & Hnn & [= <-])%bind_Ok).
  by exists s, scaler, lin, nn.
Qed.

End all_cells.


(** ** Folds *)

(** The section sizes add up to the number of rows. *)
Lemma sum_section_sizes (n k : nat) :
  (0 < k)%nat -> sum_list (section_sizes n k) = n.
Proof.
  intros Hk. unfold section_sizes.
  rewrite sum_list_with_app, !sum_list_replicate.
  pose proof (Nat.div_mod_eq n k) as Hdiv.
  pose proof (Nat.mod_upper_bound n k ltac:(lia)) as Hmod. nia.
Qed.

Lemma concat_sections {A : Type} (sizes : list nat) (l : list A) :
  concat (sections sizes l) = take (sum_list sizes) l.
Proof.
  revert l. induction sizes as [|n sizes IH]; intros l; simpl.
  - by rewrite take_0.
  - by rewrite IH, take_take_drop.
Qed.

Lemma length_sections {A : Type} (sizes : list nat) (l : list A) :
  length (sections sizes l) = length sizes.
Proof.
  revert l. induction sizes as [|n sizes IH]; intros l; simpl; [done|].
  by rewrite IH.
Qed.

(** [array_split] cuts a list into [k] sections that, put end to end, are the
    list: every element lies in exactly one section. *)
Lemma concat_array_split {A : Type} (l : list A) (k : nat) :
  (0 < k)%nat ->
  concat (array_split l k) = l /\ length (array_split l k) = k.
Proof.
  intros Hk. unfold array_split. split.
  - rewrite concat_sections, sum_section_sizes by done. by rewrite take_ge.
  - rewrite length_sections. unfold section_sizes.
    rewrite length_app, !length_replicate.
    pose proof (Nat.mod_upper_bound (length l) k ltac:(lia)). lia.
Qed.

Lemma snd_map_pair {A B : Type} (g : A -> B) (l : list A) :
  (map (fun x => (g x, x)) l).*2 = l.
Proof. induction l as [|x l IH]; [done|]. simpl. f_equal. exact IH. Qed.

Lemma KFold_partition (k n : nat) folds :
  (0 < k)%nat -> KFold k n = Ok folds ->
  length folds = k /\
  concat folds.*2 = seq 0 n /\
  Forall (fun fold => fold.1 = complement n fold.2) folds.
Proof.
  intros Hk. unfold KFold. case_decide; [done|]. intros [= <-].
  destruct (concat_array_split (seq 0 n) k Hk) as [Hcat Hlen].
  split; [by rewrite length_map|]. split.
  - by rewrite snd_map_pair.
  - apply Forall_forall. by intros fold (test & -> & _)%list_elem_of_fmap.
Qed.

Lemma mean_of_negated_scores {A : Type} (g : A -> R) (l : list A) :
  mean_of_negated (map (fun a => - g a) l) = mean (map g l).
Proof.
  unfold mean_of_negated. rewrite map_map.
  rewrite (map_ext _ g) by (intros a; lra). done.
Qed.

Lemma cross_val_score_Ok `{Estimator E} (estimator : E) X y scores :
  cross_val_score estimator X y 5 = Ok scores ->
  exists folds,
    KFold 5 (length X) = Ok folds /\
    mean_of_negated scores = mean (map (fold_rmse estimator X y) folds).
Proof.
  unfold cross_val_score. case_decide; [done|].
  intros (folds & Hfolds & [= <-])%bind_Ok.
  exists folds. split; [done|]. apply mean_of_negated_scores.
Qed.

(** The column [test-rmse-mean] of the table of [xgb.cv], row by row. *)
Lemma xgb_cv_test_rmse_mean lib X y num_boost_round nfold seed :
  map test_rmse_mean (xgb_cv lib X y num_boost_round nfold seed)
  = map (fun i =>
           mean (imap (xgb_fold_eval lib X y (S i)
                         (xgb_folds lib (length X) nfold seed))
                      (xgb_folds lib (length X) nfold seed)).*2)
        (seq 0 num_boost_round).
Proof. unfold xgb_cv. by rewrite map_map. Qed.

Section comparison_theorem.
Variable lib : Library.
Implicit Types (ns : gmap string (value lib)).

(** C5, amended.  For the linear model and for the network the comparison
    value is the mean of the five per-fold RMSEs of an unshuffled 5-fold
    cross-validation over all rows, in which every row is held out in exactly
    one fold.  For the boosted trees the folds are the five sections of the
    seeded permutation of the rows, and the comparison value is the mean, over
    the 100 boosting rounds, of the fold-averaged held-out RMSE after each
    round; it is not the mean of the per-fold errors of the model with 100
    rounds. *)
Theorem cross_validated_values X y ns :
  model_cells lib (features_and_target lib X y) = Ok (tt, ns) ->
  exists s scaler folds,
    train_test_split (permutation lib) X y 42 = Ok s /\
    StandardScaler_fit (split_X_train s) = Ok scaler /\
    KFold 5 (length X) = Ok folds /\
    length folds = 5%nat /\
    concat folds.*2 = seq 0 (length X) /\
    Forall (fun fold => fold.1 = complement (length X) fold.2) folds /\
    ns !! "cross_val_score_lin_reg"
    = Some (VFloat lib (Some (mean (map
              (fold_rmse (linear_model lib s scaler) (transform scaler X) y)
              folds)))) /\
    ns !! "cross_val_score_nn"
    = Some (VFloat lib (Some (mean (map
              (fold_rmse (best_neural_net lib s scaler) (transform scaler X) y)
              folds)))) /\
    length (xgb_folds lib (length X) 5 42) = 5%nat /\
    concat (xgb_folds lib (length X) 5 42) = permutation lib 42 (length X) /\
    ns !! "cross_val_score_xgboost"
    = Some (VFloat lib (Some (mean (map
              (fun i =>
                 mean (imap (xgb_fold_eval lib X y (S i)
                               (xgb_folds lib (length X) 5 42))
                            (xgb_folds lib (length X) 5 42)).*2)
              (seq 0 100))))).
Proof.
  intros (s & scaler & lin & nn & Hs & Hfit & Hlin & Hnn & ->)%model_cells_run.
  apply cross_val_score_Ok in Hlin as (folds & Hfolds & Hlin).
  apply cross_val_score_Ok in Hnn as (folds' & Hfolds' & Hnn).
  rewrite Hfolds in Hfolds'. injection Hfolds' as <-.
  unfold transform in Hfolds. rewrite length_map in Hfolds.
  destruct (KFold_partition 5 (length X) folds ltac:(lia) Hfolds)
    as (Hlen & Hcat & Htrain).
  destruct (concat_array_split (permutation lib 42 (length X)) 5 ltac:(lia))
    as [Hxcat Hxlen].
  exists s, scaler, folds. do 6 (split; [done|]).
  split; [rewrite <- Hlin; unfold after_comparison; lookup_after|].
  split; [rewrite <- Hnn; unfold after_comparison; lookup_after|].
  do 2 (split; [done|]).
  rewrite <- xgb_cv_test_rmse_mean. unfold after_comparison. lookup_after.
Qed.
End comparison_theorem.

(** ** The comparison cell on the ten songs *)

Lemma ten_songs_KFold :
  KFold 5 (length (transform ten_scaler ten_features))
  = Ok [([2; 3; 4; 5; 6; 7; 8; 9], [0; 1]); ([0; 1; 4; 5; 6; 7; 8; 9], [2; 3]);
        ([0; 1; 2; 3; 6; 7; 8; 9], [4; 5]); ([0; 1; 2; 3; 4; 5; 8; 9], [6; 7]);
        ([0; 1; 2; 3; 4; 5; 6; 7], [8; 9])]%nat.
Proof. reflexivity. Qed.

Lemma ten_songs_cross_val_score `{Estimator E} (estimator : E) :
  exists scores,
    cross_val_score estimator (transform ten_scaler ten_features)
                    ten_targets 5 = Ok scores.
Proof. unfold cross_val_score. rewrite ten_songs_KFold. by eexists. Qed.

Lemma ten_songs_model_cells :
  exists linear_scores neural_scores,
    model_cells toy_library
      (features_and_target toy_library ten_features ten_targets)
    = Ok (tt, after_comparison toy_library ten_scaler ten_features
                ten_targets linear_scores neural_scores
                (after_xgboost toy_library ten_split ten_features ten_targets
                   (after_neural toy_library ten_split ten_scaler
                      (after_linear toy_library ten_split ten_scaler
                         (features_and_target toy_library ten_features
                                              ten_targets))))).
Proof.
  destruct (ten_songs_cross_val_score
              (linear_model toy_library ten_split ten_scaler))
    as [lin Hlin].
  destruct (ten_songs_cross_val_score
              (best_neural_net toy_library ten_split ten_scaler))
    as [nn Hnn].
  exists lin, nn. unfold model_cells.
  rewrite run_bind, ten_songs_linear, ret_bind. cbn [fst snd].
  rewrite run_bind, ten_songs_neural, ret_bind. cbn [fst snd].
  rewrite run_bind, ten_songs_xgboost, ret_bind. cbn [fst snd].
  rewrite (comparison_cell_run toy_library _ ten_scaler ten_features
             ten_targets (linear_model toy_library ten_split ten_scaler)
             (best_neural_net toy_library ten_split ten_scaler))
    by lookup_after.
  by rewrite Hlin, ret_bind, Hnn.
Qed.


Lemma rmse_ones_zeros : root_mean_squared_error [1; 1] [0; 0] = 1.
Proof.
  unfold root_mean_squared_error, mean_squared_error, mean. simpl.
  replace (((1 - 0) * ((1 - 0) * 1) + ((1 - 0) * ((1 - 0) * 1) + 0))
           / (1 + 1)) with 1 by lra.
  apply sqrt_1.
Qed.

Lemma rmse_ones_ones : root_mean_squared_error [1; 1] [1; 1] = 0.
Proof.
  unfold root_mean_squared_error, mean_squared_error, mean. simpl.
  replace (((1 - 1) * ((1 - 1) * 1) + ((1 - 1) * ((1 - 1) * 1) + 0))
           / (1 + 1)) with 0 by lra.
  apply sqrt_0.
Qed.

Lemma ten_songs_xgb_folds :
  xgb_folds toy_library (length ten_features) 5 42
  = [[0; 1]; [2; 3]; [4; 5]; [6; 7]; [8; 9]]%nat.
Proof. reflexivity. Qed.

Lemma toy_xgb_rmse (rounds : nat) (M X : matrix) (label : vector) :
  xgb_rmse toy_library (rounds, M) X label
  = root_mean_squared_error label
      (map (fun _ => if (rounds =? 100)%nat then 1 else 0) X).
Proof. done. Qed.

(** On the ten songs every fold's held-out RMSE is 1 before the 100th round
    and 0 at the 100th. *)
Lemma ten_songs_round (rounds : nat) :
  mean (imap (xgb_fold_eval toy_library ten_features ten_targets rounds
                (xgb_folds toy_library (length ten_features) 5 42))
             (xgb_folds toy_library (length ten_features) 5 42)).*2
  = if (rounds =? 100)%nat then 0 else 1.
Proof.
  rewrite ten_songs_xgb_folds.
  cbn -[xgb_rmse Nat.eqb mean]. rewrite !toy_xgb_rmse.
  cbn -[root_mean_squared_error Nat.eqb mean].
  destruct (rounds =? 100)%nat.
  - rewrite rmse_ones_ones. unfold mean. simpl. lra.
  - rewrite rmse_ones_zeros. unfold mean. simpl. lra.
Qed.

Lemma ten_songs_rounds_mean :
  mean (map (fun i : nat => if (S i =? 100)%nat then 0 else 1) (seq 0 100))
  = 99 / 100.
Proof.
  unfold mean. rewrite length_map, length_seq, INR_IZR_INZ.
  change (Z.of_nat 100) with 100%Z.
  cbn [seq map Rsum foldr Nat.eqb]. lra.
Qed.

(** C5, as stated, fails for the boosted trees: on the ten songs the
    comparison value is 99/100, while the five per-fold errors of the model
    with 100 rounds are all 0. *)
Lemma boosted_trees_comparison_value :
  exists ns : gmap string (value toy_library),
    model_cells toy_library
      (features_and_target toy_library ten_features ten_targets)
    = Ok (tt, ns) /\
    ns !! "cross_val_score_xgboost"
    = Some (VFloat toy_library (Some (99 / 100))) /\
    (imap (xgb_fold_eval toy_library ten_features ten_targets 100
             (xgb_folds toy_library (length ten_features) 5 42))
          (xgb_folds toy_library (length ten_features) 5 42)).*2
    = [0; 0; 0; 0; 0] /\
    99 / 100 <> mean [0; 0; 0; 0; 0].
Proof.
  destruct ten_songs_model_cells as (lin & nn & Hrun).
  eexists. split; [exact Hrun|]. split; [|split].
  - unfold after_comparison. rewrite lookup_insert_eq.
    rewrite xgb_cv_test_rmse_mean.
    rewrite (map_ext _ (fun i : nat => if (S i =? 100)%nat then 0 else 1))
      by (intros i; apply ten_songs_round).
    by rewrite ten_songs_rounds_mean.
  - rewrite ten_songs_xgb_folds.
    cbn -[xgb_rmse]. rewrite !toy_xgb_rmse.
    cbn -[root_mean_squared_error]. by rewrite rmse_ones_ones.
  - unfold mean. simpl. lra.
Qed.

Lemma cross_validated_values_witness :
  exists ns : gmap string (value toy_library),
    ns !! "cross_val_score_xgboost"
    = Some (VFloat toy_library (Some (99 / 100))).
Proof.
  destruct ten_songs_model_cells as (lin & nn & Hrun).
  destruct (cross_validated_values toy_library ten_features ten_targets
              _ Hrun)
    as (s & scaler & folds & _ & _ & _ & _ & _ & _ & _ & _ & _ & _ & Hxgb).
  rewrite (map_ext _ (fun i : nat => if (S i =? 100)%nat then 0 else 1)) in Hxgb
    by (intros i; apply ten_songs_round).
  rewrite ten_songs_rounds_mean in Hxgb. eexists. exact Hxgb.
Defined.

(** * Further properties of the stages *)

(** ** Data cleaning, row by row *)

Section cleaning_rows.
Context {V : Type} `{EqDecision V}.
Implicit Types (data : list (row V)) (seen : list (list (option V))).

Lemma filter_drop_duplicates_from (c : list (option V)) seen data :
  filter (fun r => cells r = c) (drop_duplicates_from seen data)
  = if decide (c ∈ seen) then []
    else take 1 (filter (fun r => cells r = c) data).
Proof.
  revert seen. induction data as [|r rest IH]; intros seen; simpl.
  - by case_decide.
  - rewrite filter_cons. case_decide as Hseen.
    + rewrite IH. destruct (decide (c ∈ seen)) as [Hin|Hin]; [done|].
      rewrite decide_False; [done|]. by intros <-.
    + rewrite filter_cons, IH. destruct (decide (cells r = c)) as [Hc|Hc].
      * subst c. rewrite decide_True by (by left).
        by rewrite decide_False by done.
      * destruct (decide (c ∈ seen)) as [Hin|Hin].
        -- by rewrite decide_True by (by right).
        -- rewrite decide_False; [done|].
           intros [?|?]%elem_of_cons; congruence.
Qed.

Lemma sublist_same_length {A : Type} (l1 l2 : list A) :
  sublist l1 l2 -> length l1 = length l2 -> l1 = l2.
Proof.
  induction 1 as [|x l1 l2 _ IH|x l1 l2 Hsub _]; simpl; intros Hlen.
  - done.
  - f_equal. apply IH. lia.
  - apply sublist_length in Hsub. lia.
Qed.

(** X1.  [drop_duplicates] keeps the rows in their order, leaves no two rows
    with the same cells, and of the rows that share their cells it keeps
    exactly the first: no combination of values disappears from the data. *)
Theorem drop_duplicates_keeps_first data :
  sublist (drop_duplicates data) data /\
  NoDup (cells <$> drop_duplicates data) /\
  forall c, filter (fun r => cells r = c) (drop_duplicates data)
            = take 1 (filter (fun r => cells r = c) data).
Proof.
  split; [apply drop_duplicates_from_sublist|].
  split; [apply drop_duplicates_from_NoDup|].
  intros c. unfold drop_duplicates. rewrite filter_drop_duplicates_from.
  rewrite decide_False; [done|]. by intros ?%elem_of_nil.
Qed.

(** X2.  [drop_duplicates] changes nothing, and removes no row, exactly when
    the rows are pairwise different; its result is such a dataset, so a
    second call changes nothing. *)
Theorem drop_duplicates_fixpoint data :
  (drop_duplicates data = data <-> NoDup (cells <$> data)) /\
  (length (drop_duplicates data) = length data <-> NoDup (cells <$> data)) /\
  drop_duplicates (drop_duplicates data) = drop_duplicates data.
Proof.
  split; [apply drop_duplicates_id|].
  split; [|apply drop_duplicates_idempotent].
  rewrite <- drop_duplicates_id. split; [|by intros ->].
  apply sublist_same_length, drop_duplicates_from_sublist.
Qed.

(** X3.  The cleaned data has no missing value and no more rows than the raw
    data; every cleaned row is a raw row, under its own label, in which the
    missing cells, and only those, were replaced by the fill value. *)
Theorem clean_rows (zero : V) data :
  no_missing (clean zero data) /\
  (length (clean zero data) <= length data)%nat /\
  sublist (label <$> clean zero data) (label <$> data) /\
  forall r', r' ∈ clean zero data ->
    exists r, r ∈ data /\ label r' = label r /\
      Forall2 (fun c' c => c' = Some (default zero c)) (cells r') (cells r).
Proof.
  unfold clean. split; [apply fillna_no_missing|].
  split.
  { unfold fillna. rewrite length_map. apply sublist_length.
    apply drop_duplicates_from_sublist. }
  split.
  { unfold fillna. rewrite <- list_fmap_compose.
    apply (fmap_sublist label), drop_duplicates_from_sublist. }
  intros r' (r & -> & Hin)%list_elem_of_fmap. exists r.
  split; [|split; [done|]].
  - eapply elem_of_sublist; [apply Hin|apply drop_duplicates_from_sublist].
  - simpl. apply Forall2_fmap_l, Forall_Forall2_diag, Forall_forall.
    intros c _. by destruct c.
Qed.
End cleaning_rows.

(** ** Count columns: entries that are not plain counts *)

(** X4.  A count column of dtype object that holds no text has no [.str]
    accessor as soon as it holds a value: line 92 raises AttributeError.  If
    every entry is missing, the accessor exists and every count is 0. *)
Theorem normalize_count_without_text (l : list scalar) :
  Forall (fun x => ~ is_str x) l ->
  (Exists (fun x => x <> SFloat FNaN) l ->
   normalize_count (Object l) = Raise AttributeError) /\
  (Forall (fun x => x = SFloat FNaN) l ->
   normalize_count (Object l) = Ok (Int64 (replicate (length l) 0%Z))).
Proof.
  intros Hno. split.
  - intros (x & Hin & Hx)%Exists_exists.
    unfold normalize_count, str_accessor, infer_dtype, infer_object.
    assert (Hvals : x ∈ filter (fun x => Is_true (notna x)) l).
    { apply list_elem_of_filter. split; [|done].
      destruct x as [| |[]]; done. }
    assert (Hall : Forall (fun x => ~ is_str x)
                          (filter (fun x => Is_true (notna x)) l)).
    { apply Forall_forall. intros x' [_ Hx']%list_elem_of_filter.
      rewrite Forall_forall in Hno. by apply Hno. }
    destruct (filter _ l) as [|first vals] eqn:Hf; [by inversion Hvals|].
    assert (Hfirst : is_str first = false).
    { apply Forall_cons in Hall as [Hfirst _]. by destruct first. }
    assert (Hnum : forallb (fun x => is_int x || is_float x) (first :: vals)
                   = true).
    { apply forallb_forall. intros x' Hx'%list_elem_of_In.
      rewrite Forall_forall in Hall. specialize (Hall _ Hx').
      by destruct x'. }
    replace (forallb is_str (first :: vals)) with false
      by (simpl; by rewrite Hfirst).
    rewrite Hnum, Hfirst. simpl negb. cbv iota.
    destruct (is_int first && forallb is_int (first :: vals)); [done|].
    by destruct (is_float first && forallb is_float (first :: vals)).
  - intros Hnan. unfold normalize_count.
    assert (Hacc : str_accessor (Object l) = Ok l).
    { unfold str_accessor, infer_dtype, infer_object.
      replace (filter (fun x => Is_true (notna x)) l) with (@nil scalar); [done|].
      symmetry. clear Hno. induction Hnan as [|x l -> _ IH]; [done|].
      rewrite filter_cons. by rewrite decide_False by (simpl; tauto). }
    rewrite Hacc. simpl. clear Hno Hacc.
    assert (Hfs : astype_float (str_replace "," "" l)
                  = Ok (replicate (length l) FNaN)).
    { unfold astype_float, str_replace.
      induction Hnan as [|x l -> _ IH]; [done|].
      rewrite map_cons, mapM_cons, ret_bind, IH. done. }
    rewrite Hfs. simpl.
    assert (Hzs : astype_int (fillna_float (replicate (length l) FNaN))
                  = Ok (replicate (length l) 0%Z)).
    { unfold astype_int, fillna_float. clear.
      induction (length l) as [|n IH]; [done|].
      simpl replicate. rewrite map_cons, mapM_cons, IH. done. }
    by rewrite Hzs.
Qed.

Lemma normalize_count_without_text_witness :
  normalize_count (Object counts_without_text) = Raise AttributeError.
Proof.
  apply (normalize_count_without_text counts_without_text).
  - repeat constructor; simpl; tauto.
  - left. discriminate.
Defined.

Lemma astype_float_reads l fs :
  Forall2 reads_as l fs -> astype_float (str_replace "," "" l) = Ok fs.
Proof.
  unfold astype_float, str_replace.
  induction 1 as [|x f l fs Hx _ IH]; [done|].
  rewrite map_cons, mapM_cons, IH.
  destruct x as [s| |]; simpl in Hx; subst; try done.
  unfold float. by rewrite Hx.
Qed.

(** X5.  On a count column that holds text every entry is converted on its
    own: an entry that reads as NaN (the text [nan] as well as a missing
    value) becomes 0 and a finite value loses its fraction.  One entry that
    reads as infinity raises ValueError for the whole column. *)
Theorem normalize_count_entries (l : list scalar) (fs : list pyfloat) :
  Exists is_str l ->
  Forall2 reads_as l fs ->
  (Forall (fun f => forall b, f <> FInf b) fs ->
   normalize_count (Object l) = Ok (Int64 (count_of_float <$> fs))) /\
  (Exists (fun f => exists b, f = FInf b) fs ->
   normalize_count (Object l) = Raise ValueError).
Proof.
  intros Htext Hfs. unfold normalize_count.
  rewrite (str_accessor_text _ Htext). simpl.
  rewrite (astype_float_reads _ _ Hfs). simpl. clear. split.
  - intros Hfin.
    assert (Hzs : astype_int (fillna_float fs) = Ok (count_of_float <$> fs)).
    { unfold astype_int, fillna_float.
      induction Hfin as [|f fs Hf _ IH]; [done|].
      rewrite map_cons, mapM_cons, IH.
      destruct f as [|b|q]; try done. by destruct (Hf b). }
    by rewrite Hzs.
  - intros Hinf.
    assert (Hzs : astype_int (fillna_float fs) = Raise ValueError).
    { unfold astype_int, fillna_float.
      induction Hinf as [f fs [b ->]|f fs _ IH].
      - by rewrite map_cons, mapM_cons.
      - rewrite map_cons, mapM_cons, IH. by destruct f. }
    by rewrite Hzs.
Qed.

Lemma normalize_count_entries_witness :
  normalize_count (Object counts_with_fraction)
  = Ok (Int64 [12; 0; 0; 1]%Z) /\
  normalize_count (Object counts_with_infinity) = Raise ValueError.
Proof.
  split.
  - apply (proj1 (normalize_count_entries counts_with_fraction
                    [FFin (25 # 2); FNaN; FFin (- 1 # 2); FFin 1]
                    ltac:(left; exact I)
                    ltac:(repeat constructor; by vm_compute))).
    repeat constructor; discriminate.
  - apply (proj2 (normalize_count_entries counts_with_infinity
                    [FFin 7; FInf false]
                    ltac:(left; exact I)
                    ltac:(repeat constructor; by vm_compute))).
    right. left. by exists false.
Defined.

(** ** Reading floats *)

Lemma lstrip_spaces ws s :
  forallb is_space ws = true -> lstrip (ws ++ s) = lstrip s.
Proof.
  induction ws as [|c ws IH]; [done|]. simpl.
  intros [-> Hws]%andb_true_iff. by apply IH.
Qed.

Lemma lstrip_app s t : lstrip s <> [] -> lstrip (s ++ t) = lstrip s ++ t.
Proof.
  induction s as [|c s IH]; [done|]. simpl.
  destruct (is_space c); [apply IH|done].
Qed.

Lemma lstrip_nil s : lstrip s = [] -> forallb is_space s = true.
Proof.
  induction s as [|c s IH]; [done|]. simpl.
  destruct (is_space c); [apply IH|done].
Qed.

Lemma forallb_rev {A : Type} (f : A -> bool) (l : list A) :
  forallb f (rev l) = forallb f l.
Proof.
  induction l as [|x l IH]; [done|]. simpl.
  rewrite forallb_app, IH. simpl. rewrite andb_true_r. apply andb_comm.
Qed.

Lemma strip_spaces ws1 ws2 s :
  forallb is_space ws1 = true -> forallb is_space ws2 = true ->
  strip (ws1 ++ s ++ ws2) = strip s.
Proof.
  intros H1 H2. unfold strip. rewrite (lstrip_spaces _ _ H1).
  destruct (lstrip s) as [|c t] eqn:Hs.
  - rewrite <- (app_nil_r (s ++ ws2)), lstrip_spaces; [done|].
    rewrite forallb_app, H2, (lstrip_nil _ Hs). done.
  - rewrite lstrip_app by (by rewrite Hs). rewrite Hs.
    rewrite rev_app_distr. f_equal. apply lstrip_spaces.
    by rewrite forallb_rev.
Qed.

Lemma list_ascii_of_string_app s1 s2 :
  list_ascii_of_string (s1 +:+ s2)
  = list_ascii_of_string s1 ++ list_ascii_of_string s2.
Proof. induction s1 as [|c s1 IH]; simpl; [done|]. by rewrite IH. Qed.

(** X6.  [float] ignores white space around the text: blanks, tabs and line
    ends before and after a count do not change what it reads as, and do not
    make unreadable text readable. *)
Theorem float_ignores_white_space (ws1 s ws2 : string) :
  forallb is_space (list_ascii_of_string ws1) = true ->
  forallb is_space (list_ascii_of_string ws2) = true ->
  float (ws1 +:+ s +:+ ws2) = float s.
Proof.
  intros H1 H2. unfold float, float_of_chars.
  by rewrite !list_ascii_of_string_app, (strip_spaces _ _ _ H1 H2).
Qed.

Lemma float_ignores_white_space_witness :
  float (" " +:+ "1021" +:+ String "009" (String "010" "")) = float "1021".
Proof. apply float_ignores_white_space; reflexivity. Defined.

(** X7.  [astype(int)] drops the fraction of a float: the integer lies less
    than 1 from the float, on the side of zero. *)
Theorem int_of_float_truncates (q : Q) :
  (inject_Z (- 2 ^ 63) <= q)%Q -> (q < inject_Z (2 ^ 63))%Q ->
  let z := inject_Z (int_of_float q) in
  ((0 <= q)%Q -> (0 <= z)%Q /\ (z <= q)%Q /\ (q < z + 1)%Q) /\
  ((q <= 0)%Q -> (z <= 0)%Q /\ (q <= z)%Q /\ (z - 1 < q)%Q).
Proof.
  destruct q as [n d]. unfold Qle, Qlt, int_of_float. simpl Qnum. simpl Qden.
  rewrite !Z.mul_1_r. intros Hlo Hhi.
  pose proof (Z.quot_rem' n (Z.pos d)) as Hqr.
  assert (Hr : (0 <= n -> 0 <= Z.rem n (Z.pos d) < Z.pos d)%Z)
    by (intros; apply Z.rem_bound_pos; lia).
  assert (Hr' : (n <= 0 -> - Z.pos d < Z.rem n (Z.pos d) <= 0)%Z).
  { intros Hn. pose proof (Z.rem_bound_pos (- n) (Z.pos d)) as Hb.
    rewrite Z.rem_opp_l in Hb by lia. lia. }
  set (z := (n ÷ Z.pos d)%Z) in *. set (r := Z.rem n (Z.pos d)) in *.
  assert (Hrange : (- 2 ^ 63 <=? z)%Z && (z <? 2 ^ 63)%Z = true).
  { apply andb_true_iff. split; [apply Z.leb_le|apply Z.ltb_lt]; nia. }
  rewrite Hrange. unfold Qminus, Qplus, Qopp, inject_Z. simpl.
  rewrite ?Z.mul_1_r. split; intros Hn; repeat split; nia.
Qed.

Lemma int_of_float_truncates_witness :
  (inject_Z (int_of_float (- 129 # 10)) <= 0)%Q /\
  (- 129 # 10 <= inject_Z (int_of_float (- 129 # 10)))%Q /\
  (inject_Z (int_of_float (- 129 # 10)) - 1 < - 129 # 10)%Q.
Proof.
  apply (int_of_float_truncates (- 129 # 10)); by vm_compute.
Defined.

(** ** Days since release *)

(** X8.  [days_since_release] counts whole days from the midnight of the
    release date to the current time, for a release date since 1970: a song
    released on the current day has 0 days, one dated after it a negative
    number.  The subtraction does not overflow. *)
Theorem days_since_counts_whole_days (now today released : Z) :
  (0 <= now < 2 ^ 63)%Z ->
  (today * nanoseconds_per_day <= now < (today + 1) * nanoseconds_per_day)%Z ->
  (0 <= released <= max_day)%Z ->
  days_since now (released * nanoseconds_per_day)
  = Ok (today - released)%Z.
Proof.
  unfold days_since, max_day, nanoseconds_per_day. intros Hnow Htoday Hrel.
  assert (Hrange :
    ((- 2 ^ 63 <? now - released * (86400 * 10 ^ 9))
     && (now - released * (86400 * 10 ^ 9) <? 2 ^ 63))%Z = true).
  { apply andb_true_iff. split; apply Z.ltb_lt; lia. }
  rewrite Hrange. f_equal. symmetry.
  apply Z.div_unique with (now - today * (86400 * 10 ^ 9))%Z; lia.
Qed.

Lemma days_since_counts_whole_days_witness :
  days_since (new_year_2024 + 3600 * 10 ^ 9)
             (19724 * nanoseconds_per_day)
  = Ok (19723 - 19724)%Z.
Proof.
  apply (days_since_counts_whole_days _ 19723 19724); by vm_compute.
Defined.

(** ** The frame after feature engineering *)

Lemma length_select {A : Type} (mask : list bool) (l : list A) :
  length mask = length l -> length (select mask l) = count_true mask.
Proof.
  unfold count_true. revert l.
  induction mask as [|b mask IH]; intros [|x l]; simpl; try done.
  intros [= Hlen]. rewrite filter_cons. destruct b; simpl.
  - by rewrite IH.
  - by apply IH.
Qed.

Lemma column_length_select mask c :
  length mask = column_length c ->
  column_length (select_column mask c) = count_true mask.
Proof. destruct c; simpl; apply length_select. Qed.

Lemma length_notna_mask c : length (notna_mask c) = column_length c.
Proof. destruct c; simpl; by rewrite length_map. Qed.

Lemma column_length_to_numeric numeric_literal c :
  column_length (to_numeric numeric_literal c) = column_length c.
Proof.
  destruct c as [l| |]; simpl; try done.
  destruct (mapM _ _) as [zs|] eqn:Hm; simpl.
  - apply length_mapM in Hm. by rewrite <- Hm, length_map.
  - by rewrite !length_map.
Qed.

Lemma to_numeric_not_Object numeric_literal c l :
  to_numeric numeric_literal c <> Object l.
Proof.
  destruct c as [l'| |]; simpl; try done. by destruct (mapM _ _).
Qed.

Lemma select_notna_numeric c :
  (forall l, c <> Object l) ->
  numeric_without_nan (select_column (notna_mask c) c).
Proof.
  destruct c as [l|l|l]; simpl; intros Hc; [by destruct (Hc l)|done|].
  clear Hc. induction l as [|f l IH]; simpl; [constructor|].
  destruct f; simpl; [done|by constructor..].
Qed.

Lemma column_length_normalize_count col col' :
  normalize_count col = Ok col' -> column_length col' = column_length col.
Proof.
  unfold normalize_count.
  intros (strs & Hstrs & (fs & Hfs & (zs & Hzs & [= <-])%bind_Ok)%bind_Ok)
    %bind_Ok.
  apply mapM_Ok_length in Hfs, Hzs. simpl. rewrite Hzs.
  unfold fillna_float. rewrite length_map, Hfs.
  unfold str_replace. rewrite length_map.
  unfold str_accessor in Hstrs.
  destruct col; simpl in *;
    repeat match goal with
           | H : context [match ?x with _ => _ end] |- _ => destruct x
           end; congruence.
Qed.

Lemma length_zip3 {A B C : Type} (la : list A) (lb : list B) (lc : list C) n :
  length la = n -> length lb = n -> length lc = n ->
  length (zip3 la lb lc) = n.
Proof.
  revert la lb lc. induction n as [|n IH]; intros [|a la] [|b lb] [|c lc];
    simpl; try done.
  intros [=] [=] [=]. f_equal. by apply IH.
Qed.

(** X9.  Feature engineering keeps the columns aligned.  On a frame of [n]
    rows it yields a frame of as many rows as [streams] has readable values,
    at most [n]: every column has lost the same rows.  The frame has the two
    new columns, the count columns are integer columns, and [streams] is a
    numeric column without a missing value. *)
Theorem feature_engineering_frame numeric_literal now data data' n :
  has_rows n data ->
  feature_engineering numeric_literal now data = Ok data' ->
  let kept := count_true (notna_mask (to_numeric numeric_literal
                                                 (streams data))) in
  (kept <= n)%nat /\
  has_rows kept data' /\
  is_Some (release_date data') /\
  is_Some (days_since_release data') /\
  (exists zs, in_deezer_playlists data' = Int64 zs) /\
  (exists zs, in_shazam_charts data' = Int64 zs) /\
  numeric_without_nan (streams data').
Proof.
  intros (Hy & Hm & Hd & Hdz & Hsh & Hst & _ & _ & Hother).
  unfold feature_engineering.
  intros (dates & Hdates & (days & Hdays & (deezer & Hdeezer &
          (shazam & Hshazam & [= <-])%bind_Ok)%bind_Ok)%bind_Ok)%bind_Ok.
  set (mask := notna_mask (to_numeric numeric_literal (streams data))).
  assert (Hmask : length mask = n).
  { unfold mask. by rewrite length_notna_mask, column_length_to_numeric. }
  assert (Hlen_dates : length dates = n).
  { apply mapM_Ok_length in Hdates. rewrite Hdates. by apply length_zip3. }
  assert (Hlen_days : length days = n).
  { apply mapM_Ok_length in Hdays. by rewrite Hdays. }
  pose proof (column_length_normalize_count _ _ Hdeezer) as Hlen_deezer.
  pose proof (column_length_normalize_count _ _ Hshazam) as Hlen_shazam.
  apply normalize_count_Int64 in Hdeezer as [dz ->].
  apply normalize_count_Int64 in Hshazam as [sh ->].
  simpl. fold mask. split.
  { unfold count_true. rewrite <- Hmask. apply length_filter. }
  split.
  { unfold has_rows, dropna_streams, select_rows. simpl. fold mask.
    repeat split.
    - apply length_select; congruence.
    - apply length_select; congruence.
    - apply length_select; congruence.
    - apply length_select. simpl in Hlen_deezer. congruence.
    - apply length_select. simpl in Hlen_shazam. congruence.
    - apply column_length_select.
      rewrite column_length_to_numeric. congruence.
    - intros l [= <-]. apply length_select. congruence.
    - intros l [= <-]. apply length_select. congruence.
    - apply Forall_fmap. eapply Forall_impl; [exact Hother|].
      intros c Hc. simpl. apply column_length_select. congruence. }
  repeat split; eauto.
  apply select_notna_numeric. intros l. apply to_numeric_not_Object.
Qed.

Lemma feature_engineering_frame_witness :
  exists data',
    feature_engineering plain_counts new_year_2024 two_songs = Ok data' /\
    has_rows 1 data' /\ numeric_without_nan (streams data').
Proof.
  eexists. split; [by vm_compute|].
  refine ((fun H => conj (proj1 (proj2 H))
                         (proj2 (proj2 (proj2 (proj2 (proj2 (proj2 H)))))))
            (feature_engineering_frame plain_counts new_year_2024 two_songs
               _ 2%nat _ _)).
  - unfold has_rows. simpl. repeat split; try done. by repeat constructor.
  - by vm_compute.
Defined.

(** ** Release dates in the order of the calendar *)

Lemma days_from_civil_alt y m d :
  days_from_civil y m d
  = (years_to_days (if m <=? 2 then y - 1 else y)
     + (153 * (if 2 <? m then m - 3 else m + 9) + 2) / 5 + d - 1 - 719468)%Z.
Proof.
  unfold days_from_civil, years_to_days.
  set (y' := if (m <=? 2)%Z then (y - 1)%Z else y).
  Z.div_mod_to_equations. lia.
Qed.

Lemma years_to_days_step y :
  (years_to_days (y + 1) - years_to_days y
   = if is_leap (y + 1) then 366 else 365)%Z.
Proof.
  unfold years_to_days, is_leap.
  destruct (Z.eqb_spec ((y + 1) mod 4) 0), (Z.eqb_spec ((y + 1) mod 100) 0),
    (Z.eqb_spec ((y + 1) mod 400) 0); simpl; Z.div_mod_to_equations; lia.
Qed.

Lemma years_to_days_mono a b :
  (a <= b -> 365 * (b - a) <= years_to_days b - years_to_days a)%Z.
Proof.
  intros Hab. unfold years_to_days. Z.div_mod_to_equations. lia.
Qed.

Lemma month_cases m :
  (1 <= m <= 12)%Z ->
  (m = 1 \/ m = 2 \/ m = 3 \/ m = 4 \/ m = 5 \/ m = 6 \/ m = 7 \/ m = 8 \/
   m = 9 \/ m = 10 \/ m = 11 \/ m = 12)%Z.
Proof. lia. Qed.

Ltac month_cases m H :=
  destruct (month_cases m H)
    as [->|[->|[->|[->|[->|[->|[->|[->|[->|[->|[->| ->]]]]]]]]]]].

(** A day of the year [y] lies between its 1st of January and its 31st of
    December. *)
Lemma days_from_civil_in_year y m d :
  (1 <= m <= 12)%Z -> (1 <= d <= days_in_month y m)%Z ->
  (years_to_days (y - 1) + 306 <= days_from_civil y m d + 719468
   <= years_to_days y + 305)%Z.
Proof.
  intros Hm Hd. rewrite days_from_civil_alt.
  pose proof (years_to_days_step (y - 1)) as Hstep.
  replace (y - 1 + 1)%Z with y in Hstep by lia.
  unfold days_in_month in Hd.
  month_cases m Hm; simpl in *; destruct (is_leap y);
    Z.div_mod_to_equations; lia.
Qed.

Lemma timestamp_earlier t1 t2 :
  calendar_date t1 -> calendar_date t2 -> earlier t1 t2 ->
  (timestamp t1 < timestamp t2)%Z.
Proof.
  destruct t1 as [[y1 m1] d1], t2 as [[y2 m2] d2]. unfold timestamp.
  intros (Hm1 & Hd1 & _) (Hm2 & Hd2 & _) Hlt.
  apply Z.mul_lt_mono_pos_r; [by vm_compute|].
  destruct Hlt as [Hy|[-> Hlt]].
  - pose proof (days_from_civil_in_year _ _ _ Hm1 Hd1).
    pose proof (days_from_civil_in_year _ _ _ Hm2 Hd2).
    pose proof (years_to_days_mono y1 (y2 - 1)). lia.
  - rewrite !days_from_civil_alt.
    pose proof (years_to_days_step (y2 - 1)) as Hstep.
    replace (y2 - 1 + 1)%Z with y2 in Hstep by lia.
    unfold days_in_month in Hd1, Hd2.
    month_cases m1 Hm1; month_cases m2 Hm2;
      simpl in *; try lia; destruct (is_leap y2);
      Z.div_mod_to_equations; lia.
Qed.

Lemma earlier_trichotomy t1 t2 : t1 = t2 \/ earlier t1 t2 \/ earlier t2 t1.
Proof.
  destruct t1 as [[y1 m1] d1], t2 as [[y2 m2] d2]. unfold earlier.
  destruct (Z.lt_trichotomy y1 y2) as [?|[->|?]]; [tauto| |tauto].
  destruct (Z.lt_trichotomy m1 m2) as [?|[->|?]]; [tauto| |tauto].
  destruct (Z.lt_trichotomy d1 d2) as [?|[->|?]]; tauto.
Qed.

Lemma days_since_timestamp now (t : Z * Z * Z) k :
  days_since now (timestamp t) = Ok k ->
  k = (now / nanoseconds_per_day
       - (let '(y, m, d) := t in days_from_civil y m d))%Z.
Proof.
  destruct t as [[y m] d]. unfold days_since, timestamp.
  destruct (_ && _); [|done]. intros [= <-].
  replace (now - days_from_civil y m d * nanoseconds_per_day)%Z
    with (now + (- days_from_civil y m d) * nanoseconds_per_day)%Z by lia.
  rewrite Z.div_add by (by vm_compute). lia.
Qed.

(** X10.  [days_since_release] orders the songs as the calendar orders their
    release dates: of two songs, the one released on the earlier date has
    strictly more days since its release, and two songs have the same number
    of days only if they were released on the same date. *)
Theorem earlier_release_more_days now t1 t2 k1 k2 :
  calendar_date t1 -> calendar_date t2 ->
  days_since now (timestamp t1) = Ok k1 ->
  days_since now (timestamp t2) = Ok k2 ->
  (earlier t1 t2 <-> (k2 < k1)%Z) /\ (t1 = t2 <-> k1 = k2).
Proof.
  intros Hc1 Hc2 ->%days_since_timestamp ->%days_since_timestamp.
  assert (Hlt : forall t t', calendar_date t -> calendar_date t' ->
                  earlier t t' ->
                  ((let '(y, m, d) := t in days_from_civil y m d)
                   < (let '(y, m, d) := t' in days_from_civil y m d))%Z).
  { intros [[y m] d] [[y' m'] d'] Hc Hc' Hlt.
    pose proof (timestamp_earlier _ _ Hc Hc' Hlt) as Hts.
    unfold timestamp in Hts.
    apply Z.mul_lt_mono_pos_r in Hts; [done|by vm_compute]. }
  destruct (earlier_trichotomy t1 t2) as [->|[H12|H21]].
  - split; split; try done; try lia.
    destruct t2 as [[y m] d]. unfold earlier. lia.
  - pose proof (Hlt _ _ Hc1 Hc2 H12). split; split; try done; try lia.
    intros ->. lia.
  - pose proof (Hlt _ _ Hc2 Hc1 H21). split; split; try lia.
    + intros H12. pose proof (Hlt _ _ Hc1 Hc2 H12). lia.
    + intros ->. lia.
Qed.

Lemma earlier_release_more_days_witness :
  earlier (2019, 11, 29)%Z (2023, 7, 14)%Z <-> (171 < 1494)%Z.
Proof.
  apply (earlier_release_more_days new_year_2024
           (2019, 11, 29)%Z (2023, 7, 14)%Z 1494 171).
  - unfold calendar_date. repeat split; by vm_compute.
  - unfold calendar_date. repeat split; by vm_compute.
  - by vm_compute.
  - by vm_compute.
Defined.

(** ** The anomaly filter: what it keeps *)

Lemma list_max_exists {A : Type} (f : A -> R) (l : list A) :
  l <> [] -> exists x, x ∈ l /\ forall x', x' ∈ l -> f x' <= f x.
Proof.
  induction l as [|a l IH]; [done|]. intros _.
  destruct l as [|b l].
  - exists a. split; [by left|]. intros x' ->%list_elem_of_singleton. lra.
  - destruct IH as (x & Hx & Hmax); [done|].
    destruct (Rle_dec (f x) (f a)) as [Hle|Hgt].
    + exists a. split; [by left|].
      intros x' [->|Hx']%elem_of_cons; [lra|]. specialize (Hmax _ Hx'). lra.
    + exists x. split; [by right|].
      intros x' [->|Hx']%elem_of_cons; [lra|]. by apply Hmax.
Qed.

(** In a sorted list without repetition exactly [j] entries are below the
    entry of rank [j]. *)
Lemma sorted_count_below_distinct (l : list R) (j : nat) :
  StronglySorted Rle l -> NoDup l -> (j < length l)%nat ->
  length (filter (fun x => (x < nth j l 0)%R) l) = j.
Proof.
  intros Hs. revert j. induction Hs as [|x l Hs IH Hx]; intros j Hnd Hj.
  - simpl in Hj. lia.
  - apply NoDup_cons in Hnd as [Hnot Hnd]. destruct j as [|j]; simpl in *.
    + rewrite filter_cons, decide_False by lra.
      rewrite filter_none; [done|].
      eapply Forall_impl; [exact Hx|]. intros y Hy. simpl. lra.
    + assert (Hin : nth j l 0 ∈ l) by (apply list_elem_of_In, nth_In; lia).
      rewrite Forall_forall in Hx. pose proof (Hx _ Hin) as Hle.
      assert (Hne : x <> nth j l 0) by (by intros ->).
      rewrite filter_cons, decide_True by lra. simpl.
      by rewrite IH by (done || lia).
Qed.

(** The percentile is at least the entry of the rank below it. *)
Lemma percentile_ge_prev (a : vector) (q : nat) :
  a <> [] -> (q <= 100)%nat ->
  nth ((length a - 1) * q / 100) (merge_sort Rle a) 0 <= percentile a q.
Proof.
  intros Ha Hq. unfold percentile.
  set (rank := ((length a - 1) * q)%nat).
  set (next := Nat.min (rank / 100 + 1) (length a - 1)).
  assert (Hlen : (0 < length a)%nat) by (destruct a; simpl; [done|lia]).
  assert (Hprev : (rank / 100 <= length a - 1)%nat).
  { apply Nat.Div0.div_le_upper_bound. unfold rank. nia. }
  assert (Hnext : (rank / 100 <= next < length a)%nat) by (unfold next; lia).
  assert (Hsorted : nth (rank / 100) (merge_sort Rle a) 0
                    <= nth next (merge_sort Rle a) 0).
  { apply sorted_nth_le; [apply (StronglySorted_merge_sort _)|].
    rewrite (Permutation_length (merge_sort_Permutation Rle a)). lia. }
  assert (Hgamma : 0 <= INR (rank mod 100) / 100).
  { pose proof (pos_INR (rank mod 100)) as H0.
    apply Rmult_le_pos; lra. }
  nra.
Qed.

Lemma filter_all {A : Type} (P : A -> Prop) `{!forall x, Decision (P x)}
    (l : list A) :
  Forall P l -> filter P l = l.
Proof.
  induction 1 as [|x l Hx _ IH]; [done|].
  by rewrite filter_cons_True, IH.
Qed.

Section anomaly_filter.
Context {Row Forest : Type}.
Variable numeric_features : Row -> list R.
Variable grow_forest : matrix -> Forest.
Variable score_samples : Forest -> list R -> R.


Lemma anomaly_detection_run (data : list Row) :
  data <> [] ->
  anomaly_detection numeric_features grow_forest score_samples data
  = Ok (map (fun r => (r, 1%Z))
          (filter (fun r => ~ anomaly_score numeric_features grow_forest score_samples data r
                              < percentile (map (anomaly_score numeric_features grow_forest score_samples data) data) 5)
                  data)) /\
  IsolationForest_fit_predict grow_forest score_samples
    (map numeric_features data)
  = Ok (map (fun r => if decide (anomaly_score numeric_features grow_forest score_samples data r
                                 < percentile (map (anomaly_score numeric_features grow_forest score_samples data) data) 5)
                      then (-1)%Z else 1%Z) data).
Proof.
  intros Hdata. unfold anomaly_detection, IsolationForest_fit_predict,
    IsolationForest_fit.
  destruct (map numeric_features data) as [|x0 X0] eqn:HX.
  { by destruct data. }
  rewrite <- HX. clear x0 X0 HX. rewrite !ret_bind.
  unfold IsolationForest_predict, decision_function. simpl.
  rewrite !map_map. unfold anomaly_score.
  set (score := fun r => score_samples (grow_forest (map numeric_features data))
                                       (numeric_features r)).
  set (p := percentile (map score data) 5).
  assert (Hlabels :
    map (fun x => if decide (score x - p < 0) then (-1)%Z else 1%Z) data
    = map (fun r => if decide (score r < p) then (-1)%Z else 1%Z) data).
  { apply map_ext. intros r. repeat case_decide; (done || lra). }
  change (Ok (filter (fun r : Row * Z => r.2 = 1%Z)
                (zip data (map (fun x => if decide (score x - p < 0)
                                         then (-1)%Z else 1%Z) data)))
          = Ok (map (fun r => (r, 1%Z))
                    (filter (fun r => ~ score r < p) data)) /\
          Ok (map (fun x => if decide (score x - p < 0)
                            then (-1)%Z else 1%Z) data)
          = Ok (map (fun r => if decide (score r < p)
                              then (-1)%Z else 1%Z) data)).
  rewrite Hlabels. split; [|done]. rewrite filter_labelled. do 2 f_equal.
  apply list_filter_iff. intros r. case_decide; split; (done || lra).
Qed.

(** With equal scores the threshold is that score, and no row is below
    it. *)
Lemma anomaly_detection_equal_scores (data : list Row) :
  data <> [] ->
  (forall r r', r ∈ data -> r' ∈ data ->
     anomaly_score numeric_features grow_forest score_samples data r
     = anomaly_score numeric_features grow_forest score_samples data r') ->
  anomaly_detection numeric_features grow_forest score_samples data
  = Ok (map (fun r => (r, 1%Z)) data).
Proof.
  intros Hdata Hequal.
  destruct (anomaly_detection_run data Hdata) as [-> _]. do 2 f_equal.
  apply filter_all, Forall_forall. intros r Hr.
  set (scores := map (anomaly_score numeric_features grow_forest
                                    score_samples data) data).
  destruct (percentile_le_next scores 5) as [Hp Hnext];
    [by destruct data|lia|].
  cbv zeta in Hp, Hnext. set (next := Nat.min _ _) in *.
  assert (Hin : nth next (merge_sort Rle scores) 0 ∈ scores).
  { set (x := nth next _ 0).
    assert (Hx : x ∈ merge_sort Rle scores).
    { apply list_elem_of_In, nth_In.
      by rewrite (Permutation_length (merge_sort_Permutation Rle _)). }
    by rewrite (merge_sort_Permutation Rle) in Hx. }
  apply list_elem_of_fmap in Hin as (r' & Heq & Hr').
  rewrite (Hequal r r' Hr Hr'). fold scores. lra.
Qed.

(** C6, amended.  On a dataset that is not empty the outlier filter returns
    rows of its input, in their order, each unchanged and with the label 1 in
    the new column [anomaly]: exactly the rows that the fitted forest does
    not flag.  The threshold of the forest lies between the scores of two
    neighbouring ranks, the rank being 5% of the rows but one, rounded down.
    So the filter removes at most that rank plus one row, which is at most
    5% of the rows plus one row; if the scores are pairwise different it
    removes at least that rank, hence some row from 21 rows on.  The result
    is not a strict subset in general: if all scores are equal, as for a
    single row, no row is removed. *)
Theorem anomaly_detection_conserves (data : list Row) :
  data <> [] ->
  let scores := map (anomaly_score numeric_features grow_forest
                                   score_samples data) data in
  let sorted := merge_sort Rle scores in
  let rank := ((length data - 1) * 5 / 100)%nat in
  exists forest kept,
    IsolationForest_fit grow_forest score_samples (map numeric_features data)
    = Ok forest /\
    anomaly_detection numeric_features grow_forest score_samples data
    = Ok kept /\
    kept.*1 `sublist_of` data /\
    Forall (fun r => r.2 = 1%Z) kept /\
    kept.*1
    = filter (fun r => ~ decision_function score_samples forest
                          (numeric_features r) < 0) data /\
    nth rank sorted 0 <= offset_ forest
    <= nth (Nat.min (rank + 1) (length data - 1)) sorted 0 /\
    (length data - length kept <= rank + 1)%nat /\
    (20 * (length data - length kept) <= length data + 20)%nat /\
    (NoDup scores -> (rank <= length data - length kept)%nat) /\
    (NoDup scores -> (21 <= length data)%nat ->
     (length kept < length data)%nat) /\
    ((forall r r', r ∈ data -> r' ∈ data ->
        anomaly_score numeric_features grow_forest score_samples data r
        = anomaly_score numeric_features grow_forest score_samples data r') ->
     kept.*1 = data).
Proof.
  intros Hdata scores sorted rank.
  destruct (anomaly_detection_run data Hdata) as [Hrun _].
  set (score := anomaly_score numeric_features grow_forest score_samples
                              data) in *.
  set (p := percentile scores 5).
  change (percentile (map score data) 5) with p in Hrun.
  assert (Hscores : scores <> []) by (unfold scores; by destruct data).
  assert (Hlen : length scores = length data).
  { unfold scores. by rewrite length_map. }
  assert (Hsorted_len : length sorted = length data).
  { unfold sorted.
    by rewrite (Permutation_length (merge_sort_Permutation Rle _)). }
  assert (Hfit : IsolationForest_fit grow_forest score_samples
                   (map numeric_features data)
                 = Ok (mkIsolationForest
                         (grow_forest (map numeric_features data)) p)).
  { unfold IsolationForest_fit, p, scores, score, anomaly_score.
    destruct data as [|r data]; [done|]. simpl map. by rewrite !map_map. }
  pose proof (percentile_ge_prev scores 5 Hscores ltac:(lia)) as Hlow.
  destruct (percentile_le_next scores 5 Hscores ltac:(lia)) as [Hhigh _].
  cbv zeta in Hhigh. rewrite Hlen in Hlow, Hhigh.
  fold rank sorted p in Hlow, Hhigh.
  assert (Hremoved :
    (length data - length (filter (fun r => ~ (score r < p)%R) data))%nat
    = length (filter (fun y => y < p) scores)).
  { unfold scores.
    rewrite (length_filter_map score (fun y => y < p)).
    pose proof (length_filter_complement (fun r => score r < p) data). lia. }
  assert (Hmost : (length (filter (fun y => (y < p)%R) scores)
                   <= rank + 1)%nat).
  { pose proof (count_below_percentile scores 5 Hscores ltac:(lia)) as H.
    by rewrite Hlen in H. }
  assert (Hleast : NoDup scores ->
            (rank <= length (filter (fun y => (y < p)%R) scores))%nat).
  { intros Hnd.
    assert (Hrank : (rank < length sorted)%nat).
    { rewrite Hsorted_len. unfold rank.
      assert (length data <> 0%nat) by (by destruct data).
      pose proof (Nat.Div0.mul_div_le ((length data - 1) * 5) 100). lia. }
    rewrite <- (sorted_count_below_distinct sorted rank) at 1;
      [|apply (StronglySorted_merge_sort _)
       |unfold sorted; by rewrite (merge_sort_Permutation Rle)
       |done].
    assert (Hperm :
      length (filter (fun x => x < nth rank sorted 0) sorted)
      = length (filter (fun x => x < nth rank sorted 0) scores)).
    { apply Permutation_length, filter_Permutation.
      apply (merge_sort_Permutation Rle). }
    rewrite Hperm. apply length_filter_impl. intros y Hy. lra. }
  eexists _, _. split; [exact Hfit|]. split; [exact Hrun|].
  rewrite fst_map_pair, length_map.
  split; [apply sublist_filter|].
  split.
  { apply Forall_forall. by intros r (x & -> & _)%list_elem_of_fmap. }
  split.
  { apply list_filter_iff. intros r.
    change (decision_function score_samples _ (numeric_features r))
      with (score r - p).
    split; intros H ?; apply H; lra. }
  cbn [offset_]. split; [done|].
  rewrite Hremoved. split; [done|]. split.
  { pose proof (Nat.Div0.mul_div_le ((length data - 1) * 5) 100).
    fold rank in H. lia. }
  split; [done|]. split.
  { intros Hnd Hbig. specialize (Hleast Hnd).
    assert (1 <= rank)%nat.
    { unfold rank. apply Nat.div_le_lower_bound; lia. }
    pose proof (length_filter (fun r => ~ (score r < p)%R) data). lia. }
  intros Hequal.
  pose proof (anomaly_detection_equal_scores data Hdata Hequal) as Hall.
  rewrite Hrun in Hall. injection Hall as Hall.
  apply (f_equal (fmap fst)) in Hall. by rewrite !fst_map_pair in Hall.
Qed.

(** X11.  The anomaly filter refuses an empty dataset with ValueError.  On
    any other dataset it succeeds and never removes every row: a row whose
    anomaly score no other row exceeds is always kept. *)
Theorem anomaly_detection_keeps_the_most_normal (data : list Row) :
  (data = [] ->
   anomaly_detection numeric_features grow_forest score_samples data
   = Raise ValueError) /\
  (data <> [] ->
   exists kept,
     anomaly_detection numeric_features grow_forest score_samples data
     = Ok kept /\
     kept <> [] /\
     forall r, r ∈ data ->
       (forall r', r' ∈ data -> anomaly_score numeric_features grow_forest score_samples data r' <= anomaly_score numeric_features grow_forest score_samples data r) ->
       (r, 1%Z) ∈ kept).
Proof.
  split; [by intros ->|]. intros Hdata.
  destruct (anomaly_detection_run data Hdata) as [-> _].
  eexists. split; [done|].
  assert (Hkept : forall r, r ∈ data ->
            (forall r', r' ∈ data -> anomaly_score numeric_features grow_forest score_samples data r' <= anomaly_score numeric_features grow_forest score_samples data r) ->
            (r, 1%Z) ∈ map (fun r => (r, 1%Z))
              (filter (fun r => ~ anomaly_score numeric_features grow_forest score_samples data r
                                  < percentile (map (anomaly_score numeric_features grow_forest score_samples data) data) 5)
                      data)).
  { intros r Hr Hmax.
    apply (list_elem_of_fmap_2 (fun r => (r, 1%Z))).
    apply list_elem_of_filter. split; [|done].
    destruct (percentile_le_next (map (anomaly_score numeric_features grow_forest score_samples data) data) 5) as [Hp Hnext];
      [by destruct data|lia|].
    cbv zeta in Hp, Hnext.
    set (next := Nat.min _ _) in *.
    assert (Hin : nth next (merge_sort Rle (map (anomaly_score numeric_features grow_forest score_samples data) data)) 0
                  ∈ map (anomaly_score numeric_features grow_forest score_samples data) data).
    { set (x := nth next _ 0).
      assert (Hx : x ∈ merge_sort Rle (map (anomaly_score numeric_features grow_forest score_samples data) data)).
      { apply list_elem_of_In, nth_In.
        by rewrite (Permutation_length (merge_sort_Permutation Rle _)). }
      by rewrite (merge_sort_Permutation Rle) in Hx. }
    apply list_elem_of_fmap in Hin as (r' & Heq & Hr').
    specialize (Hmax _ Hr'). lra. }
  split; [|exact Hkept].
  destruct (list_max_exists (anomaly_score numeric_features grow_forest score_samples data) data Hdata) as (r & Hr & Hmax).
  intros Hnil. specialize (Hkept r Hr Hmax). rewrite Hnil in Hkept.
  by apply elem_of_nil in Hkept.
Qed.

(** X12.  On a dataset that is not empty every row gets the label 1 or -1,
    and the number of anomalies that line 127 prints and the number of rows
    that line 128 keeps add up to the number of rows. *)
Theorem anomalies_reported (data : list Row) :
  data <> [] ->
  exists anomalies kept,
    IsolationForest_fit_predict grow_forest score_samples
      (map numeric_features data) = Ok anomalies /\
    anomaly_detection numeric_features grow_forest score_samples data
    = Ok kept /\
    length anomalies = length data /\
    Forall (fun z => z = 1%Z \/ z = (-1)%Z) anomalies /\
    (number_of_anomalies (zip data anomalies) + length kept)%nat
    = length data.
Proof.
  intros Hdata.
  destruct (anomaly_detection_run data Hdata) as [Hrun Hlabels].
  eexists _, _. split; [exact Hlabels|]. split; [exact Hrun|].
  split; [by rewrite length_map|]. split.
  { apply Forall_forall. intros z (r & -> & _)%list_elem_of_fmap.
    case_decide; auto. }
  rewrite length_map. unfold number_of_anomalies.
  set (label := fun r => if decide (anomaly_score numeric_features grow_forest score_samples data r
                                    < percentile (map (anomaly_score numeric_features grow_forest score_samples data) data) 5)
                         then (-1)%Z else 1%Z).
  set (p := percentile (map (anomaly_score numeric_features grow_forest score_samples data) data) 5).
  assert (Hcount : forall l : list Row,
    length (filter (fun r : Row * Z => r.2 = (-1)%Z) (zip l (map label l)))
    = length (filter (fun r => anomaly_score numeric_features grow_forest score_samples data r < p) l)).
  { induction l as [|r l IH]; [done|]. simpl zip. rewrite !filter_cons.
    simpl.
    destruct (decide (label r = (-1)%Z)) as [Hl|Hl],
      (decide (anomaly_score numeric_features grow_forest score_samples
                             data r < p)) as [Hs|Hs];
      simpl; rewrite ?IH; try done; exfalso; unfold label in Hl; fold p in Hl;
      case_decide; done. }
  rewrite Hcount. apply length_filter_complement.
Qed.
End anomaly_filter.

(** C6, as stated, fails: three rows with the same score are all kept, so
    the result is not a strict subset of the input. *)
Lemma equal_scores_keep_every_row :
  anomaly_detection (fun r : R => [r]) (fun _ => tt) first_feature [2; 2; 2]
  = Ok [(2, 1%Z); (2, 1%Z); (2, 1%Z)].
Proof.
  apply (anomaly_detection_equal_scores (fun r : R => [r]) (fun _ => tt)
           first_feature [2; 2; 2]); [done|].
  intros r r' Hr Hr'. rewrite !elem_of_cons, elem_of_nil in Hr, Hr'.
  destruct Hr as [->|[->|[->|[]]]], Hr' as [->|[->|[->|[]]]]; reflexivity.
Qed.

Lemma anomaly_detection_conserves_witness :
  exists kept,
    anomaly_detection (fun r : R => [r]) (fun _ => tt) first_feature
                      [3; 1; 2]
    = Ok kept /\
    kept.*1 `sublist_of` [3; 1; 2] /\
    Forall (fun r => r.2 = 1%Z) kept /\
    (3 - length kept <= 1)%nat.
Proof.
  pose proof (anomaly_detection_conserves
                (fun r : R => [r]) (fun _ => tt) first_feature [3; 1; 2]
                ltac:(discriminate)) as H.
  cbv zeta in H.
  destruct H as (forest & kept & _ & Hrun & Hsub & Hlabel & _ & _ & Hmost & _).
  exists kept. split; [exact Hrun|]. split; [exact Hsub|].
  split; [exact Hlabel|]. exact Hmost.
Defined.

Lemma anomalies_reported_witness :
  exists anomalies kept,
    IsolationForest_fit_predict (fun _ => tt) first_feature
      (map (fun r : R => [r]) [3; 1; 2]) = Ok anomalies /\
    anomaly_detection (fun r : R => [r]) (fun _ => tt) first_feature [3; 1; 2]
    = Ok kept /\
    length anomalies = 3%nat /\
    Forall (fun z => z = 1%Z \/ z = (-1)%Z) anomalies /\
    (number_of_anomalies (zip [3; 1; 2]%R anomalies) + length kept)%nat
    = 3%nat.
Proof.
  apply (anomalies_reported (fun r : R => [r]) (fun _ => tt) first_feature
           [3; 1; 2]).
  discriminate.
Defined.

(** ** The train/test split: sizes and rows *)

Lemma take_rows_app {A : Type} (i1 i2 : list nat) (l : list A) :
  take_rows (i1 ++ i2) l = take_rows i1 l ++ take_rows i2 l.
Proof. apply omap_app. Qed.

Lemma take_rows_all {A : Type} (l : list A) :
  take_rows (seq 0 (length l)) l = l.
Proof.
  unfold take_rows.
  assert (H : forall k (l1 l2 : list A), length l1 = k ->
            omap (fun i => (l1 ++ l2) !! i) (seq k (length l2)) = l2).
  { intros k l1 l2. revert k l1.
    induction l2 as [|x l2 IH]; intros k l1 Hk; [done|]. simpl.
    rewrite lookup_app_r by lia. rewrite Hk, Nat.sub_diag. simpl. f_equal.
    specialize (IH (S k) (l1 ++ [x])). rewrite <- app_assoc in IH.
    apply IH. rewrite length_app. simpl. lia. }
  apply (H 0%nat [] l eq_refl).
Qed.

Lemma take_rows_zip {A B : Type} (idx : list nat) (l : list A) (k : list B) :
  length l = length k ->
  zip (take_rows idx l) (take_rows idx k) = take_rows idx (zip l k).
Proof.
  intros Hlen. unfold take_rows.
  induction idx as [|i idx IH]; [done|]. simpl.
  rewrite lookup_zip_with.
  destruct (l !! i) as [x|] eqn:Hl, (k !! i) as [y|] eqn:Hk; simpl.
  - f_equal. exact IH.
  - apply lookup_lt_Some in Hl. apply lookup_ge_None in Hk. lia.
  - apply lookup_lt_Some in Hk. apply lookup_ge_None in Hl. lia.
  - exact IH.
Qed.

Lemma length_take_rows {A : Type} (idx : list nat) (l : list A) :
  Forall (fun i => (i < length l)%nat) idx ->
  length (take_rows idx l) = length idx.
Proof.
  unfold take_rows. induction 1 as [|i idx Hi _ IH]; [done|]. simpl.
  destruct (lookup_lt_is_Some_2 l i Hi) as [x ->]. simpl. f_equal. exact IH.
Qed.

Section split_facts.
Variable permutation : Z -> nat -> list nat.

(** A split that succeeds: the test rows are the first fifth of the seeded
    permutation, the training rows the others. *)
Lemma train_test_split_indices (X : matrix) (y : vector) (seed : Z)
    (s : Split) :
  permutation seed (length X) ≡ₚ seq 0 (length X) ->
  train_test_split permutation X y seed = Ok s ->
  exists train test,
    s = mkSplit (take_rows train X) (take_rows test X)
                (take_rows train y) (take_rows test y) /\
    test ++ train = permutation seed (length X) /\
    length test = ((length X + 4) / 5)%nat /\
    length train = (length X - (length X + 4) / 5)%nat /\
    (2 <= length X)%nat /\
    length y = length X /\
    Forall (fun i => (i < length X)%nat) train /\
    Forall (fun i => (i < length X)%nat) test.
Proof.
  intros Hperm. unfold train_test_split. cbv zeta.
  remember (length X) as n eqn:Hn.
  remember ((n + 4) / 5)%nat as n_test eqn:Hnt.
  remember (permutation seed n) as perm eqn:Hp.
  case_decide as Hlen; [done|]. case_decide as Htrain; [done|].
  intros [= <-].
  assert (Hy : length y = n) by (destruct (decide (length y = n)); tauto).
  assert (Hplen : length perm = n).
  { by rewrite (Permutation_length Hperm), length_seq. }
  assert (Hvalid : Forall (fun i => (i < n)%nat) perm).
  { apply Forall_forall. intros i Hi. rewrite Hperm in Hi.
    apply elem_of_seq in Hi. lia. }
  assert (Htest_le : (n_test <= n)%nat).
  { subst n_test. apply Nat.Div0.div_le_upper_bound. lia. }
  assert (Hdrop : take (n - n_test) (drop n_test perm) = drop n_test perm).
  { apply take_ge. rewrite length_drop. lia. }
  rewrite Hdrop. exists (drop n_test perm), (take n_test perm).
  split; [done|]. split; [apply take_drop|].
  split; [rewrite length_take; lia|]. split; [rewrite length_drop; lia|].
  split.
  { destruct n as [|[|n]]; [simpl in *; lia| |lia].
    subst n_test. simpl in Htrain. lia. }
  split; [done|]. split; [by apply Forall_drop|by apply Forall_take].
Qed.

(** X13.  When the random number generator returns a permutation of the row
    numbers, the split loses and repeats no row and keeps every row with its
    own target: the training rows and the test rows, each paired with its
    target, are together the rows of the data with theirs.  The test set has
    a fifth of the rows, rounded up. *)
Theorem train_test_split_partition (X : matrix) (y : vector) (seed : Z)
    (s : Split) :
  permutation seed (length X) ≡ₚ seq 0 (length X) ->
  train_test_split permutation X y seed = Ok s ->
  zip (split_X_train s) (split_y_train s)
    ++ zip (split_X_test s) (split_y_test s) ≡ₚ zip X y /\
  length (split_X_test s) = ((length X + 4) / 5)%nat /\
  length (split_y_test s) = ((length X + 4) / 5)%nat /\
  length (split_X_train s) = (length X - (length X + 4) / 5)%nat /\
  length (split_y_train s) = (length X - (length X + 4) / 5)%nat.
Proof.
  intros Hperm Hs.
  destruct (train_test_split_indices X y seed s Hperm Hs)
    as (train & test & -> & Hcat & Htest & Htrain & _ & Hy & Hvtrain & Hvtest).
  cbn [split_X_train split_X_test split_y_train split_y_test]. split.
  - rewrite !take_rows_zip by congruence. rewrite <- take_rows_app.
    rewrite <- (take_rows_all (zip X y)) at 2.
    unfold take_rows. apply omap_Permutation.
    rewrite length_zip_with, Hy, Nat.min_id.
    rewrite Permutation_app_comm, Hcat. exact Hperm.
  - rewrite !length_take_rows by (by rewrite ?Hy). lia.
Qed.

(** X14.  The split raises exactly when the features and the targets differ
    in length or the data has fewer than two rows, which would leave the
    training set empty; the exception is ValueError. *)
Theorem train_test_split_refuses (X : matrix) (y : vector) (seed : Z) :
  ((exists e, train_test_split permutation X y seed = Raise e) <->
   length y <> length X \/ (length X < 2)%nat) /\
  (forall e, train_test_split permutation X y seed = Raise e ->
             e = ValueError).
Proof.
  unfold train_test_split.
  assert (Hsmall : (length X - (length X + 4) / 5 = 0 <-> length X < 2)%nat).
  { destruct (length X) as [|[|n]]; [simpl; lia..|].
    pose proof (Nat.Div0.mul_div_le (S (S n) + 4) 5). lia. }
  case_decide as Hlen; [|case_decide as Htrain].
  - split; [|by intros e [= <-]]. split; [tauto|eauto].
  - split; [|by intros e [= <-]]. split; [|eauto].
    intros _. right. by apply Hsmall.
  - split; [|done]. split; [by intros [e ?]|].
    intros [?|?]; [done|]. destruct Htrain. by apply Hsmall.
Qed.
End split_facts.

Lemma train_test_split_partition_witness :
  exists s,
    train_test_split (fun _ n => seq 0 n) five_features five_targets 42
    = Ok s /\
    zip (split_X_train s) (split_y_train s)
      ++ zip (split_X_test s) (split_y_test s)
    ≡ₚ zip five_features five_targets.
Proof.
  eexists. split; [reflexivity|].
  refine (proj1 (train_test_split_partition (fun _ n => seq 0 n)
                   five_features five_targets 42 _ _ eq_refl)).
  reflexivity.
Defined.

(** ** The error metrics *)

Lemma zip_with_minus (g : R -> R) (l k : vector) :
  zip_with (fun t p => g (t - p)) l k = map g (zip_with Rminus l k).
Proof.
  revert k. induction l as [|t l IH]; intros [|p k]; simpl; try done.
  by rewrite IH.
Qed.

(** An error that does not depend on the sign of the difference is the same
    when the targets and the predictions change places. *)
Lemma zip_with_minus_swap (g : R -> R) (l k : vector) :
  (forall x, g (- x) = g x) ->
  zip_with (fun t p => g (t - p)) l k = zip_with (fun t p => g (t - p)) k l.
Proof.
  intros Hg. revert k. induction l as [|t l IH]; intros [|p k]; simpl;
    try done.
  rewrite IH. f_equal. rewrite <- Hg. f_equal. lra.
Qed.

Lemma zip_with_minus_same (l : vector) :
  Forall (fun x => x = 0) (zip_with Rminus l l).
Proof. induction l as [|t l IH]; simpl; constructor; [lra|done]. Qed.

Lemma Rsum_zeros (g : R -> R) (v : vector) :
  g 0 = 0 -> Forall (fun x => x = 0) v -> Rsum (map g v) = 0.
Proof.
  intros Hg. induction 1 as [|x v -> _ IH]; [done|].
  rewrite map_cons, Rsum_cons, IH. lra.
Qed.

Lemma mean_nonneg (v : vector) : Forall (fun x => 0 <= x) v -> 0 <= mean v.
Proof.
  intros Hall. unfold mean.
  assert (Hsum : 0 <= Rsum v).
  { induction Hall as [|x v Hx _ IH]; simpl; lra. }
  destruct (decide (v = [])) as [->|Hv]; [simpl; lra|].
  apply Rmult_le_pos; [done|].
  apply Rlt_le, Rinv_0_lt_compat. by apply INR_length_pos.
Qed.

Lemma root_mean_squared_error_nonneg (y_true y_pred : vector) :
  0 <= root_mean_squared_error y_true y_pred.
Proof. apply sqrt_pos. Qed.

(** X15.  The error metrics of lines 215-219 on a test set that is not
    empty: none is negative, each is 0 when every prediction is exact, and
    none depends on which of its two arguments holds the targets and which
    the predictions. *)
Theorem error_metrics_not_negative (y_true y_pred : vector) :
  y_true <> [] -> length y_pred = length y_true ->
  let mse := mean_squared_error y_true y_pred in
  let rmse := root_mean_squared_error y_true y_pred in
  let mae := mean_absolute_error y_true y_pred in
  0 <= mse /\ 0 <= rmse /\ 0 <= mae /\
  (y_pred = y_true -> mse = 0 /\ rmse = 0 /\ mae = 0) /\
  mean_squared_error y_pred y_true = mse /\
  root_mean_squared_error y_pred y_true = rmse /\
  mean_absolute_error y_pred y_true = mae.
Proof.
  intros Hne Hlen. cbv zeta.
  assert (Hswap : mean_squared_error y_pred y_true
                  = mean_squared_error y_true y_pred).
  { unfold mean_squared_error. f_equal.
    apply (zip_with_minus_swap (fun e => e ^ 2)). intros x. lra. }
  split.
  { unfold mean_squared_error. apply mean_nonneg.
    rewrite (zip_with_minus (fun e => e ^ 2)). apply Forall_forall.
    intros x (e & -> & _)%list_elem_of_fmap. apply pow2_ge_0. }
  split; [apply root_mean_squared_error_nonneg|].
  split.
  { unfold mean_absolute_error. apply mean_nonneg.
    rewrite (zip_with_minus Rabs). apply Forall_forall.
    intros x (e & -> & _)%list_elem_of_fmap. apply Rabs_pos. }
  split.
  { intros ->.
    assert (Hmse : mean_squared_error y_true y_true = 0).
    { unfold mean_squared_error, mean.
      rewrite (zip_with_minus (fun e => e ^ 2)).
      rewrite Rsum_zeros; [lra|lra|apply zip_with_minus_same]. }
    split; [done|]. split.
    - unfold root_mean_squared_error. rewrite Hmse. apply sqrt_0.
    - unfold mean_absolute_error, mean. rewrite (zip_with_minus Rabs).
      rewrite Rsum_zeros; [lra|apply Rabs_R0|apply zip_with_minus_same]. }
  split; [done|]. split.
  - unfold root_mean_squared_error. by rewrite Hswap.
  - unfold mean_absolute_error. f_equal.
    apply (zip_with_minus_swap Rabs). intros x. apply Rabs_Ropp.
Qed.

Lemma error_metrics_not_negative_witness :
  mean_squared_error [1; 5] [1; 5] = 0 /\
  root_mean_squared_error [1; 5] [1; 5] = 0 /\
  mean_absolute_error [1; 5] [1; 5] = 0.
Proof.
  refine (proj1 (proj2 (proj2 (proj2
            (error_metrics_not_negative [1; 5] [1; 5] _ _)))) eq_refl).
  - discriminate.
  - reflexivity.
Defined.

(** X16.  [r2_score] is undefined (NaN) on fewer than two test rows.  On two
    or more it never exceeds 1, and it is 1 when every prediction is
    exact. *)
Theorem r2_score_at_most_one (y_true y_pred : vector) :
  length y_pred = length y_true ->
  ((length y_true < 2)%nat -> r2_score y_true y_pred = None) /\
  ((2 <= length y_true)%nat ->
   exists r, r2_score y_true y_pred = Some r /\ r <= 1 /\
             (y_pred = y_true -> r = 1)).
Proof.
  intros Hlen. unfold r2_score. split.
  { intros Hshort. by rewrite decide_True. }
  intros Hlong. rewrite decide_False by lia. eexists. split; [done|].
  rewrite (zip_with_minus (fun e => e ^ 2)).
  set (d := zip_with Rminus y_true y_pred).
  pose proof (Rsum_squares_nonneg (fun x => x) d) as Hres.
  pose proof (Rsum_squares_nonneg (fun t => t - mean y_true) y_true) as Htot.
  cbv beta in Hres, Htot.
  assert (Hexact : y_pred = y_true -> Rsum (map (fun e => e ^ 2) d) = 0).
  { intros Heq. unfold d. rewrite Heq. apply Rsum_zeros; [lra|].
    apply zip_with_minus_same. }
  set (ss_res := Rsum (map (fun e => e ^ 2) d)) in *.
  set (ss_tot := Rsum (map (fun t => (t - mean y_true) ^ 2) y_true)) in *.
  destruct (decide (ss_tot = 0)) as [Ht|Ht].
  - destruct (decide (ss_res = 0)) as [Hr|Hr].
    + split; [lra|done].
    + split; [lra|]. intros Heq. by apply Hexact in Heq.
  - assert (Hpos : 0 < ss_tot) by lra.
    assert (Hratio : 0 <= ss_res / ss_tot).
    { apply Rmult_le_pos; [done|]. by apply Rlt_le, Rinv_0_lt_compat. }
    split; [lra|]. intros Heq. rewrite (Hexact Heq). lra.
Qed.

Lemma r2_score_at_most_one_witness :
  exists r, r2_score [1; 5] [2; 2] = Some r /\ r <= 1 /\
            ([2; 2] = [1; 5] -> r = 1).
Proof.
  apply (r2_score_at_most_one [1; 5] [2; 2]).
  - reflexivity.
  - simpl. lia.
Defined.

(** ** Folds of equal size *)

(** The sections of a run of consecutive numbers are runs of consecutive
    numbers of the requested sizes. *)
Lemma sections_seq (sizes : list nat) (a m : nat) :
  (sum_list sizes <= m)%nat ->
  Forall2 (fun sec s => exists b, sec = seq b s /\ (a <= b)%nat /\
                                  (b + s <= a + m)%nat)
          (sections sizes (seq a m)) sizes.
Proof.
  revert a m. induction sizes as [|s sizes IH]; intros a m Hsum; simpl.
  - constructor.
  - simpl in Hsum. constructor.
    + exists a. rewrite take_seq, Nat.min_l by lia. repeat split; lia.
    + rewrite drop_seq. eapply Forall2_impl; [apply IH; lia|].
      intros sec s' (b & -> & Hb1 & Hb2). exists b. split; [done|]. lia.
Qed.

Lemma length_complement_seq (n b s : nat) :
  (b + s <= n)%nat ->
  (length (complement n (seq b s)) + s)%nat = n.
Proof.
  intros Hb. unfold complement.
  pose proof (length_filter_complement (fun i => i ∉ seq b s) (seq 0 n))
    as Hsum.
  rewrite length_seq in Hsum.
  assert (Hin : filter (fun i => ~ (i ∉ seq b s)) (seq 0 n) ≡ₚ seq b s).
  { apply NoDup_Permutation.
    - apply NoDup_filter, NoDup_seq.
    - apply NoDup_seq.
    - intros i. rewrite list_elem_of_filter. split.
      + intros [Hi _]. by destruct (decide (i ∈ seq b s)).
      + intros Hi. split; [tauto|]. apply elem_of_seq in Hi.
        apply elem_of_seq. lia. }
  apply Permutation_length in Hin. rewrite length_seq in Hin. lia.
Qed.

(** X17.  The unshuffled 5-fold split behind [cross_val_score] and
    [GridSearchCV] refuses fewer rows than folds with ValueError.  Otherwise
    its folds are balanced: every held-out fold is a run of consecutive rows,
    is not empty, and has the [k]-th part of the rows, rounded down or up;
    the training rows of a fold are all the other rows. *)
Theorem KFold_balanced (k n : nat) :
  (0 < k)%nat ->
  ((n < k)%nat -> KFold k n = Raise ValueError) /\
  ((k <= n)%nat ->
   exists folds, KFold k n = Ok folds /\
     Forall (fun fold =>
               (exists b s, fold.2 = seq b s /\ (b + s <= n)%nat /\
                            (0 < s)%nat /\ (s = n / k \/ s = n / k + 1)%nat) /\
               (length fold.1 + length fold.2)%nat = n /\
               forall i, i ∈ fold.1 <-> (i < n)%nat /\ i ∉ fold.2)
            folds).
Proof.
  intros Hk. unfold KFold. split.
  { intros Hn. by rewrite decide_True. }
  intros Hn. rewrite decide_False by lia. eexists. split; [done|].
  apply Forall_fmap. unfold array_split. rewrite length_seq.
  pose proof (sections_seq (section_sizes n k) 0 n) as Hsec.
  rewrite sum_section_sizes in Hsec by done. specialize (Hsec (le_n _)).
  assert (Hdiv : (0 < n / k)%nat) by (apply Nat.div_str_pos; lia).
  assert (Hsizes : Forall (fun s => (0 < s)%nat /\
                                    (s = n / k \/ s = n / k + 1)%nat)
                          (section_sizes n k)).
  { unfold section_sizes. apply Forall_app. split; apply Forall_forall;
      intros s ->%elem_of_replicate_inv; lia. }
  eapply Forall2_Forall_l; [exact Hsec|].
  eapply Forall_impl; [exact Hsizes|].
  intros s [Hpos Hs] test (b & -> & _ & Hb). simpl in Hb. simpl.
  split; [exists b, s; by repeat split|]. split.
  - rewrite length_seq. by apply length_complement_seq.
  - intros i. unfold complement. rewrite list_elem_of_filter.
    rewrite (elem_of_seq 0 n). split; intros [? ?]; split; (done || lia).
Qed.

Lemma KFold_balanced_witness :
  exists folds, KFold 5 7 = Ok folds /\
    Forall (fun fold =>
              (exists b s, fold.2 = seq b s /\ (b + s <= 7)%nat /\
                           (0 < s)%nat /\ (s = 7 / 5 \/ s = 7 / 5 + 1)%nat) /\
              (length fold.1 + length fold.2)%nat = 7%nat /\
              forall i, i ∈ fold.1 <-> (i < 7)%nat /\ i ∉ fold.2)
           folds.
Proof. apply (KFold_balanced 5 7); lia. Defined.

(** ** The model cells as a whole *)

Section missing_names.
Variable lib : Library.
Implicit Types (ns : gmap string (value lib)).

Lemma run_lookup_missing name ns :
  ns !! name = None -> lookup_name lib name ns = Raise NameError.
Proof. unfold lookup_name. by intros ->. Qed.

Lemma run_get_matrix_missing name ns :
  ns !! name = None -> get_matrix lib name ns = Raise NameError.
Proof.
  intros Hname. unfold get_matrix. by rewrite run_bind, run_lookup_missing.
Qed.

Lemma run_get_scaler_missing name ns :
  ns !! name = None -> get_scaler lib name ns = Raise NameError.
Proof.
  intros Hname. unfold get_scaler. by rewrite run_bind, run_lookup_missing.
Qed.

Lemma run_get_dmatrix_missing name ns :
  ns !! name = None -> get_dmatrix lib name ns = Raise NameError.
Proof.
  intros Hname. unfold get_dmatrix. by rewrite run_bind, run_lookup_missing.
Qed.

(** X18.  The cells depend on the names that earlier cells bind.  The
    network's cell raises NameError when [X_train_scaled] is not bound, and
    the comparison cell when [scaler] is not: neither can run right after
    lines 195-196.  The comparison cell also needs [dall], which only the
    boosted trees' cell binds: run right after the network's cell it
    raises. *)
Theorem cells_need_earlier_cells :
  (forall ns, ns !! "X_train_scaled" = None ->
              neural_network_cell lib ns = Raise NameError) /\
  (forall ns, ns !! "scaler" = None ->
              comparison_cell lib ns = Raise NameError) /\
  (forall X y,
     neural_network_cell lib (features_and_target lib X y) = Raise NameError /\
     comparison_cell lib (features_and_target lib X y) = Raise NameError) /\
  (forall s scaler X y,
     exists e,
       comparison_cell lib
         (after_neural lib s scaler
            (after_linear lib s scaler (features_and_target lib X y)))
       = Raise e).
Proof.
  assert (Hneural : forall ns, ns !! "X_train_scaled" = None ->
                      neural_network_cell lib ns = Raise NameError).
  { intros ns Hname. unfold neural_network_cell. do 2 run_statement.
    rewrite run_bind, run_get_matrix_missing; [done|].
    by rewrite lookup_insert_ne by (by intros [=]). }
  assert (Hcomparison : forall ns, ns !! "scaler" = None ->
                          comparison_cell lib ns = Raise NameError).
  { intros ns Hname. unfold comparison_cell.
    by rewrite run_bind, run_get_scaler_missing. }
  split; [exact Hneural|]. split; [exact Hcomparison|]. split.
  { intros X y. split; [apply Hneural|apply Hcomparison];
      unfold features_and_target;
      by rewrite !lookup_insert_ne by (by intros [=]). }
  intros s scaler X y. unfold comparison_cell.
  unfold after_neural, after_linear, features_and_target.
  do 6 run_statement. rewrite run_bind.
  match goal with
  | |- context [call lib ?r] => destruct r as [linear_scores|e]
  end; [|erewrite run_call_Raise by reflexivity; by eexists].
  erewrite run_call_Ok by reflexivity. rewrite ret_bind. cbn [fst snd].
  do 2 run_statement. rewrite run_bind.
  match goal with
  | |- context [call lib ?r] => destruct r as [neural_scores|e]
  end; [|erewrite run_call_Raise by reflexivity; by eexists].
  erewrite run_call_Ok by reflexivity. rewrite ret_bind. cbn [fst snd].
  run_statement. rewrite run_bind, run_get_dmatrix_missing; [by eexists|].
  by rewrite !lookup_insert_ne by (by intros [=]).
Qed.
End missing_names.

(** ** How many rows the model cells need *)

Lemma length_transform scaler (X : matrix) :
  length (transform scaler X) = length X.
Proof. unfold transform. apply length_map. Qed.

Lemma StandardScaler_fit_Ok (X : matrix) :
  X <> [] -> exists scaler, StandardScaler_fit X = Ok scaler.
Proof. destruct X; [done|]. intros _. by eexists. Qed.

Lemma KFold_Ok (k n : nat) :
  (k <= n)%nat -> exists folds, KFold k n = Ok folds.
Proof. intros Hn. unfold KFold. rewrite decide_False by lia. by eexists. Qed.

Lemma KFold_Raise (k n : nat) : (n < k)%nat -> KFold k n = Raise ValueError.
Proof. intros Hn. unfold KFold. by rewrite decide_True. Qed.

Lemma cross_val_score_runs `{Estimator E} (estimator : E) (X : matrix)
    (y : vector) (cv : nat) :
  length y = length X -> (cv <= length X)%nat ->
  exists scores, cross_val_score estimator X y cv = Ok scores.
Proof.
  intros Hy Hn. unfold cross_val_score. rewrite decide_False by lia.
  destruct (KFold_Ok cv (length X) Hn) as [folds ->]. by eexists.
Qed.

Lemma train_size (n : nat) :
  ((n < 2 -> n - (n + 4) / 5 = 0) /\
   (2 <= n < 7 -> 0 < n - (n + 4) / 5 < 5) /\
   (7 <= n -> 5 <= n - (n + 4) / 5))%nat.
Proof.
  pose proof (Nat.div_mod_eq (n + 4) 5) as Hdiv.
  pose proof (Nat.mod_upper_bound (n + 4) 5) as Hmod. lia.
Qed.

Section rows_needed.
Variable lib : Library.

(** X19.  With a random number generator that returns permutations, and
    targets for every row, the model cells run to the end exactly on data of
    seven or more rows.  On fewer than two rows the split of the first cell
    raises ValueError.  On two to six rows the linear cell runs, and the grid
    search of the network's cell raises ValueError, for the training set has
    fewer rows than the five folds it asks for. *)
Theorem model_cells_need_seven_rows (X : matrix) (y : vector) :
  permutation lib 42 (length X) ≡ₚ seq 0 (length X) ->
  length y = length X ->
  ((length X < 2)%nat ->
   linear_regression_cell lib (features_and_target lib X y)
   = Raise ValueError) /\
  ((2 <= length X < 7)%nat ->
   exists ns1,
     linear_regression_cell lib (features_and_target lib X y) = Ok (tt, ns1) /\
     neural_network_cell lib ns1 = Raise ValueError) /\
  ((length X < 7)%nat ->
   model_cells lib (features_and_target lib X y) = Raise ValueError) /\
  ((7 <= length X)%nat ->
   exists ns, model_cells lib (features_and_target lib X y) = Ok (tt, ns)).
Proof.
  intros Hperm Hy.
  destruct (train_size (length X)) as (Hsmall & Hmid & Hbig).
  assert (Hlinear :
    linear_regression_cell lib (features_and_target lib X y)
    = s ← train_test_split (permutation lib) X y 42;
      scaler ← StandardScaler_fit (split_X_train s);
      Ok (tt, after_linear lib s scaler (features_and_target lib X y))).
  { by apply linear_regression_cell_run. }
  assert (Hrefuse : (length X < 2)%nat ->
            train_test_split (permutation lib) X y 42 = Raise ValueError).
  { intros Hn. unfold train_test_split.
    rewrite decide_False by (intros ?; congruence).
    rewrite decide_True; [done|]. by apply Hsmall. }
  assert (Hsplit : (2 <= length X)%nat ->
            exists s scaler,
              train_test_split (permutation lib) X y 42 = Ok s /\
              StandardScaler_fit (split_X_train s) = Ok scaler /\
              length (split_X_train s)
              = (length X - (length X + 4) / 5)%nat).
  { intros Hn.
    destruct (train_test_split (permutation lib) X y 42) as [s|e] eqn:Hs.
    - destruct (train_test_split_indices _ X y 42 s Hperm Hs)
        as (train & test & -> & _ & _ & Htrain & _ & _ & Hvalid & _).
      cbn [split_X_train].
      assert (Hlen : length (take_rows train X)
                     = (length X - (length X + 4) / 5)%nat).
      { by rewrite length_take_rows. }
      destruct (StandardScaler_fit_Ok (take_rows train X)) as [scaler Hfit].
      { intros Hnil. rewrite Hnil in Hlen. cbn [length] in Hlen. lia. }
      eexists _, scaler. split; [reflexivity|]. by split.
    - exfalso. revert Hs. unfold train_test_split.
      rewrite decide_False by (intros ?; congruence).
      rewrite decide_False; [done|]. lia. }
  assert (Hneural : forall s scaler,
            length (split_X_train s) = (length X - (length X + 4) / 5)%nat ->
            ((length X < 7)%nat ->
             neural_network_cell lib
               (after_linear lib s scaler (features_and_target lib X y))
             = Raise ValueError) /\
            ((7 <= length X)%nat ->
             neural_network_cell lib
               (after_linear lib s scaler (features_and_target lib X y))
             = Ok (tt, after_neural lib s scaler
                         (after_linear lib s scaler
                            (features_and_target lib X y))))).
  { intros s scaler Hlen. rewrite neural_network_cell_run.
    unfold X_train_scaled. rewrite length_transform, Hlen. split; intros Hn.
    - rewrite KFold_Raise; [done|].
      destruct (decide (length X < 2)%nat); lia.
    - destruct (KFold_Ok 5 (length X - (length X + 4) / 5)) as [folds ->];
        [lia|done]. }
  split; [|split; [|split]].
  - intros Hn. by rewrite Hlinear, (Hrefuse Hn).
  - intros [Hn2 Hn7]. destruct (Hsplit Hn2) as (s & scaler & Hs & Hfit & Hlen).
    eexists. rewrite Hlinear, Hs, ret_bind, Hfit, ret_bind. split; [done|].
    by apply Hneural.
  - intros Hn7. unfold model_cells. rewrite run_bind, Hlinear.
    destruct (decide (length X < 2)%nat) as [Hn2|Hn2].
    + by rewrite (Hrefuse Hn2).
    + destruct (Hsplit ltac:(lia)) as (s & scaler & Hs & Hfit & Hlen).
      rewrite Hs, ret_bind, Hfit, !ret_bind. cbn [fst snd].
      rewrite run_bind. by rewrite (proj1 (Hneural s scaler Hlen) Hn7).
  - intros Hn7. unfold model_cells. rewrite run_bind, Hlinear.
    destruct (Hsplit ltac:(lia)) as (s & scaler & Hs & Hfit & Hlen).
    rewrite Hs, ret_bind, Hfit, !ret_bind. cbn [fst snd].
    rewrite run_bind, (proj2 (Hneural s scaler Hlen) Hn7), ret_bind.
    cbn [fst snd]. rewrite run_bind.
    rewrite (xgboost_cell_run lib _ X y) by lookup_after.
    rewrite Hs, !ret_bind. cbn [fst snd].
    rewrite (comparison_cell_run lib _ scaler X y
               (linear_model lib s scaler) (best_neural_net lib s scaler))
      by lookup_after.
    destruct (cross_val_score_runs (linear_model lib s scaler)
                (transform scaler X) y 5) as [lin ->];
      [by rewrite length_transform|rewrite length_transform; lia|].
    destruct (cross_val_score_runs (best_neural_net lib s scaler)
                (transform scaler X) y 5) as [nn ->];
      [by rewrite length_transform|rewrite length_transform; lia|].
    by eexists.
Qed.
End rows_needed.

Lemma model_cells_need_seven_rows_witness :
  (exists ns, model_cells toy_library
                (features_and_target toy_library ten_features ten_targets)
              = Ok (tt, ns)) /\
  model_cells toy_library
    (features_and_target toy_library five_features five_targets)
  = Raise ValueError.
Proof.
  split.
  - apply (model_cells_need_seven_rows toy_library ten_features ten_targets);
      [reflexivity|reflexivity|simpl; lia].
  - apply (model_cells_need_seven_rows toy_library five_features five_targets);
      [reflexivity|reflexivity|simpl; lia].
Defined.

(** ** Running the model cells again *)

Section rerun.
Variable lib : Library.

(** X20.  The model cells can be run again: once they have run to the end,
    a second run from the namespace they left succeeds and leaves every
    name bound to the value it had. *)
Theorem model_cells_rerun (X : matrix) (y : vector)
    (ns : gmap string (value lib)) :
  model_cells lib (features_and_target lib X y) = Ok (tt, ns) ->
  model_cells lib ns = Ok (tt, ns).
Proof.
  intros Hrun. pose proof Hrun as Hfirst. revert Hrun.
  unfold model_cells at 1. rewrite run_bind.
  rewrite (linear_regression_cell_run lib _ X y) by done.
  intros (r1 & (s & Hs & (scaler & Hfit & [= <-])%bind_Ok)%bind_Ok
          & H)%bind_Ok.
  cbn [fst snd] in H. rewrite run_bind, neural_network_cell_run in H.
  destruct (KFold 5 (length (X_train_scaled s scaler))) as [folds|e] eqn:Hk;
    [|done].
  clear H.
  destruct (model_cells_run lib X y ns Hfirst)
    as (s' & scaler' & lin & nn & Hs' & Hfit' & Hlin & Hnn & ->).
  rewrite Hs in Hs'. injection Hs' as <-.
  rewrite Hfit in Hfit'. injection Hfit' as <-.
  set (ns0 := after_comparison lib scaler X y lin nn
                (after_xgboost lib s X y
                   (after_neural lib s scaler
                      (after_linear lib s scaler
                         (features_and_target lib X y))))).
  assert (HX : ns0 !! "X" = Some (VMatrix lib X)).
  { unfold ns0, after_comparison. lookup_after. }
  assert (Hy : ns0 !! "y" = Some (VVector lib y)).
  { unfold ns0, after_comparison. lookup_after. }
  unfold model_cells. rewrite run_bind.
  rewrite (linear_regression_cell_run lib _ X y HX Hy).
  rewrite Hs, ret_bind, Hfit, !ret_bind. cbn [fst snd].
  rewrite run_bind, neural_network_cell_run, Hk, !ret_bind. cbn [fst snd].
  rewrite run_bind.
  rewrite (xgboost_cell_run lib _ X y)
    by (unfold ns0, after_comparison; lookup_after).
  rewrite Hs, !ret_bind. cbn [fst snd].
  rewrite (comparison_cell_run lib _ scaler X y
             (linear_model lib s scaler) (best_neural_net lib s scaler))
    by (unfold ns0, after_comparison; lookup_after).
  rewrite Hlin, ret_bind, Hnn, ret_bind.
  (* the names are concrete: both namespaces are the same map *)
  reflexivity.
Qed.
End rerun.

Lemma model_cells_rerun_witness :
  exists ns,
    model_cells toy_library
      (features_and_target toy_library ten_features ten_targets)
    = Ok (tt, ns) /\
    model_cells toy_library ns = Ok (tt, ns).
Proof.
  destruct ten_songs_model_cells as (lin & nn & Hrun).
  eexists. split; [exact Hrun|].
  exact (model_cells_rerun toy_library ten_features ten_targets _ Hrun).
Defined.

(** ** The sign of the comparison values *)

Section comparison_signs.
Variable lib : Library.

(** X21.  [cross_val_score] returns negated errors, one score per fold and
    none above 0, which line 324 and line 325 negate again: the three values
    that the comparison chart shows are never negative. *)
Theorem comparison_values_not_negative (X : matrix) (y : vector)
    (ns : gmap string (value lib)) :
  model_cells lib (features_and_target lib X y) = Ok (tt, ns) ->
  exists s scaler linear_scores neural_scores (lin_reg nn xgboost : R),
    train_test_split (permutation lib) X y 42 = Ok s /\
    StandardScaler_fit (split_X_train s) = Ok scaler /\
    cross_val_score (linear_model lib s scaler) (transform scaler X) y 5
    = Ok linear_scores /\
    cross_val_score (best_neural_net lib s scaler) (transform scaler X) y 5
    = Ok neural_scores /\
    length linear_scores = 5%nat /\ length neural_scores = 5%nat /\
    Forall (fun x => x <= 0) linear_scores /\
    Forall (fun x => x <= 0) neural_scores /\
    ns !! "cross_val_score_lin_reg" = Some (VFloat lib (Some lin_reg)) /\
    ns !! "cross_val_score_nn" = Some (VFloat lib (Some nn)) /\
    ns !! "cross_val_score_xgboost" = Some (VFloat lib (Some xgboost)) /\
    0 <= lin_reg /\ 0 <= nn /\ 0 <= xgboost.
Proof.
  intros Hrun.
  destruct (model_cells_run lib X y ns Hrun)
    as (s & scaler & lin & nn & Hs & Hfit & Hlin & Hnn & ->).
  assert (Hscores : forall (E : Type) (H : Estimator E) (estimator : E)
                      scores,
            cross_val_score estimator (transform scaler X) y 5 = Ok scores ->
            length scores = 5%nat /\ Forall (fun x => x <= 0) scores /\
            0 <= mean_of_negated scores).
  { intros E H estimator scores. unfold cross_val_score.
    case_decide; [done|].
    intros (folds & Hfolds & [= <-])%bind_Ok.
    destruct (KFold_partition 5 _ folds ltac:(lia) Hfolds) as (Hlen & _).
    rewrite length_map. split; [done|]. split.
    - apply Forall_forall. intros x (fold & -> & _)%list_elem_of_fmap.
      pose proof (root_mean_squared_error_nonneg
                    (take_rows fold.2 y)
                    (predict (fit (clone estimator)
                                  (take_rows fold.1 (transform scaler X))
                                  (take_rows fold.1 y))
                             (take_rows fold.2 (transform scaler X)))).
      unfold fold_rmse. lra.
    - rewrite (mean_of_negated_scores (fold_rmse estimator _ y)).
      apply mean_nonneg, Forall_forall.
      intros x (fold & -> & _)%list_elem_of_fmap.
      apply root_mean_squared_error_nonneg. }
  destruct (Hscores _ _ _ _ Hlin) as (Hlen1 & Hneg1 & Hpos1).
  destruct (Hscores _ _ _ _ Hnn) as (Hlen2 & Hneg2 & Hpos2).
  exists s, scaler, lin, nn. eexists _, _, _.
  split; [done|]. split; [done|]. split; [done|]. split; [done|].
  split; [done|]. split; [done|]. split; [done|]. split; [done|].
  split; [unfold after_comparison; lookup_name|].
  split; [unfold after_comparison; lookup_name|].
  split; [unfold after_comparison; lookup_name|].
  split; [done|]. split; [done|].
  rewrite xgb_cv_test_rmse_mean.
  apply mean_nonneg, Forall_forall.
  intros x (i & -> & _)%list_elem_of_fmap.
  apply mean_nonneg, Forall_forall.
  intros x (r & -> & (k & test & -> & _)%elem_of_lookup_imap_1)
    %list_elem_of_fmap.
  apply root_mean_squared_error_nonneg.
Qed.
End comparison_signs.

Lemma comparison_values_not_negative_witness :
  exists ns (lin_reg nn xgboost : R),
    model_cells toy_library
      (features_and_target toy_library ten_features ten_targets)
    = Ok (tt, ns) /\
    ns !! "cross_val_score_lin_reg"
    = Some (VFloat toy_library (Some lin_reg)) /\
    ns !! "cross_val_score_nn" = Some (VFloat toy_library (Some nn)) /\
    ns !! "cross_val_score_xgboost"
    = Some (VFloat toy_library (Some xgboost)) /\
    0 <= lin_reg /\ 0 <= nn /\ 0 <= xgboost.
Proof.
  destruct ten_songs_model_cells as (lin & nn & Hrun).
  destruct (comparison_values_not_negative toy_library ten_features
              ten_targets _ Hrun)
    as (s & scaler & l1 & l2 & a & b & c & _ & _ & _ & _ & _ & _ & _ & _
        & Ha & Hb & Hc & Hpos).
  eexists _, a, b, c. split; [exact Hrun|].
  split; [exact Ha|]. split; [exact Hb|]. split; [exact Hc|]. exact Hpos.
Defined.

(** ** The fitted scaler *)

Lemma handle_zeros_in_scale_pos (s : R) :
  0 <= s -> 0 < handle_zeros_in_scale s.
Proof. intros Hs. unfold handle_zeros_in_scale. case_decide; lra. Qed.

(** X22.  A fitted scaler never divides by zero: it has one mean and one
    scale per feature, and every scale is positive (a constant feature gets
    the scale 1).  The transformation keeps the number of rows, and the
    width of every row that has one value per feature. *)
Theorem scaler_never_divides_by_zero (X : matrix) (scaler : StandardScaler) :
  StandardScaler_fit X = Ok scaler ->
  (exists row, head X = Some row /\
               length (mean_ scaler) = length row /\
               length (scale_ scaler) = length row) /\
  Forall (fun s => 0 < s) (scale_ scaler) /\
  forall X' : matrix,
    length (transform scaler X') = length X' /\
    (Forall (fun row => length row = length (scale_ scaler)) X' ->
     Forall (fun row => length row = length (scale_ scaler))
            (transform scaler X')).
Proof.
  unfold StandardScaler_fit. destruct X as [|row X]; [done|].
  intros [= <-]. cbn [mean_ scale_ head].
  split; [exists row; by rewrite !length_map, length_seq|].
  split.
  { apply Forall_forall. intros s (j & -> & _)%list_elem_of_fmap.
    apply handle_zeros_in_scale_pos, sqrt_pos. }
  intros X'. split; [apply length_transform|].
  intros Hwidth. unfold transform. cbn [mean_ scale_].
  apply Forall_forall. intros r' (r & -> & Hr)%list_elem_of_fmap.
  rewrite Forall_forall in Hwidth. specialize (Hwidth r Hr).
  rewrite !length_zip_with, !length_map, length_seq.
  rewrite length_map, length_seq in Hwidth. lia.
Qed.

Lemma scaler_never_divides_by_zero_witness :
  Forall (fun s => 0 < s) (scale_ constant_scaler).
Proof.
  refine (proj1 (proj2 (scaler_never_divides_by_zero constant_feature
                          constant_scaler _))).
  reflexivity.
Defined.

(** ** The folds of [xgb.cv] *)

Lemma omap_lookup_seq {A : Type} (l1 l2 l3 : list A) :
  omap (fun i => (l1 ++ l2 ++ l3) !! i) (seq (length l1) (length l2)) = l2.
Proof.
  revert l1. induction l2 as [|x l2 IH]; intros l1; [done|]. simpl.
  rewrite lookup_app_r by lia. rewrite Nat.sub_diag. simpl. f_equal.
  specialize (IH (l1 ++ [x])). rewrite <- !app_assoc in IH. simpl in IH.
  rewrite length_app in IH. simpl in IH.
  by replace (length l1 + 1)%nat with (S (length l1)) in IH by lia.
Qed.

Lemma omap_ext_in {A B : Type} (f g : A -> option B) (l : list A) :
  (forall x, x ∈ l -> f x = g x) -> omap f l = omap g l.
Proof.
  intros Hfg. apply list_omap_ext, Forall_Forall2_diag, Forall_forall.
  exact Hfg.
Qed.

(** The training rows of a fold are the rows of all other folds. *)
Lemma xgb_train_rows_others (folds : list (list nat)) (k : nat)
    (test : list nat) :
  folds !! k = Some test ->
  xgb_train_rows folds k
  = concat (take k folds) ++ concat (drop (S k) folds).
Proof.
  intros Hk. unfold xgb_train_rows. rewrite <- concat_app. f_equal.
  pose proof (take_drop_middle folds k test Hk) as Hmid.
  pose proof (lookup_lt_Some _ _ _ Hk) as Hlt.
  assert (Htake : length (take k folds) = k) by (rewrite length_take; lia).
  set (rest := length (drop (S k) folds)).
  assert (H1 : omap (fun i => folds !! i) (seq 0 k) = take k folds).
  { pose proof (omap_lookup_seq [] (take k folds)
                  (test :: drop (S k) folds)) as H.
    rewrite app_nil_l, Hmid, Htake in H. exact H. }
  assert (H2 : omap (fun i => folds !! i) (seq (S k) rest)
               = drop (S k) folds).
  { pose proof (omap_lookup_seq (take k folds ++ [test])
                  (drop (S k) folds) []) as H.
    rewrite app_nil_r, <- app_assoc in H. cbn [app] in H.
    rewrite Hmid, length_app, Htake in H. cbn [length] in H.
    by replace (k + 1)%nat with (S k) in H by lia. }
  assert (Hseq : seq 0 (length folds) = seq 0 k ++ k :: seq (S k) rest).
  { replace (length folds) with (k + S rest)%nat
      by (unfold rest; rewrite length_drop; lia).
    by rewrite seq_app. }
  rewrite Hseq, omap_app. cbn [omap list_omap].
  rewrite decide_True by done. f_equal.
  - rewrite <- H1. apply omap_ext_in.
    intros i Hi%elem_of_seq. by rewrite decide_False by lia.
  - rewrite <- H2. apply omap_ext_in.
    intros i Hi%elem_of_seq. by rewrite decide_False by lia.
Qed.

Section xgb_folds_facts.
Variable lib : Library.

(** X23.  When the random number generator returns a permutation of the row
    numbers, [xgb.cv] trains each fold on exactly the rows outside the
    held-out fold: the training rows and the held-out rows of a fold are
    together all the rows, each once, and no held-out row is among the
    training rows. *)
Theorem xgb_cv_folds_do_not_leak (n nfold : nat) (seed : Z) (k : nat)
    (test : list nat) :
  permutation lib seed n ≡ₚ seq 0 n ->
  (0 < nfold)%nat ->
  xgb_folds lib n nfold seed !! k = Some test ->
  let train := xgb_train_rows (xgb_folds lib n nfold seed) k in
  train ++ test ≡ₚ seq 0 n /\
  (forall i, i ∈ train -> i ∉ test) /\
  (length train + length test)%nat = n.
Proof.
  intros Hperm Hnfold Hk train. unfold train. clear train.
  set (F := xgb_folds lib n nfold seed) in *.
  assert (Hcat : concat F = permutation lib seed n).
  { apply (concat_array_split (permutation lib seed n) nfold Hnfold). }
  assert (Hc : concat F
               = concat (take k F) ++ test ++ concat (drop (S k) F)).
  { rewrite <- (take_drop_middle F k test Hk) at 1.
    by rewrite concat_app, concat_cons. }
  assert (Hall : xgb_train_rows F k ++ test ≡ₚ seq 0 n).
  { rewrite (xgb_train_rows_others _ _ _ Hk).
    rewrite <- Hperm, <- Hcat, Hc, <- app_assoc.
    apply Permutation_app_head, Permutation_app_comm. }
  split; [done|]. split.
  - assert (Hnd : NoDup (xgb_train_rows F k ++ test)).
    { rewrite Hall. apply NoDup_seq. }
    apply NoDup_app in Hnd as (_ & Hdisjoint & _). exact Hdisjoint.
  - apply Permutation_length in Hall.
    by rewrite length_app, length_seq in Hall.
Qed.
End xgb_folds_facts.

Lemma xgb_cv_folds_do_not_leak_witness :
  xgb_train_rows (xgb_folds toy_library 10 5 42) 1 ++ [2; 3]%nat
  ≡ₚ seq 0 10.
Proof.
  refine (proj1 (xgb_cv_folds_do_not_leak toy_library 10 5 42 1 [2; 3]%nat
                   _ _ _)).
  - reflexivity.
  - lia.
  - reflexivity.
Defined.
